(** * Voice-to-form pipeline of the hospital front end: model and properties

    A shallow embedding of the TypeScript sources that carry the
    voice-capture, transcription and field-mapping pipeline:

    - [frontend/src/lib/postProcessAdmission.ts] (normalizers, validation,
      [postProcessAdmission]),
    - [frontend/src/pages/Admission.tsx] ([mergeIfPresent] and the admission
      mapping handler),
    - the recorder component ([safeJson], [processAudio]) and
      [SimpleRecorder.tsx],
    - the nurse-handover page ([mapOutgoingFromTranscript],
      [mapIncomingFromTranscript]).

    Conventions of the model.

    - A JavaScript string is a Rocq [string]; a character stands for the
      UTF-16 code unit with the same number, so the model covers the code
      units 0..255 (ASCII and Latin-1).
    - [undefined] and [null] of an optional field are [None].
    - A JavaScript number that the pipeline handles is an integer ([Z]);
      [parseInt] gives the Number value of what it reads, which is rounded
      to 53 significant bits.
    - An object is the finite map of its own properties.  Where a call can
      change the prototype of an object or throw, its model gives the
      completion and the prototype as well ([mergeIfPresentCall]).
    - The platform (clock, time zone, random source, [JSON.parse], the HTTP
      layer) is a parameter of the functions that consult it. *)

From stdpp Require Import gmap strings list fin_maps.
From Stdlib Require Import ZArith Ascii String DecimalString Lia.

Open Scope string_scope.

(** ** Characters *)

Module Char.

Definition code (c : ascii) : nat := nat_of_ascii c.

(** [\d] *)
Definition isDigit (c : ascii) : bool :=
  (48 <=? code c)%nat && (code c <=? 57)%nat.

(** WhiteSpace and LineTerminator code units below 256: TAB, LF, VT, FF, CR,
    SP, NBSP.  This is the set removed by [String.prototype.trim] and matched
    by [\s]. *)
Definition isSpace (c : ascii) : bool :=
  let n := code c in
  ((9 <=? n)%nat && (n <=? 13)%nat) || (n =? 32)%nat || (n =? 160)%nat.

Definition isUpper (c : ascii) : bool :=
  let n := code c in
  ((65 <=? n)%nat && (n <=? 90)%nat)
  || ((192 <=? n)%nat && (n <=? 222)%nat && negb (n =? 215)%nat).

Definition toLower (c : ascii) : ascii :=
  if isUpper c then ascii_of_nat (code c + 32) else c.

Definition isAsciiLower (c : ascii) : bool :=
  (97 <=? code c)%nat && (code c <=? 122)%nat.

(** Upper-casing of the ASCII letters, all that [generatePatientId] and the
    form's gender label feed to [toUpperCase]. *)
Definition toUpper (c : ascii) : ascii :=
  if isAsciiLower c then ascii_of_nat (code c - 32) else c.

Definition eqb (a b : ascii) : bool := Ascii.eqb a b.

(** Equality of characters under the [i] flag of a regular expression. *)
Definition eqb_ci (a b : ascii) : bool := Ascii.eqb (toUpper a) (toUpper b).

End Char.

(** ** Strings: the [String.prototype] methods the sources call *)

Module Str.

Fixpoint map (f : ascii -> ascii) (s : string) : string :=
  match s with
  | EmptyString => EmptyString
  | String c r => String (f c) (map f r)
  end.

Fixpoint filter (p : ascii -> bool) (s : string) : string :=
  match s with
  | EmptyString => EmptyString
  | String c r => if p c then String c (filter p r) else filter p r
  end.

Definition isEmpty (s : string) : bool :=
  match s with EmptyString => true | _ => false end.

Definition toLowerCase (s : string) : string := map Char.toLower s.
Definition toUpperCase (s : string) : string := map Char.toUpper s.

Fixpoint trimStart (s : string) : string :=
  match s with
  | EmptyString => EmptyString
  | String c r => if Char.isSpace c then trimStart r else s
  end.

Fixpoint trimEnd (s : string) : string :=
  match s with
  | EmptyString => EmptyString
  | String c r =>
      let r' := trimEnd r in
      if Char.isSpace c && isEmpty r' then EmptyString else String c r'
  end.

(** [s.trim()] *)
Definition trim (s : string) : string := trimEnd (trimStart s).

(** [s.startsWith(p)] *)
Fixpoint startsWith (p s : string) : bool :=
  match p, s with
  | EmptyString, _ => true
  | String a p', String b s' => Char.eqb a b && startsWith p' s'
  | String _ _, EmptyString => false
  end.

(** [s.includes(p)] *)
Fixpoint includes (s p : string) : bool :=
  startsWith p s ||
  match s with
  | EmptyString => false
  | String _ r => includes r p
  end.

(** [s.substring(i, j)] for [i <= j]. *)
Definition substring (i j : nat) (s : string) : string :=
  String.substring i (j - i) s.

(** [s.slice(i)] for a non-negative [i]. *)
Fixpoint drop (n : nat) (s : string) : string :=
  match n, s with
  | O, _ => s
  | S n', String _ r => drop n' r
  | S _, EmptyString => EmptyString
  end.

Fixpoint replicate (n : nat) (c : ascii) : string :=
  match n with
  | O => EmptyString
  | S n' => String c (replicate n' c)
  end.

(** [s.padStart(n, c)] with a one-character filler. *)
Definition padStart (n : nat) (c : ascii) (s : string) : string :=
  replicate (n - String.length s) c +:+ s.

(** [s.split(re)] where [re] is a one-character class [sep]. *)
Fixpoint splitOn (sep : ascii -> bool) (s : string) : list string :=
  match s with
  | EmptyString => [EmptyString]
  | String c r =>
      if sep c then EmptyString :: splitOn sep r
      else match splitOn sep r with
           | [] => [String c EmptyString]
           | w :: ws => String c w :: ws
           end
  end.

(** [parts.join(sep)] *)
Fixpoint join (sep : string) (l : list string) : string :=
  match l with
  | [] => EmptyString
  | [x] => x
  | x :: r => x +:+ sep +:+ join sep r
  end.

(** Truthiness of a string. *)
Definition truthy (s : string) : bool := negb (isEmpty s).

(** [a || b] on strings. *)
Definition or (a b : string) : string := if truthy a then a else b.

End Str.

(** ** Numbers *)

Module Num.

(** [String(n)] of an integer. *)
Definition toString (z : Z) : string := NilZero.string_of_int (Z.to_int z).

Definition digitValue (c : ascii) : Z := (Z.of_nat (Char.code c) - 48)%Z.

Fixpoint digitsValueFrom (acc : Z) (s : string) : Z :=
  match s with
  | EmptyString => acc
  | String c r =>
      if Char.isDigit c then digitsValueFrom (10 * acc + digitValue c)%Z r
      else acc
  end.

(** The Number value of a mathematical integer: the integer itself up to
    2^53 in magnitude, and beyond that the nearest integer with a significand
    of 53 bits, a tie going to the even significand.  The model is exact for
    the numerals of up to twenty significant digits, which [parseInt] reads
    digit by digit; an engine may drop the digits of a longer numeral after
    the twentieth before it rounds, and a magnitude that rounds to 2^1024 or
    more is [Infinity] in JavaScript, which this model of numbers does not
    hold. *)
Definition toNumber (n : Z) : Z :=
  let a := Z.abs n in
  if (a <? 2 ^ 53)%Z then n
  else
    let e := (Z.log2 a - 52)%Z in
    let q := (a / 2 ^ e)%Z in
    let r := (a mod 2 ^ e)%Z in
    let half := (2 ^ (e - 1))%Z in
    let q' :=
      if (r <? half)%Z then q
      else if (half <? r)%Z then (q + 1)%Z
      else if Z.even q then q else (q + 1)%Z in
    (Z.sgn n * (q' * 2 ^ e))%Z.

(** [parseInt(s, 10)]: skip leading white space, read an optional sign and
    the longest run of decimal digits, and give the Number value of the
    signed integer they spell; [None] is [NaN]. *)
Definition parseInt (s : string) : option Z :=
  let t := Str.trimStart s in
  let '(neg, body) :=
    match t with
    | String c r =>
        if Char.eqb c "-" then (true, r)
        else if Char.eqb c "+" then (false, r)
        else (false, t)
    | EmptyString => (false, t)
    end in
  match body with
  | String c _ =>
      if Char.isDigit c
      then Some (toNumber (if neg then (- digitsValueFrom 0 body)%Z
                           else digitsValueFrom 0 body))
      else None
  | EmptyString => None
  end.

(** [Number(s)] on a run of decimal digits (a [\d+] capture). *)
Definition ofDigits (s : string) : Z := digitsValueFrom 0 s.

(** [clamp(n, min, max)] of the handover page:
    [Math.max(min, Math.min(max, n))]. *)
Definition clamp (n lo hi : Z) : Z := Z.max lo (Z.min hi n).

End Num.

(** ** Regular expressions

    The fragment of JavaScript regular expressions that the sources use,
    with the backtracking (leftmost, greedy, first alternative first)
    semantics of [RegExp.prototype.exec].  Every quantified atom in the
    sources is a one-character class, so [Rep] repeats a class. *)

Module Regex.

Inductive re :=
| Eps
| Chr (p : ascii -> bool)                        (* a class: \d \s [-/] [^.] *)
| Lit (ci : bool) (w : string)                   (* literal text; [ci] is flag i *)
| Seq (a b : re)
| Alt (a b : re)                                 (* a|b *)
| Opt (a : re)                                   (* a? *)
| Rep (p : ascii -> bool) (lo : nat) (hi : option nat)  (* c{lo,hi}, c*, c+ *)
| Grp (a : re)                                   (* capturing group *)
| Bol                                            (* ^ *)
| Eol.                                           (* $ *)

Definition Star (p : ascii -> bool) : re := Rep p 0 None.
Definition Plus (p : ascii -> bool) : re := Rep p 1 None.
Definition Times (p : ascii -> bool) (lo hi : nat) : re := Rep p lo (Some hi).

Fixpoint Cat (l : list re) : re :=
  match l with
  | [] => Eps
  | [a] => a
  | a :: r => Seq a (Cat r)
  end.

(** Strip the literal [w] from the front of [s]. *)
Fixpoint stripLit (ci : bool) (w s : string) : option string :=
  match w, s with
  | EmptyString, _ => Some s
  | String a w', String b s' =>
      if (if ci then Char.eqb_ci a b else Char.eqb a b)
      then stripLit ci w' s' else None
  | String _ _, EmptyString => None
  end.

Section Run.
Context {R : Type}.

(** Greedy repetition of a class: take a character while allowed, and give
    back one at a time when the continuation fails. *)
Fixpoint rep (p : ascii -> bool) (lo : nat) (hi : option nat)
    (s : string) (pos : nat) (k : string -> nat -> option R) : option R :=
  let stop := if (lo =? 0)%nat then k s pos else None in
  match hi with
  | Some O => stop
  | _ =>
      match s with
      | String c s' =>
          if p c
          then match rep p (Nat.pred lo) (option_map Nat.pred hi) s' (S pos) k with
               | Some x => Some x
               | None => stop
               end
          else stop
      | EmptyString => stop
      end
  end.

(** [run r s pos caps k]: match [r] at offset [pos], where [s] is the input
    from [pos] on and [caps] the captures so far; [k] continues with the rest
    of the pattern. *)
Fixpoint run (r : re) (s : string) (pos : nat) (caps : list string)
    (k : string -> nat -> list string -> option R) : option R :=
  match r with
  | Eps => k s pos caps
  | Chr p =>
      match s with
      | String c s' => if p c then k s' (S pos) caps else None
      | EmptyString => None
      end
  | Lit ci w =>
      match stripLit ci w s with
      | Some s' => k s' (pos + String.length w)%nat caps
      | None => None
      end
  | Seq a b => run a s pos caps (fun s' pos' caps' => run b s' pos' caps' k)
  | Alt a b =>
      match run a s pos caps k with
      | Some x => Some x
      | None => run b s pos caps k
      end
  | Opt a =>
      match run a s pos caps k with
      | Some x => Some x
      | None => k s pos caps
      end
  | Rep p lo hi => rep p lo hi s pos (fun s' pos' => k s' pos' caps)
  | Grp a =>
      run a s pos caps
        (fun s' pos' caps' =>
           k s' pos' (caps' ++ [String.substring 0 (pos' - pos) s])%list)
  | Bol => if (pos =? 0)%nat then k s pos caps else None
  | Eol => if Str.isEmpty s then k s pos caps else None
  end.

End Run.

(** The array returned by [exec] / [String.prototype.match]. *)
Record result := Result { index : nat; whole : string; groups : list string }.

Definition matchAt (r : re) (s : string) (pos : nat) : option result :=
  run r s pos []
    (fun _ pos' caps => Some (Result pos (String.substring 0 (pos' - pos) s) caps)).

Fixpoint execFrom (r : re) (s : string) (pos : nat) : option result :=
  match matchAt r s pos with
  | Some m => Some m
  | None =>
      match s with
      | String _ s' => execFrom r s' (S pos)
      | EmptyString => None
      end
  end.

(** [s.match(r)] *)
Definition exec (r : re) (s : string) : option result := execFrom r s 0.

(** [r.test(s)] *)
Definition test (r : re) (s : string) : bool :=
  match exec r s with Some _ => true | None => false end.

(** [m[i]] for a capture group [i >= 1]. *)
Definition group (m : result) (i : nat) : string := nth (i - 1) (groups m) "".

(** [s.match(r)?.[0] || ""] *)
Definition firstMatch (r : re) (s : string) : string :=
  match exec r s with Some m => whole m | None => "" end.

Definition isNot (c : ascii) : ascii -> bool := fun x => negb (Char.eqb x c).
Definition oneOf (cs : string) : ascii -> bool :=
  fun x => Str.includes cs (String x EmptyString).

End Regex.

Import Regex.

(** ** The platform clock

    [Date] values are milliseconds since the epoch.  The calendar functions
    follow ECMAScript's [Day], [TimeWithinDay], [YearFromTime],
    [MonthFromTime], [DateFromTime] on the proleptic Gregorian calendar. *)

Module Date.

Open Scope Z_scope.

Definition msPerDay : Z := 86400000.

(** The host's time zone: [LocalTZA(t, isUTC)], the local offset in
    milliseconds, and the text that [toTimeString] prints after the time. *)
Record Zone := { localTZA : Z -> bool -> Z; zoneText : Z -> string }.

Definition LocalTime (z : Zone) (t : Z) : Z := t + localTZA z t true.
Definition UTC (z : Zone) (t : Z) : Z := t - localTZA z t false.

(** Year, month (1..12) and day of month of a day number. *)
Definition civil (day : Z) : Z * Z * Z :=
  let z := day + 719468 in
  let era := z / 146097 in
  let doe := z - era * 146097 in
  let yoe := (doe - doe / 1460 + doe / 36524 - doe / 146096) / 365 in
  let doy := doe - (365 * yoe + yoe / 4 - yoe / 100) in
  let mp := (5 * doy + 2) / 153 in
  let d := doy - (153 * mp + 2) / 5 + 1 in
  let m := if mp <? 10 then mp + 3 else mp - 9 in
  let y := yoe + era * 400 + (if m <=? 2 then 1 else 0) in
  (y, m, d).

Definition pad (n : nat) (v : Z) : string := Str.padStart n "0" (Num.toString v).

Definition isoYear (y : Z) : string :=
  if (0 <=? y) && (y <=? 9999) then pad 4 y
  else (if y <? 0 then "-" else "+") +:+ pad 6 (Z.abs y).

Definition hourOf (t : Z) : Z := (t / 3600000) mod 24.
Definition minOf (t : Z) : Z := (t / 60000) mod 60.
Definition secOf (t : Z) : Z := (t / 1000) mod 60.
Definition msOf (t : Z) : Z := t mod 1000.

(** [d.toISOString()] *)
Definition toISOString (t : Z) : string :=
  let '(y, m, d) := civil (t / msPerDay) in
  isoYear y +:+ "-" +:+ pad 2 m +:+ "-" +:+ pad 2 d +:+ "T" +:+
  pad 2 (hourOf t) +:+ ":" +:+ pad 2 (minOf t) +:+ ":" +:+ pad 2 (secOf t)
  +:+ "." +:+ pad 3 (msOf t) +:+ "Z".

(** [d.toISOString().split('T')[0]] *)
Definition isoDate (t : Z) : string :=
  nth 0 (Str.splitOn (fun c => Char.eqb c "T") (toISOString t)) "".

(** [d.toTimeString()]: local [HH:MM:SS], then [ GMT+hhmm (zone name)]. *)
Definition toTimeString (z : Zone) (t : Z) : string :=
  let l := LocalTime z t in
  pad 2 (hourOf l) +:+ ":" +:+ pad 2 (minOf l) +:+ ":" +:+ pad 2 (secOf l)
  +:+ " GMT" +:+ zoneText z t.

(** [d.toTimeString().substring(0, 5)] *)
Definition localHHMM (z : Zone) (t : Z) : string :=
  Str.substring 0 5 (toTimeString z t).

(** [d.setDate(d.getDate() + n)]: the date is moved in local time, which
    shifts the local time value by [n] days, and converted back. *)
Definition addLocalDays (z : Zone) (t : Z) (n : Z) : Z :=
  UTC z (LocalTime z t + n * msPerDay).

Definition utcZone : Zone := {| localTZA := fun _ _ => 0; zoneText := fun _ => "+0000 (Coordinated Universal Time)" |}.

(** A zone that keeps one offset from UTC all year, in minutes east. *)
Definition fixedZone (minutesEast : Z) (text : string) : Zone :=
  {| localTZA := fun _ _ => minutesEast * 60000; zoneText := fun _ => text |}.

(** The day number of the calendar day on which the instant [t] falls, in
    UTC and on the local clock of the zone. *)
Definition utcDay (t : Z) : Z := t / msPerDay.
Definition localDay (z : Zone) (t : Z) : Z := LocalTime z t / msPerDay.

(** A calendar day written as year, month and day of month. *)
Definition ymd (day : Z) : string :=
  let '(y, m, d) := civil day in
  isoYear y +:+ "-" +:+ pad 2 m +:+ "-" +:+ pad 2 d.

End Date.

(** ** postProcessAdmission.ts: the field normalizers *)

Inductive Gender := male | female | other.

Definition Gender_toString (g : Gender) : string :=
  match g with male => "male" | female => "female" | other => "other" end.

(** [normalizeGender], lines 51-58.  [!gender] holds for [undefined], [null]
    and the empty string. *)
Definition normalizeGender (gender : option string) : Gender :=
  match gender with
  | None => other
  | Some g =>
      if Str.isEmpty g then other
      else
        let normalized := Str.trim (Str.toLowerCase g) in
        if Str.includes normalized "male" && negb (Str.includes normalized "female")
        then male
        else if Str.includes normalized "female" then female
        else other
  end.

(** [normalizeMobileNumber], lines 71-74. *)
Definition normalizeMobileNumber (mobile : option string) : string :=
  match mobile with
  | None => ""
  | Some m =>
      if Str.isEmpty m then ""
      else Str.substring 0 10 (Str.filter Char.isDigit m)
  end.

(** [normalizeAadhaarNumber], lines 77-84. *)
Definition normalizeAadhaarNumber (aadhaar : option string) : string :=
  match aadhaar with
  | None => ""
  | Some a =>
      if Str.isEmpty a then ""
      else
        let cleaned := Str.filter Char.isDigit a in
        if (String.length cleaned =? 12)%nat
        then Str.substring 0 4 cleaned +:+ " " +:+ Str.substring 4 8 cleaned
             +:+ " " +:+ Str.substring 8 12 cleaned
        else cleaned
  end.


Definition reISODate : re :=                      (* /^\d{4}-\d{2}-\d{2}$/ *)
  Cat [Bol; Times Char.isDigit 4 4; Lit false "-"; Times Char.isDigit 2 2;
       Lit false "-"; Times Char.isDigit 2 2; Eol].

Definition isDashOrSlash : ascii -> bool := oneOf "-/".

Definition reDMYDate : re :=                      (* /^\d{1,2}[-/]\d{1,2}[-/]\d{2,4}$/ *)
  Cat [Bol; Times Char.isDigit 1 2; Chr isDashOrSlash; Times Char.isDigit 1 2;
       Chr isDashOrSlash; Times Char.isDigit 2 4; Eol].

(** [normalizeDate], lines 87-126; [now] is the reading of [new Date()] in
    the branch that is taken. *)
Definition normalizeDate (z : Date.Zone) (now : Z) (date : option string) : string :=
  match date with
  | None => Date.isoDate now
  | Some d =>
      if Str.isEmpty d then Date.isoDate now
      else
        let dateStr := Str.trim d in
        if test reISODate dateStr then dateStr
        else if test reDMYDate dateStr then
          let parts := Str.splitOn isDashOrSlash dateStr in
          let day := Str.padStart 2 "0" (nth 0 parts "") in
          let month := Str.padStart 2 "0" (nth 1 parts "") in
          let year :=
            if (String.length (nth 2 parts "") =? 2)%nat
            then "20" +:+ nth 2 parts "" else nth 2 parts "" in
          year +:+ "-" +:+ month +:+ "-" +:+ day
        else if Str.includes (Str.toLowerCase dateStr) "today" then Date.isoDate now
        else if Str.includes (Str.toLowerCase dateStr) "tomorrow"
        then Date.isoDate (Date.addLocalDays z now 1)
        else if Str.includes (Str.toLowerCase dateStr) "yesterday"
        then Date.isoDate (Date.addLocalDays z now (-1))
        else Date.isoDate now
  end.

Definition reHHMM : re :=                         (* /^\d{1,2}:\d{2}$/ *)
  Cat [Bol; Times Char.isDigit 1 2; Lit false ":"; Times Char.isDigit 2 2; Eol].

Definition reAmPmTest : re :=                     (* /^\d{1,2}:\d{2}\s*(am|pm)$/i *)
  Cat [Bol; Times Char.isDigit 1 2; Lit true ":"; Times Char.isDigit 2 2;
       Star Char.isSpace; Grp (Alt (Lit true "am") (Lit true "pm")); Eol].

Definition reAmPm : re :=                         (* /^(\d{1,2}):(\d{2})\s*(am|pm)$/i *)
  Cat [Bol; Grp (Times Char.isDigit 1 2); Lit true ":"; Grp (Times Char.isDigit 2 2);
       Star Char.isSpace; Grp (Alt (Lit true "am") (Lit true "pm")); Eol].

(** [hours.toString().padStart(2, '0')] where [hours] may be [NaN]. *)
Definition hoursText (h : option Z) : string :=
  Str.padStart 2 "0" (match h with Some n => Num.toString n | None => "NaN" end).

(** [normalizeTime], lines 129-165. *)
Definition normalizeTime (z : Date.Zone) (now : Z) (time : option string) : string :=
  match time with
  | None => Date.localHHMM z now
  | Some t =>
      if Str.isEmpty t then Date.localHHMM z now
      else
        let timeStr := Str.trim t in
        if test reHHMM timeStr then
          let parts := Str.splitOn (fun c => Char.eqb c ":") timeStr in
          Str.padStart 2 "0" (nth 0 parts "") +:+ ":" +:+ nth 1 parts ""
        else
          match (if test reAmPmTest timeStr then exec reAmPm timeStr else None) with
          | Some m =>
              let hours := Num.parseInt (group m 1) in
              let minutes := group m 2 in
              let period := Str.toLowerCase (group m 3) in
              let hours' :=
                if String.eqb period "pm" && negb (bool_decide (hours = Some 12%Z))
                then option_map (fun h => (h + 12)%Z) hours
                else if String.eqb period "am" && bool_decide (hours = Some 12%Z)
                then Some 0%Z
                else hours in
              hoursText hours' +:+ ":" +:+ minutes
          | None =>
              if Str.includes (Str.toLowerCase timeStr) "now"
                 || Str.includes (Str.toLowerCase timeStr) "current"
              then Date.localHHMM z now
              else Date.localHHMM z now
          end
  end.

(** The type [number | string | undefined] of [RawAdmissionData.age]. *)
Inductive AgeValue := AgeNum (n : Z) | AgeStr (s : string).

(** [normalizeAge], lines 61-68. *)
Definition normalizeAge (age : option AgeValue) : Z :=
  match age with
  | Some (AgeNum n) => n
  | Some (AgeStr s) =>
      match Num.parseInt (Str.filter Char.isDigit s) with
      | Some parsed => parsed
      | None => 0%Z
      end
  | None => 0%Z
  end.

(** [n.toString(36)] of a non-negative integer. *)
Definition digit36 (d : Z) : ascii :=
  if (d <? 10)%Z then ascii_of_nat (48 + Z.to_nat d)
  else ascii_of_nat (87 + Z.to_nat d).

Fixpoint toString36_go (fuel : nat) (n : Z) (acc : string) : string :=
  let acc' := String (digit36 (n mod 36)) acc in
  match fuel with
  | O => acc'
  | S f => if (n / 36 =? 0)%Z then acc' else toString36_go f (n / 36) acc'
  end.

Definition toString36 (n : Z) : string :=
  toString36_go (Z.to_nat (Z.log2 n)) n "".

(** What one run of the post-processor reads from its host: the time zone,
    the value of each [new Date()] / [Date.now()] call site, and the text of
    [Math.random().toString(36)]. *)
Record Platform := {
  zone : Date.Zone;
  t_stamp : Z;        (* [now], line 211 *)
  t_id : Z;           (* [Date.now()] in generatePatientId *)
  t_date : Z;         (* [new Date()] in normalizeDate *)
  t_time : Z;         (* [new Date()] in normalizeTime *)
  random36 : string;  (* [Math.random().toString(36)] *)
}.

(** [generatePatientId], lines 44-48. *)
Definition generatePatientId (P : Platform) : string :=
  let timestamp := toString36 (t_id P) in
  let random := String.substring 2 5 (random36 P) in
  Str.toUpperCase ("PAT-" +:+ timestamp +:+ "-" +:+ random).

Record RawAdmissionData := {
  raw_name : option string;
  raw_age : option AgeValue;
  raw_gender : option string;
  raw_mobile_no : option string;
  raw_admitted_under_doctor : option string;
  raw_attender_name : option string;
  raw_relation : option string;
  raw_attender_mobile_no : option string;
  raw_aadhaar_number : option string;
  raw_admission_date : option string;
  raw_admission_time : option string;
  raw_ward : option string;
  raw_bed_number : option string;
  raw_reason : option string;
}.

Inductive Status := admitted | pending | discharged.

Record ProcessedAdmissionData := {
  patient_id : string;
  name : string;
  age : Z;
  gender : Gender;
  mobile_no : string;
  admitted_under_doctor : string;
  attender_name : string;
  relation : string;
  attender_mobile_no : string;
  aadhaar_number : string;
  admission_date : string;
  admission_time : string;
  ward : string;
  bed_number : string;
  reason : string;
  status : Status;
  created_at : string;
  updated_at : string;
}.

(** [!s || s.trim().length === 0] *)
Definition blank (s : string) : bool :=
  Str.isEmpty s || (String.length (Str.trim s) =? 0)%nat.

Record Validation := { isValid : bool; errors : list string }.

(** [errors.push(msg)] *)
Definition push (l : list string) (msg : string) : list string := (l ++ [msg])%list.

(** [validateProcessedData], lines 168-207. *)
Definition validateProcessedData (data : ProcessedAdmissionData) : Validation :=
  let errors : list string := [] in
  let errors :=
    if blank (name data) then push errors "Patient name is required" else errors in
  let errors :=
    if (age data <? 0)%Z || (120 <? age data)%Z
    then push errors "Age must be between 0 and 120" else errors in
  let errors :=
    if negb (String.length (mobile_no data) =? 10)%nat
    then push errors "Mobile number must be 10 digits" else errors in
  let errors :=
    if Str.truthy (aadhaar_number data)
       && negb (String.length
                  (Str.filter (fun c => negb (Char.isSpace c)) (aadhaar_number data))
                =? 12)%nat
    then push errors "Aadhaar number must be 12 digits" else errors in
  let errors :=
    if blank (admitted_under_doctor data)
    then push errors "Admitting doctor is required" else errors in
  let errors :=
    if blank (ward data) then push errors "Ward is required" else errors in
  let errors :=
    if blank (bed_number data) then push errors "Bed number is required" else errors in
  let errors :=
    if blank (reason data) then push errors "Admission reason is required" else errors in
  {| isValid := (List.length errors =? 0)%nat; errors := errors |}.

(** [rawData.f?.trim() || ''] *)
Definition trimmedOrEmpty (f : option string) : string :=
  match f with Some s => Str.trim s | None => "" end.

(** The record literal of lines 213-232. *)
Definition processedRecord (P : Platform) (rawData : RawAdmissionData)
    : ProcessedAdmissionData :=
  let now := Date.toISOString (t_stamp P) in
  {| patient_id := generatePatientId P;
     name := trimmedOrEmpty (raw_name rawData);
     age := normalizeAge (raw_age rawData);
     gender := normalizeGender (raw_gender rawData);
     mobile_no := normalizeMobileNumber (raw_mobile_no rawData);
     admitted_under_doctor := trimmedOrEmpty (raw_admitted_under_doctor rawData);
     attender_name := trimmedOrEmpty (raw_attender_name rawData);
     relation := trimmedOrEmpty (raw_relation rawData);
     attender_mobile_no := normalizeMobileNumber (raw_attender_mobile_no rawData);
     aadhaar_number := normalizeAadhaarNumber (raw_aadhaar_number rawData);
     admission_date := normalizeDate (zone P) (t_date P) (raw_admission_date rawData);
     admission_time := normalizeTime (zone P) (t_time P) (raw_admission_time rawData);
     ward := trimmedOrEmpty (raw_ward rawData);
     bed_number := trimmedOrEmpty (raw_bed_number rawData);
     reason := trimmedOrEmpty (raw_reason rawData);
     status := admitted;
     created_at := now;
     updated_at := now |}.

(** A [console.warn] call: the label and the list it prints. *)
Inductive ConsoleEntry := ConsoleWarn (label : string) (items : list string).

(** [postProcessAdmission], lines 210-241: the returned record together with
    what the call writes to the console. *)
Definition postProcessAdmission (P : Platform) (rawData : RawAdmissionData)
    : ProcessedAdmissionData * list ConsoleEntry :=
  let processed := processedRecord P rawData in
  let validation := validateProcessedData processed in
  let console :=
    if negb (isValid validation)
    then [ConsoleWarn "Admission data validation warnings:" (errors validation)]
    else [] in
  (processed, console).

(** ** JavaScript values and objects *)

#[warnings="-register-all"]
Inductive value :=
| VUndefined
| VNull
| VBool (b : bool)
| VNum (n : Z)
| VStr (s : string)
| VArr (l : list value)
| VObj (o : gmap string value).

(** A plain object: own enumerable string-keyed properties. *)
Abbreviation object := (gmap string value).

Module Value.

(** String coercion, as a template literal performs it: the string it gives
    where it completes.  [coercible] below tells when it completes. *)
Fixpoint toString (v : value) : string :=
  match v with
  | VUndefined => "undefined"
  | VNull => "null"
  | VBool b => if b then "true" else "false"
  | VNum n => Num.toString n
  | VStr s => s
  | VArr l =>
      Str.join ","
        (List.map (fun x => match x with
                            | VUndefined | VNull => ""
                            | _ => toString x
                            end) l)
  | VObj _ => "[object Object]"
  end.

(** Whether string coercion completes instead of raising a [TypeError].  A
    plain object is coerced by its [toString] property.  Without an own key
    of that name this is [Object.prototype.toString], which answers
    ["[object Object]"].  An own [toString] key of a parsed value holds no
    function; [valueOf] is tried next and, own or inherited, gives no
    primitive either, so the coercion throws.  An array is coerced by
    [join], which coerces each element that is neither [undefined] nor
    [null]. *)
Fixpoint coercible (v : value) : bool :=
  match v with
  | VArr l =>
      forallb (fun x => match x with
                        | VUndefined | VNull => true
                        | _ => coercible x
                        end) l
  | VObj o => bool_decide (o !! "toString" = None)
  | _ => true
  end.

Definition truthy (v : value) : bool :=
  match v with
  | VUndefined | VNull => false
  | VBool b => b
  | VNum n => negb (n =? 0)%Z
  | VStr s => Str.truthy s
  | VArr _ | VObj _ => true
  end.

(** [a || b] *)
Definition or (a b : value) : value := if truthy a then a else b.

(** [o.k] on a plain object. *)
Definition get (o : object) (k : string) : value := default VUndefined (o !! k).

(** [v.k] on any non-nullish value whose own properties are those of a parsed
    JSON value; only plain objects carry named properties. *)
Definition prop (v : value) (k : string) : value :=
  match v with VObj o => get o k | _ => VUndefined end.

End Value.

(** ** Admission.tsx: the merge policy *)

(** The guard of line 28:
    [v !== undefined && v !== null && `${v}`.trim() !== ""], for a value
    whose coercion completes. *)
Definition present (v : value) : bool :=
  match v with
  | VUndefined | VNull => false
  | _ => negb (Str.isEmpty (Str.trim (Value.toString v)))
  end.

(** [out[k] = v] on an object [out] whose prototype chain ends in
    [Object.prototype], for [v] other than [null].  A key that [out] owns is
    overwritten and any other key is added, with one exception: [__proto__]
    is an accessor of [Object.prototype], so when [out] has no own key of
    that name the assignment runs the setter.  The setter stores no own key;
    it makes an object or array [v] the prototype of [out] and ignores any
    other [v]. *)
Definition hitsProtoSetter (out : object) (k : string) : bool :=
  String.eqb k "__proto__" && bool_decide (out !! k = None).

Definition assign (out : object) (k : string) (v : value) : object :=
  if hitsProtoSetter out k then out else <[k := v]> out.

(** The prototype of an object: [Object.prototype], or a value that an
    assignment to [__proto__] has put in its place. *)
Inductive Prototype :=
| ObjectPrototype
| PrototypeValue (v : value).

Definition assignPrototype (out : object) (p : Prototype) (k : string) (v : value)
  : Prototype :=
  if hitsProtoSetter out k
  then match v with
       | VObj _ | VArr _ => PrototypeValue v
       | _ => p
       end
  else p.

(** An object as a call leaves it: own properties and prototype. *)
Record Instance := { ownProps : object; prototype : Prototype }.

Inductive Completion :=
| TypeError
| Normal (out : Instance).

(** One turn of the [forEach] of lines 27-29 on the entry [[k, v]]. *)
Definition mergeVisit (out : Instance) (kv : string * value) : Completion :=
  match kv.2 with
  | VUndefined | VNull => Normal out
  | v =>
      if Value.coercible v
      then if Str.isEmpty (Str.trim (Value.toString v))
           then Normal out
           else Normal {| ownProps := assign (ownProps out) kv.1 v;
                          prototype := assignPrototype (ownProps out) (prototype out)
                                                       kv.1 v |}
      else TypeError
  end.

(** [mergeIfPresent], lines 25-31, as a call: [out] starts as a copy of the
    own properties of [base], on the prototype of every object literal; the
    entries of [patch] are visited in turn, and the first value whose
    coercion throws ends the call. *)
Definition visit (acc : Completion) (kv : string * value) : Completion :=
  match acc with
  | Normal out => mergeVisit out kv
  | TypeError => TypeError
  end.

Definition mergeIfPresentCall (base patch : object) : Completion :=
  foldl visit (Normal {| ownProps := base; prototype := ObjectPrototype |})
        (map_to_list patch).

(** [v === undefined || v === null] *)
Definition isNullish (v : value) : bool :=
  match v with VUndefined | VNull => true | _ => false end.

(** A value on which the guard throws: neither [undefined] nor [null], with
    a string coercion that does not complete. *)
Definition throwsOn (v : value) : bool := negb (isNullish v) && negb (Value.coercible v).

(** The prototype that the loop leaves to an object with the own properties
    [out] and the prototype [p], from the entry of the patch at
    [__proto__]. *)
Definition prototypeAfter (out : object) (p : Prototype) (entry : option value)
  : Prototype :=
  match entry with
  | Some v => if present v then assignPrototype out p "__proto__" v else p
  | None => p
  end.

(** The own properties of [out] after one turn that completes. *)
Definition mergeStep (out : object) (kv : string * value) : object :=
  if present kv.2 then assign out kv.1 kv.2 else out.

(** The own properties of the object that [mergeIfPresent] returns when the
    call completes ([mergeIfPresentCall] gives the completion and the
    prototype as well). *)
Definition mergeIfPresent (base patch : object) : object :=
  foldl mergeStep base (map_to_list patch).

(** ** Admission.tsx: the mapping handler *)

(** What [await postJSON(url, body)] does: it throws an [Error] with a
    message, or returns the parsed reply, [null] included. *)
Inductive Reply (A : Type) :=
| Throws (message : string)
| Returns (body : option A).
Arguments Throws {A} message.
Arguments Returns {A} body.

Record AdmissionPage := {
  form : object;
  txAdmission : string;
  isMapping : bool;
  error : option string;
}.

(** [emptyForm], lines 19-23. *)
Definition emptyForm : object :=
  list_to_map
    [("name", VStr ""); ("age", VStr ""); ("gender", VStr "Male");
     ("mobile_no", VStr ""); ("aadhaar_number", VStr "");
     ("admission_date", VStr ""); ("admission_time", VStr ""); ("reason", VStr "")].

Definition newline : string := String (ascii_of_nat 10) EmptyString.

(** [`${form.k || alt}`] *)
Definition shown (form : object) (k alt : string) : string :=
  Value.toString (Value.or (Value.get form k) (VStr alt)).

(** The request text of lines 202-211. *)
Definition combinedText (form : object) (text : string) : string :=
  let uiSection :=
    "Full Name: " +:+ shown form "name" "" +:+ newline +:+
    "Age: " +:+ shown form "age" "Enter age" +:+ newline +:+
    "Gender: " +:+ shown form "gender" "" +:+ newline +:+
    "Mobile Number: " +:+ shown form "mobile_no" "" +:+ newline +:+
    "Admission Date options: " +:+ shown form "admission_date" "dd-mm-yyyy"
      +:+ " / Today / Tomorrow" +:+ newline +:+
    "Admission Time options: " +:+ shown form "admission_time" "--:--"
      +:+ " / Now / 9:00 AM" +:+ newline +:+
    "Reason: " +:+ shown form "reason" "Describe the reason for admission..." in
  "TRANSCRIPT" +:+ newline +:+ text +:+ newline +:+ newline +:+ "UI" +:+ newline
  +:+ uiSection.

(** [g[0].toUpperCase() + g.slice(1)] *)
Definition capitalize (g : string) : string :=
  Str.toUpperCase (String.substring 0 1 g) +:+ Str.drop 1 g.

(** The object literal of lines 222-231, built from the processed record and
    the previous form. *)
Definition admissionPatch (processed : ProcessedAdmissionData) (prev : object) : object :=
  list_to_map
    [("name", VStr (name processed));
     ("age", if negb (age processed =? 0)%Z
             then VStr (Num.toString (age processed)) else Value.get prev "age");
     ("gender", if Str.truthy (Gender_toString (gender processed))
                then VStr (capitalize (Gender_toString (gender processed)))
                else Value.get prev "gender");
     ("mobile_no", VStr (mobile_no processed));
     ("aadhaar_number", VStr (Str.or (aadhaar_number processed) ""));
     ("admission_date", VStr (admission_date processed));
     ("admission_time", VStr (admission_time processed));
     ("reason", VStr (reason processed))].

(** The message of the [TypeError] raised by [rawData.name] when the reply is
    [null] (V8's wording). *)
Definition nullReplyMessage : string :=
  "Cannot read properties of null (reading 'name')".

(** [mapAdmissionFromTranscript], lines 191-243: the page state after the
    handler has run to completion against the mapping service [api]. *)
Definition mapAdmissionFromTranscript (P : Platform)
    (api : string -> string -> Reply RawAdmissionData) (st : AdmissionPage)
    : AdmissionPage :=
  let text := Str.trim (Str.or (txAdmission st) "") in
  if Str.isEmpty text then st
  else
    match api "/api/map/admission" (combinedText (form st) text) with
    | Returns (Some raw) =>
        let processed := (postProcessAdmission P raw).1 in
        {| form := mergeIfPresent (form st) (admissionPatch processed (form st));
           txAdmission := txAdmission st;
           isMapping := false;
           error := None |}
    | Returns None =>
        {| form := form st;
           txAdmission := txAdmission st;
           isMapping := false;
           error := Some ("Failed to map admission data: " +:+ nullReplyMessage) |}
    | Throws message =>
        {| form := form st;
           txAdmission := txAdmission st;
           isMapping := false;
           error := Some ("Failed to map admission data: " +:+ message) |}
    end.

(** ** The recorder components: transcription of a finished recording *)

(** How the [fetch] of the transcription request ends. *)
Inductive FetchOutcome :=
| FetchRejects (name message : string)      (* the promise rejects *)
| FetchTimesOut                             (* the 120 s timer fires first *)
| FetchResponds (status : nat) (body : string).

(** [response.ok] *)
Definition responseOk (status : nat) : bool :=
  (200 <=? status)%nat && (status <=? 299)%nat.

(** What a run of the transcription step does, in order. *)
Inductive Effect :=
| SetIsProcessing (b : bool)
| SetErr (e : option string)
| SetProcessingTime (n : nat)
| SetLocalText (s : string)
| SetTranscript (s : string)
| OnTranscript (s : string)
| OnTranscribe (s : string)
| StartProcessingTimer
| ClearProcessingTimer
| StartTimeout (ms : Z)
| ClearTimeout
| AbortRequest
| Fetch (url : string) (fileName language : string).

Definition isFetch (e : Effect) : bool :=
  match e with Fetch _ _ _ => true | _ => false end.

Section Recorder.

(** [JSON.parse]: the parsed value, or the message of the [SyntaxError]. *)
Variable JSON_parse : string -> value + string.

(** [safeJson], lines 307-314. *)
Definition safeJson (t : string) : value :=
  match JSON_parse t with
  | inl v => v
  | inr _ => VObj (<["text" := VStr ""]> (<["_raw" := VStr t]> ∅))
  end.

(** Lines 400-406: the transcript read off a parsed response. *)
Definition extractTranscript (result : value) : value :=
  match result with
  | VStr s => VStr s
  | VArr _ | VObj _ =>
      Value.or (Value.or (Value.or (Value.prop result "text")
                                   (Value.prop result "transcript"))
                         (Value.prop result "result"))
               (VStr "")
  | _ => VStr ""
  end.

(** The [catch] block of [processAudio], lines 426-451, for an [Error] with
    the given name and message. *)
Definition processAudioCatch (name message : string) : list Effect :=
  [SetErr (Some (
     if String.eqb name "AbortError"
     then "Transcription timed out (120s). Please try recording again with clearer audio."
     else if Str.includes message "fetch"
     then "Network error: Cannot connect to backend. Please check your connection and try again."
     else "Transcription error: " +:+ message +:+ ". Please try speaking more clearly."));
   OnTranscript ""; OnTranscribe ""].

(** Lines 377-394: the message for a response that is not ok. *)
Definition statusMessage (status : nat) : string :=
  if (status =? 500)%nat then "Backend error - check if ffmpeg is installed"
  else if (status =? 404)%nat then "Transcription service not found - check backend"
  else if (status =? 0)%nat then "Cannot connect to backend - is it running?"
  else "Transcription failed (" +:+ Num.toString (Z.of_nat status) +:+ ")".

(** Lines 410-423: delivery of the extracted transcript.  A truthy value that
    is not a string has no [trim] method, which raises a [TypeError]. *)
Definition deliverTranscript (transcript : value) : list Effect :=
  match transcript with
  | VStr s =>
      if Str.truthy s && Str.truthy (Str.trim s)
      then [OnTranscript (Str.trim s); OnTranscribe (Str.trim s);
            SetLocalText (Str.trim s)]
      else [OnTranscript ""; OnTranscribe "";
            SetLocalText "No transcript received from server"]
  | _ =>
      if Value.truthy transcript
      then processAudioCatch "TypeError" "transcript.trim is not a function"
      else [OnTranscript ""; OnTranscribe "";
            SetLocalText "No transcript received from server"]
  end.

(** [processAudio], lines 316-461, for a blob of [size] bytes.  [apiBase] is
    [VITE_API_BASE ?? "http://localhost:8000"]; [net] tells how the request
    ends if it is issued. *)
Definition processAudio (enableTranscription : bool) (apiBase : string)
    (net : FetchOutcome) (size : nat) : list Effect :=
  let finally_ (timerRunning : bool) : list Effect :=
    ([SetIsProcessing false; SetProcessingTime 0]
     ++ (if timerRunning then [ClearProcessingTimer] else []))%list in
  ([SetIsProcessing true; SetErr None; SetProcessingTime 0]
   ++
   (if (size =? 0)%nat
    then processAudioCatch "Error" "Audio blob is empty - no audio was recorded"
         ++ finally_ false
    else if negb enableTranscription
    then [OnTranscript "Audio recorded (transcription disabled)";
          OnTranscribe "Audio recorded (transcription disabled)";
          SetLocalText "Audio recorded (transcription disabled)";
          SetIsProcessing false]
         ++ finally_ false
    else
      [StartProcessingTimer; StartTimeout 120000%Z;
       Fetch (apiBase +:+ "/api/transcribe") "rec.webm" "auto"]
      ++
      (match net with
       | FetchTimesOut =>
           [AbortRequest;
            SetErr (Some "Transcription timed out (120s). Please try recording again with clearer audio.");
            SetIsProcessing false]
           ++ processAudioCatch "AbortError" "The operation was aborted."
       | FetchRejects name message => processAudioCatch name message
       | FetchResponds status body =>
           ClearTimeout ::
           (if negb (responseOk status)
            then [SetErr (Some (statusMessage status)); SetIsProcessing false]
            else deliverTranscript (extractTranscript (safeJson body)))
       end)
      ++ finally_ true))%list.

(** [SimpleRecorder]'s [mediaRecorder.onstop], lines 40-89.  This component
    arms no timer: with [FetchTimesOut] the request simply stays pending. *)
Definition simpleRecorderOnStop (net : FetchOutcome) (size : nat) : list Effect :=
  let catch_ (message : string) : list Effect :=
    [SetErr (Some message); SetIsProcessing false] in
  (SetIsProcessing true ::
   (if (size =? 0)%nat then catch_ "No audio recorded"
    else
      Fetch "http://localhost:8000/api/transcribe" "recording.webm" "auto" ::
      match net with
      | FetchTimesOut => []
      | FetchRejects _ message => catch_ message
      | FetchResponds status body =>
          if negb (responseOk status)
          then catch_ ("API error: " +:+ Num.toString (Z.of_nat status) +:+ " - " +:+ body)
          else
            match JSON_parse body with
            | inr message => catch_ message
            | inl VNull => catch_ "Cannot read properties of null (reading 'text')"
            | inl VUndefined => catch_ "Cannot read properties of undefined (reading 'text')"
            | inl result =>
                match Value.or (Value.prop result "text") result with
                | VStr s =>
                    if Str.truthy s && Str.truthy (Str.trim s)
                    then [SetTranscript s; OnTranscript s; SetIsProcessing false]
                    else catch_ "No transcript received from server"
                | v =>
                    if Value.truthy v
                    then catch_ "transcribedText.trim is not a function"
                    else catch_ "No transcript received from server"
                end
            end
      end))%list.

End Recorder.

(** ** The nurse-handover page: mapping handlers *)

Record Vitals := { bp : string; hr : string; temp : string; spo2 : string }.

Record HandoverData := {
  outgoingNurse : string;
  currentPatientStatus : string;
  vitals : Vitals;
  medsGiven : string;
  medsDue : string;
  pendingInvestigations : string;
  outgoingSignature : string;
  incomingNurse : string;
  verification : string;
  medications : string;
  investigations : string;
  acknowledgement : string;
  incomingSignature : string;
  inchargeVerification : string;
  inchargeMedications : string;
  inchargeAuditLog : string;
  inchargeSignature : string;
  summary : string;
}.

(** [initialData], lines 52-79. *)
Definition initialData : HandoverData :=
  {| outgoingNurse := ""; currentPatientStatus := "";
     vitals := {| bp := ""; hr := ""; temp := ""; spo2 := "" |};
     medsGiven := ""; medsDue := ""; pendingInvestigations := "";
     outgoingSignature := "";
     incomingNurse := ""; verification := ""; medications := "";
     investigations := ""; acknowledgement := ""; incomingSignature := "";
     inchargeVerification := ""; inchargeMedications := "";
     inchargeAuditLog := ""; inchargeSignature := "";
     summary := "" |}.

Inductive Toast := ToastSuccess (msg : string) | ToastError (msg : string).

(** The fields that the outgoing handler reads from the reply of
    [/api/map/handover_outgoing]; each may be missing. *)
Record OutgoingReply := {
  vital_signs : option string;
  patient_condition : option string;
  out_medications : option (list string);
  pending_tasks : option (list string);
  special_instructions : option string;
}.


Module HandoverRe.

Definition ws : re := Star Char.isSpace.                 (* \s* *)
Definition num : re := Plus Char.isDigit.                (* \d+ *)
Definition rest : re := Star (isNot ".").                (* [^.]* *)
Definition decimal : re :=                               (* \d+(?:\.\d+)? *)
  Cat [num; Opt (Cat [Lit true "."; num])].

Definition bp1 := Cat [Lit true "BP"; ws; Grp num; ws; Lit true "/"; ws; Grp num].
Definition bp2 :=
  Cat [Lit true "blood pressure"; ws; Grp num; ws; Lit true "/"; ws; Grp num].
Definition bp3 := Cat [Grp num; ws; Lit true "by"; ws; Grp num].
Definition hr1 := Cat [Lit true "HR"; ws; Grp num].
Definition hr2 := Cat [Lit true "heart rate"; ws; Grp num].
Definition temp1 := Cat [Lit true "temp"; ws; Grp decimal].
Definition temp2 := Cat [Lit true "temperature"; ws; Grp decimal].
Definition temp3 := Cat [Lit true "temp"; ws; Grp num].
Definition spo1 := Cat [Lit true "spo"; Opt (Lit true "2"); ws; Grp num].
Definition spo2 := Cat [Lit true "oxygen"; ws; Grp num].
Definition spo3 := Cat [Lit true "SPO"; ws; Grp num].

(** /patient status[^.]*stable[^.]*/i and /status[^.]*stable[^.]*/i *)
Definition status1 := Cat [Lit true "patient status"; rest; Lit true "stable"; rest].
Definition status2 := Cat [Lit true "status"; rest; Lit true "stable"; rest].
(** /medications?[^.]*/i *)
Definition meds := Cat [Lit true "medication"; Opt (Lit true "s"); rest].
(** /pending[^.]*/i *)
Definition pendingRe := Cat [Lit true "pending"; rest].

End HandoverRe.

(** [a || b] on the results of [match]. *)
Definition orMatch (a b : option result) : option result :=
  match a with Some _ => a | None => b end.

(** [(xs ?? []).join("; ")] *)
Definition joined (xs : option (list string)) : string :=
  Str.join "; " (default [] xs).

Definition degreesF : string := String (ascii_of_nat 176) "F".

(** The three heuristic extractions of lines 181-183. *)
Definition fallbackStatus (text : string) : string :=
  Str.or (firstMatch HandoverRe.status1 text)
         (Str.or (firstMatch HandoverRe.status2 text) "").
Definition fallbackMeds (text : string) : string :=
  Str.or (firstMatch HandoverRe.meds text) "".
Definition fallbackTasks (text : string) : string :=
  Str.or (firstMatch HandoverRe.pendingRe text) "".

(** The body of the [try] block of [mapOutgoingFromTranscript], lines
    165-192, for a reply [m] ([None] is a [null] reply). *)
Definition outgoingUpdate (m : option OutgoingReply) (text : string)
    (formData : HandoverData) : HandoverData :=
  let field {A} (f : OutgoingReply -> option A) : option A := m ≫= f in
  let vitalSigns := Str.or (default "" (field vital_signs)) text in
  let bpMatch :=
    orMatch (exec HandoverRe.bp1 vitalSigns)
      (orMatch (exec HandoverRe.bp2 vitalSigns) (exec HandoverRe.bp3 vitalSigns)) in
  let hrMatch :=
    orMatch (exec HandoverRe.hr1 vitalSigns)
      (orMatch (exec HandoverRe.hr2 vitalSigns) (exec HandoverRe.hr1 vitalSigns)) in
  let tempMatch :=
    orMatch (exec HandoverRe.temp1 vitalSigns)
      (orMatch (exec HandoverRe.temp2 vitalSigns) (exec HandoverRe.temp3 vitalSigns)) in
  let spo2Match :=
    orMatch (exec HandoverRe.spo1 vitalSigns)
      (orMatch (exec HandoverRe.spo2 vitalSigns) (exec HandoverRe.spo3 vitalSigns)) in
  let bp' := match bpMatch with
             | Some r => group r 1 +:+ "/" +:+ group r 2
             | None => bp (vitals formData) end in
  let hr' := match hrMatch with
             | Some r => group r 1
             | None => hr (vitals formData) end in
  let temp' := match tempMatch with
               | Some r => group r 1 +:+ degreesF
               | None => temp (vitals formData) end in
  let spo2' := match spo2Match with
               | Some r => Num.toString (Num.clamp (Num.ofDigits (group r 1)) 0 100)
               | None => spo2 (vitals formData) end in
  {| outgoingNurse := outgoingNurse formData;
     currentPatientStatus :=
       Str.or (default "" (field patient_condition))
         (Str.or (fallbackStatus text) (currentPatientStatus formData));
     vitals := {| bp := bp'; hr := hr'; temp := temp'; spo2 := spo2' |};
     medsGiven :=
       Str.or (joined (field out_medications))
         (Str.or (fallbackMeds text) (medsGiven formData));
     medsDue :=
       Str.or (joined (field pending_tasks))
         (Str.or (fallbackTasks text) (medsDue formData));
     pendingInvestigations :=
       Str.or (default "" (field special_instructions))
         (pendingInvestigations formData);
     outgoingSignature := outgoingSignature formData;
     incomingNurse := incomingNurse formData;
     verification := verification formData;
     medications := medications formData;
     investigations := investigations formData;
     acknowledgement := acknowledgement formData;
     incomingSignature := incomingSignature formData;
     inchargeVerification := inchargeVerification formData;
     inchargeMedications := inchargeMedications formData;
     inchargeAuditLog := inchargeAuditLog formData;
     inchargeSignature := inchargeSignature formData;
     summary := summary formData |}.

(** [mapOutgoingFromTranscript], lines 159-200: the form and the toasts shown
    once the handler has run against the mapping service [api]. *)
Definition mapOutgoingFromTranscript
    (api : string -> string -> Reply OutgoingReply)
    (txOutgoing : string) (formData : HandoverData) : HandoverData * list Toast :=
  let text := Str.trim (Str.or txOutgoing "") in
  if Str.isEmpty text then (formData, [])
  else
    match api "/api/map/handover_outgoing" text with
    | Returns m => (outgoingUpdate m text formData, [ToastSuccess "Outgoing mapped"])
    | Throws _ => (formData, [ToastError "Failed to map outgoing data"])
    end.




(** ** Reference descriptions of the date and time normalizers

    The normalizers are described a second time without regular
    expressions, by direct inspection of the characters; the properties
    compare the code with these descriptions. *)

Fixpoint all (p : ascii -> bool) (s : string) : bool :=
  match s with
  | EmptyString => true
  | String c r => p c && all p r
  end.

(** One or two leading decimal digits, and what follows them. *)
Definition takeOneOrTwoDigits (s : string) : option (string * string) :=
  match s with
  | String a r =>
      if Char.isDigit a then
        match r with
        | String b r' =>
            if Char.isDigit b then Some (String a (String b ""), r')
            else Some (String a "", r)
        | EmptyString => Some (String a "", r)
        end
      else None
  | EmptyString => None
  end.

(** [s] is four digits, a dash, two digits, a dash, two digits. *)
Definition isoShape (s : string) : bool :=
  match s with
  | String y1 (String y2 (String y3 (String y4 (String c1
      (String m1 (String m2 (String c2 (String d1 (String d2 EmptyString))))))))) =>
      Char.isDigit y1 && Char.isDigit y2 && Char.isDigit y3 && Char.isDigit y4
      && Char.eqb c1 "-" && Char.isDigit m1 && Char.isDigit m2
      && Char.eqb c2 "-" && Char.isDigit d1 && Char.isDigit d2
  | _ => false
  end.

(** [s] is a day of one or two digits, a separator, a month of one or two
    digits, a separator and a year of two to four digits, each separator
    being a dash or a slash; the result is (day, month, year). *)
Definition dmyShape (s : string) : option (string * string * string) :=
  match takeOneOrTwoDigits s with
  | Some (day, String c1 r1) =>
      if isDashOrSlash c1 then
        match takeOneOrTwoDigits r1 with
        | Some (month, String c2 year) =>
            if isDashOrSlash c2
               && (2 <=? String.length year)%nat && (String.length year <=? 4)%nat
               && all Char.isDigit year
            then Some (day, month, year)
            else None
        | _ => None
        end
      else None
  | _ => None
  end.

(** The four forms that the specification names: the same separator twice
    and a year of two or four digits. *)
Definition namedDMYForm (s : string) : bool :=
  match takeOneOrTwoDigits s with
  | Some (_, String c1 r1) =>
      match takeOneOrTwoDigits r1 with
      | Some (_, String c2 year) =>
          isDashOrSlash c1 && Char.eqb c1 c2
          && ((String.length year =? 2)%nat || (String.length year =? 4)%nat)
          && all Char.isDigit year
      | _ => false
      end
  | _ => false
  end.

(** Year, zero-padded month and zero-padded day, joined by dashes; a year of
    two digits is prefixed with 20. *)
Definition isoFromParts (day month year : string) : string :=
  (if (String.length year =? 2)%nat then "20" +:+ year else year)
  +:+ "-" +:+ Str.padStart 2 "0" month +:+ "-" +:+ Str.padStart 2 "0" day.

(** The date for a string that is not a written date: the first of today,
    tomorrow, yesterday that its lower-cased form contains, else today. *)
Definition relativeDate (z : Date.Zone) (now : Z) (s : string) : string :=
  if Str.includes (Str.toLowerCase s) "today" then Date.isoDate now
  else if Str.includes (Str.toLowerCase s) "tomorrow"
  then Date.isoDate (Date.addLocalDays z now 1)
  else if Str.includes (Str.toLowerCase s) "yesterday"
  then Date.isoDate (Date.addLocalDays z now (-1))
  else Date.isoDate now.

Definition specNormalizeDate (z : Date.Zone) (now : Z) (date : string) : string :=
  let s := Str.trim date in
  if isoShape s then s
  else match dmyShape s with
       | Some (day, month, year) => isoFromParts day month year
       | None => relativeDate z now s
       end.

(** [s] is an hour of one or two digits, a colon and two minute digits; the
    result is (hour, minutes, what follows). *)
Definition timeShape (s : string) : option (string * string * string) :=
  match takeOneOrTwoDigits s with
  | Some (h, String c (String m1 (String m2 rest))) =>
      if Char.eqb c ":" && Char.isDigit m1 && Char.isDigit m2
      then Some (h, String m1 (String m2 ""), rest)
      else None
  | _ => None
  end.

(** [s], lower-cased, is the word [w]. *)
Definition isPeriod (w s : string) : bool := String.eqb (Str.toLowerCase s) w.

(** The hour arithmetic of lines 150-154 on the number read from the hour
    digits: [pm] adds twelve to every hour but 12, [am] turns 12 into 0 and
    keeps every other hour. *)
Definition shiftHour (pm : bool) (h : Z) : Z :=
  if pm then (if (h =? 12)%Z then 12 else h + 12)%Z
  else (if (h =? 12)%Z then 0 else h)%Z.

(** The time normalizer as the code computes it, read off the characters. *)
Definition directNormalizeTime (z : Date.Zone) (now : Z) (time : string) : string :=
  let s := Str.trim time in
  match timeShape s with
  | Some (h, mm, rest) =>
      if Str.isEmpty rest then Str.padStart 2 "0" h +:+ ":" +:+ mm
      else
        let period := Str.toLowerCase (Str.trimStart rest) in
        if String.eqb period "pm"
        then Str.padStart 2 "0" (Num.toString (shiftHour true (Num.ofDigits h))) +:+ ":" +:+ mm
        else if String.eqb period "am"
        then Str.padStart 2 "0" (Num.toString (shiftHour false (Num.ofDigits h))) +:+ ":" +:+ mm
        else Date.localHHMM z now
  | None => Date.localHHMM z now
  end.

(** Twelve-hour to twenty-four-hour clock, as the specification asks for
    it.  The twelve-hour clock has the hours 1 to 12: 12 am is hour 0, 1 am
    to 11 am keep their hour, 12 pm is hour 12 and 1 pm to 11 pm are the
    hours 13 to 23.  Any other number is no hour of that clock. *)
Definition to24 (pm : bool) (h : Z) : option Z :=
  if (1 <=? h)%Z && (h <=? 12)%Z
  then Some (if (h =? 12)%Z then (if pm then 12 else 0)%Z
             else (if pm then h + 12 else h)%Z)
  else None.

(** The time normalizer in the words of the specification: zero-pad the
    hour of H:MM, convert H:MM am/pm to the twenty-four-hour clock, and give
    the current time for everything else.  The result is [None] where these
    words name none: an am/pm time whose hour is no hour of the twelve-hour
    clock. *)
Definition specNormalizeTime (z : Date.Zone) (now : Z) (time : string) : option string :=
  let s := Str.trim time in
  match timeShape s with
  | Some (h, mm, rest) =>
      if Str.isEmpty rest then Some (Str.padStart 2 "0" h +:+ ":" +:+ mm)
      else
        let period := Str.toLowerCase (Str.trimStart rest) in
        if String.eqb period "pm" || String.eqb period "am"
        then match to24 (String.eqb period "pm") (Num.ofDigits h) with
             | Some h24 => Some (Str.padStart 2 "0" (Num.toString h24) +:+ ":" +:+ mm)
             | None => None
             end
        else Some (Date.localHHMM z now)
  | None => Some (Date.localHHMM z now)
  end.

(** A time of day on the twenty-four-hour clock, written HH:MM: two hour
    digits from 00 to 23, a colon and two minute digits from 00 to 59. *)
Definition isClockTime (s : string) : bool :=
  match s with
  | String h1 (String h2 (String c (String m1 (String m2 EmptyString)))) =>
      Char.isDigit h1 && Char.isDigit h2 && Char.eqb c ":"
      && Char.isDigit m1 && Char.isDigit m2
      && (Num.ofDigits (String h1 (String h2 "")) <? 24)%Z
      && (Num.ofDigits (String m1 (String m2 "")) <? 60)%Z
  | _ => false
  end.

(** The characters of a written date: digits, dash, slash. *)
Definition dateChar (c : ascii) : bool := Char.isDigit c || isDashOrSlash c.

(** The characters of a written time: digits, colon, white space and the
    letters of am and pm in either case. *)
Definition timeChar (c : ascii) : bool :=
  Char.isDigit c || Char.eqb c ":" || Char.isSpace c
  || Ascii.eqb (Char.toLower c) "a" || Ascii.eqb (Char.toLower c) "p"
  || Ascii.eqb (Char.toLower c) "m".

(** The first character of [s] is neither white space nor the letter T. *)
Definition solidHead (s : string) : bool :=
  match s with
  | String c _ => negb (Char.isSpace c) && negb (Char.eqb c "T")
  | EmptyString => false
  end.

(** ** Auxiliary predicates and sample data used in the statements *)

Definition sampleOutgoing : string :=
  "Patient status is stable post-procedure. Vital signs are blood pressure 120 / 80, heart rate 72, temperature 98.6, oxygen 98 percent. Medications administered include Aspirin. Pending investigations include echo.".

(** The last character of [p], if any, is not white space. *)
Fixpoint endsSolid (p : string) : bool :=
  match p with
  | EmptyString => true
  | String a EmptyString => negb (Char.isSpace a)
  | String _ p' => endsSolid p'
  end.


Definition validationFails : RawAdmissionData :=
  {| raw_name := None; raw_age := Some (AgeStr "150 years"); raw_gender := None;
     raw_mobile_no := Some "98765"; raw_admitted_under_doctor := None;
     raw_attender_name := None; raw_relation := None;
     raw_attender_mobile_no := None; raw_aadhaar_number := Some "1234";
     raw_admission_date := None; raw_admission_time := None;
     raw_ward := None; raw_bed_number := None; raw_reason := None |}.

Definition samplePlatform : Platform :=
  {| zone := Date.utcZone; t_stamp := 1793491200123; t_id := 1793491200123;
     t_date := 1793491200123; t_time := 1793491200123;
     random36 := "0.k3j2h1g0f" |}.

Definition sampleAdmissionPage : AdmissionPage :=
  {| form := emptyForm; txAdmission := "patient is unnamed";
     isMapping := false; error := None |}.

Definition hasError (e : Effect) : bool :=
  match e with SetErr (Some _) => true | _ => false end.

Definition rejectAll : string -> value + string :=
  fun _ => inr "Unexpected token < in JSON at position 0".


From Stdlib Require Import DecimalPos.

(** ** Decimal numerals *)

(** The value of a numeral of the standard library's [Decimal], read digit
    by digit as [Num.digitsValueFrom] reads a string. *)
Fixpoint uintValue (acc : Z) (d : Decimal.uint) : Z :=
  match d with
  | Decimal.Nil => acc
  | Decimal.D0 d => uintValue (10 * acc) d
  | Decimal.D1 d => uintValue (10 * acc + 1) d
  | Decimal.D2 d => uintValue (10 * acc + 2) d
  | Decimal.D3 d => uintValue (10 * acc + 3) d
  | Decimal.D4 d => uintValue (10 * acc + 4) d
  | Decimal.D5 d => uintValue (10 * acc + 5) d
  | Decimal.D6 d => uintValue (10 * acc + 6) d
  | Decimal.D7 d => uintValue (10 * acc + 7) d
  | Decimal.D8 d => uintValue (10 * acc + 8) d
  | Decimal.D9 d => uintValue (10 * acc + 9) d
  end%Z.

(** ** postProcessAdmission.ts: the default record *)

(** [getDefaultAdmissionData], lines 244-257; [now] is the reading of
    [new Date()].  The fields that the literal leaves out are [undefined]. *)
Definition getDefaultAdmissionData (z : Date.Zone) (now : Z) : RawAdmissionData :=
  {| raw_name := None;
     raw_age := Some (AgeNum 0);
     raw_gender := Some "other";
     raw_mobile_no := Some "";
     raw_admitted_under_doctor := None;
     raw_attender_name := None;
     raw_relation := None;
     raw_attender_mobile_no := None;
     raw_aadhaar_number := Some "";
     raw_admission_date := Some (Date.isoDate now);
     raw_admission_time := Some (Date.localHHMM z now);
     raw_ward := Some "";
     raw_bed_number := Some "";
     raw_reason := Some "" |}.

(** ** Admission.tsx: the checks of the save handler *)

Definition reTimeField : re :=                    (* /^\d{2}:\d{2}$/ *)
  Cat [Bol; Times Char.isDigit 2 2; Lit false ":"; Times Char.isDigit 2 2; Eol].

(** The guards at the head of [saveAndProceed], lines 250-265: the message
    given to [setError] by the first guard that fails, or [None] when the
    handler goes on to send its request. *)
Definition saveChecks (form : object) : option string :=
  if negb (Value.truthy (Value.get form "name"))
     || negb (Value.truthy (Value.get form "age"))
  then Some "Please fill in at least name and age"
  else if Value.truthy (Value.get form "admission_date")
          && negb (test reISODate (Value.toString (Value.get form "admission_date")))
  then Some "Please enter a valid admission date"
  else if Value.truthy (Value.get form "admission_time")
          && negb (test reTimeField (Value.toString (Value.get form "admission_time")))
  then Some "Please enter a valid admission time"
  else None.

(** [s] is two digits, a colon, two digits. *)
Definition hhmmShape (s : string) : bool :=
  match s with
  | String h1 (String h2 (String c (String m1 (String m2 EmptyString)))) =>
      Char.isDigit h1 && Char.isDigit h2 && Char.eqb c ":"
      && Char.isDigit m1 && Char.isDigit m2
  | _ => false
  end.

(** The time values of the years 0 to 9999, which [toISOString] prints with
    a year of four digits. *)
Definition fourDigitYear (t : Z) : bool :=
  (-62167219200000 <=? t)%Z && (t <=? 253402300799999)%Z.

(** The clock readings from which today, tomorrow and yesterday all fall in
    the years 0 to 9999. *)
Definition clockInYears (z : Date.Zone) (now : Z) : bool :=
  fourDigitYear now && fourDigitYear (Date.addLocalDays z now 1)
  && fourDigitYear (Date.addLocalDays z now (-1)).

(** [s] is a day, a month and a year of three digits. *)
Definition threeDigitYear (s : string) : bool :=
  match dmyShape s with
  | Some (_, _, year) => (String.length year =? 3)%nat
  | None => false
  end.

(** [s] is a time with pm whose hour is 88 or more. *)
Definition lateHour (s : string) : bool :=
  match timeShape s with
  | Some (h, _, rest) =>
      String.eqb (Str.toLowerCase (Str.trimStart rest)) "pm"
      && (88 <=? Num.ofDigits h)%Z
  | None => false
  end.

(** ** The recorder component: clock, chunks and display *)

(** The interval callback of the timer effect, lines 59-66: the new
    duration, and whether [stopRecording] is called. *)
Definition timerTick (maxDuration prev : Z) : Z * bool :=
  if (maxDuration <=? prev)%Z then (maxDuration, true) else ((prev + 1)%Z, false).

(** The part of the recorder's state that the timer effect works on. *)
Record Timer := { duration : Z; isRecording : bool }.

(** One firing of the interval.  The interval exists while the component is
    recording; [stopRecording] leaves the recording state, upon which the
    effect clears the interval. *)
Definition tick (maxDuration : Z) (st : Timer) : Timer :=
  if isRecording st
  then let '(d, stop) := timerTick maxDuration (duration st) in
       {| duration := d; isRecording := negb stop |}
  else st.

(** [startAudioRecording] ends with [setIsRecording(true); setDuration(0)],
    lines 273-274. *)
Definition started : Timer := {| duration := 0; isRecording := true |}.

(** [mediaRecorder.ondataavailable], lines 256-261, on the sizes of the
    chunks collected so far. *)
Definition onDataAvailable (chunks : list nat) (size : nat) : list nat :=
  if (0 <? size)%nat then (chunks ++ [size])%list else chunks.

(** The size of [new Blob(chunks)]. *)
Definition blobSize (chunks : list nat) : nat := list_sum chunks.

(** [mediaRecorder.onstop], lines 263-270, after the data events of the
    given sizes: the effects of the transcription step it starts. *)
Definition recorderOnStop (JSON_parse : string -> value + string)
    (enableTranscription : bool) (apiBase : string) (net : FetchOutcome)
    (events : list nat) : list Effect :=
  processAudio JSON_parse enableTranscription apiBase net
    (blobSize (foldl onDataAvailable [] events)).

(** [formatTime], lines 463-467; [%] is the remainder that takes the sign of
    the dividend. *)
Definition formatTime (seconds : Z) : string :=
  Num.toString (seconds / 60) +:+ ":"
  +:+ Str.padStart 2 "0" (Num.toString (Z.rem seconds 60)).

Definition isClearTimeout (e : Effect) : bool :=
  match e with ClearTimeout => true | _ => false end.

(** The calls of the two callbacks in a run, in order. *)
Definition callbacks (l : list Effect) : list Effect :=
  List.filter (fun e => match e with
                        | OnTranscript _ | OnTranscribe _ => true
                        | _ => false
                        end) l.

(** In the run [trace] the two callbacks are called exactly once each, with
    the text [t], one right after the other. *)
Definition deliversOnce (trace : list Effect) (t : string) : Prop :=
  exists pre post : list Effect,
    trace = (pre ++ [OnTranscript t; OnTranscribe t] ++ post)%list
    /\ callbacks pre = [] /\ callbacks post = [].

(** ** The nurse-handover page: the other two mapping handlers and the save
    helpers *)



Module InchargeRe.

Definition rest : re := Star (isNot ".").                       (* [^.]* *)
Definition ward := Cat [Lit true "ward"; rest].                 (* /ward[^.]*/i *)

End InchargeRe.







(** The class [[,;\n]] of [parseLines]. *)
Definition isLineSep (c : ascii) : bool :=
  Char.eqb c "," || Char.eqb c ";" || (Char.code c =? 10)%nat.

(** [parseLines], line 488:
    [s.split(/[,;\n]/).map(x => x.trim()).filter(Boolean)]. *)
Definition parseLines (s : string) : list string :=
  List.filter Str.truthy (List.map Str.trim (Str.splitOn isLineSep s)).

(** An entry that [parseLines] gives back as it is: not empty, trimmed, and
    free of separators. *)
Definition cleanLine (x : string) : bool :=
  Str.truthy x && String.eqb (Str.trim x) x && all (fun c => negb (isLineSep c)) x.

(** ** The HTTP helpers *)

Module Api.

(** How an awaited promise settles: it rejects with an [Error] that carries
    a message, or it resolves. *)
Inductive Outcome (A : Type) :=
| Rejects (message : string)
| Resolves (v : A).
Arguments Rejects {A} message.
Arguments Resolves {A} v.

(** What the helpers read of a [Response]: the status and how [text()] and
    [json()] settle. *)
Record Response := {
  status : nat;
  text : Outcome string;
  json : Outcome value;
}.

(** What the helpers pass to [fetch]: the URL, the method and the data that
    is serialized into the body, if any. *)
Record Request := { url : string; method : string; body : option value }.

Section Helpers.

(** [VITE_API_BASE_URL || 'http://localhost:8000'] *)
Variable API_BASE_URL : string.
Variable fetch : Request -> Outcome Response.

(** A run of a helper: the labels of its [console.error] calls, in order,
    and how its promise settles. *)
Definition Run (A : Type) : Type := list string * Outcome A.

(** [handleError], lines 7-10, for an [Error] with the given message: the
    label it logs and the message of the [Error] it throws. *)
Definition handleError (message context : string) : string * string :=
  ("API Error in " +:+ context +:+ ":",
   "API request failed: " +:+ Str.or message "Unknown error").

(** [apiRequest], lines 13-39. *)
Definition apiRequest (req : Request) (context : string) : Run Response :=
  let fullUrl :=
    if Str.startsWith "http" (url req) then url req
    else API_BASE_URL +:+ url req in
  let attempt : Outcome Response :=
    match fetch {| url := fullUrl; method := method req; body := body req |} with
    | Rejects m => Rejects m
    | Resolves response =>
        if negb (responseOk (status response))
        then match text response with
             | Rejects m => Rejects m
             | Resolves errorText =>
                 Rejects ("HTTP " +:+ Num.toString (Z.of_nat (status response))
                          +:+ ": " +:+ errorText)
             end
        else Resolves response
    end in
  match attempt with
  | Rejects m =>
      let '(label, message) := handleError m context in ([label], Rejects message)
  | Resolves response => ([], Resolves response)
  end.

(** The common body of [getJSON], [postJSON] and [putJSON]: the request is
    made, the reply is parsed, and a failure of either step goes through
    [handleError] once more. *)
Definition requestJSON (req : Request) (context : string) : Run value :=
  let '(log, r) := apiRequest req context in
  let parsed : Outcome value :=
    match r with
    | Rejects m => Rejects m
    | Resolves response => json response
    end in
  match parsed with
  | Rejects m =>
      let '(label, message) := handleError m context in
      ((log ++ [label])%list, Rejects message)
  | Resolves v => (log, Resolves v)
  end.

(** [getJSON], lines 42-57. *)
Definition getJSON (url : string) : Run value :=
  requestJSON {| url := url; method := "GET"; body := None |} ("GET " +:+ url).

(** [data ? JSON.stringify(data) : undefined] *)
Definition bodyOf (data : value) : option value :=
  if Value.truthy data then Some data else None.

(** [postJSON], lines 60-77. *)
Definition postJSON (url : string) (data : value) : Run value :=
  requestJSON {| url := url; method := "POST"; body := bodyOf data |}
    ("POST " +:+ url).

(** [putJSON], lines 80-97. *)
Definition putJSON (url : string) (data : value) : Run value :=
  requestJSON {| url := url; method := "PUT"; body := bodyOf data |}
    ("PUT " +:+ url).

(** [healthCheck], lines 154-162: the [console.error] labels of the request
    and the boolean it resolves with. *)
Definition healthCheck : list string * bool :=
  match getJSON "/health" with
  | (log, Resolves _) => (log, true)
  | (log, Rejects _) => (log, false)
  end.

(** A handler's view of [await postJSON(url, { text })]: [read] tells how
    the handler reads the fields of the reply, [None] for a [null] reply. *)
Definition mappingService {A : Type} (read : value -> option A)
    (url text : string) : Reply A :=
  match (postJSON url (VObj (<["text" := VStr text]> ∅))).2 with
  | Rejects m => Throws m
  | Resolves v => Returns (read v)
  end.

End Helpers.

End Api.

(** ** Sample data used in the statements *)

Definition sampleReply : RawAdmissionData :=
  {| raw_name := Some " Rajesh Kumar Sharma "; raw_age := Some (AgeStr "45 years");
     raw_gender := Some "Male"; raw_mobile_no := Some "98765 43210";
     raw_admitted_under_doctor := Some "Dr. Ravikant Porwal";
     raw_attender_name := None; raw_relation := None;
     raw_attender_mobile_no := None; raw_aadhaar_number := None;
     raw_admission_date := Some "today"; raw_admission_time := Some "2:30 PM";
     raw_ward := Some "cardiology"; raw_bed_number := Some "3";
     raw_reason := Some "chest pain" |}.

(** A backend that cannot be reached: every [fetch] rejects. *)
Definition unreachable : Api.Request -> Api.Outcome Api.Response :=
  fun _ => Api.Rejects "Failed to fetch".

(** A backend that answers every request with status 500 and the given
    text. *)
Definition failing (body : string) : Api.Request -> Api.Outcome Api.Response :=
  fun _ => Api.Resolves {| Api.status := 500; Api.text := Api.Resolves body;
                           Api.json := Api.Rejects "Unexpected token I in JSON at position 0" |}.





Definition isStartTimeout (e : Effect) : bool :=
  match e with StartTimeout _ => true | _ => false end.

(** The last value given to [setIsProcessing] in a run, if any. *)
Definition lastIsProcessing (l : list Effect) : option bool :=
  foldl (fun acc e => match e with SetIsProcessing b => Some b | _ => acc end) None l.

(** How often an effect occurs in a run. *)
Definition occurrences (p : Effect -> bool) (l : list Effect) : nat :=
  List.length (List.filter p l).

Definition isStartProcessingTimer (e : Effect) : bool :=
  match e with StartProcessingTimer => true | _ => false end.

Definition isClearProcessingTimer (e : Effect) : bool :=
  match e with ClearProcessingTimer => true | _ => false end.

(** The request got a response. *)
Definition responded (net : FetchOutcome) : bool :=
  match net with FetchResponds _ _ => true | _ => false end.

(** The request got a response with a status outside 200..299. *)
Definition refused (net : FetchOutcome) : bool :=
  match net with FetchResponds status _ => negb (responseOk status) | _ => false end.

(** The value of a digit of [toString(36)] after upper-casing: 0-9, A-Z. *)
Definition digit36Value (c : ascii) : Z :=
  if Char.isDigit c then (Z.of_nat (Char.code c) - 48)%Z
  else (Z.of_nat (Char.code c) - 55)%Z.

(** The number that a string of such digits spells in base 36. *)
Fixpoint value36From (acc : Z) (s : string) : Z :=
  match s with
  | EmptyString => acc
  | String c r => value36From (36 * acc + digit36Value c)%Z r
  end.

(** The part of a patient identifier between "PAT-" and the next dash. *)
Definition timestampOf (id : string) : string :=
  nth 0 (Str.splitOn (fun c => Char.eqb c "-") (Str.drop 4 id)) "".

(** A recorder reply that always parses to the given value. *)
Definition parsesTo (v : value) : string -> value + string := fun _ => inl v.

(** A processed record read as raw data: every field of
    [ProcessedAdmissionData] that [RawAdmissionData] names, under the same
    name. *)
Definition asRaw (p : ProcessedAdmissionData) : RawAdmissionData :=
  {| raw_name := Some (name p);
     raw_age := Some (AgeNum (age p));
     raw_gender := Some (Gender_toString (gender p));
     raw_mobile_no := Some (mobile_no p);
     raw_admitted_under_doctor := Some (admitted_under_doctor p);
     raw_attender_name := Some (attender_name p);
     raw_relation := Some (relation p);
     raw_attender_mobile_no := Some (attender_mobile_no p);
     raw_aadhaar_number := Some (aadhaar_number p);
     raw_admission_date := Some (admission_date p);
     raw_admission_time := Some (admission_time p);
     raw_ward := Some (ward p);
     raw_bed_number := Some (bed_number p);
     raw_reason := Some (reason p) |}.

(** The data fields of a processed record: all but the identifier and the
    two time stamps. *)
Definition dataOf (p : ProcessedAdmissionData)
    : list string * Z * Gender * Status :=
  ([name p; mobile_no p; admitted_under_doctor p; attender_name p; relation p;
    attender_mobile_no p; aadhaar_number p; admission_date p; admission_time p;
    ward p; bed_number p; reason p],
   age p, gender p, status p).

(** ** Admission.tsx: editing a stored patient *)



(** * Properties *)

Example normalizeGender_ex1 : normalizeGender (Some "Transfemale") = female.
Proof. reflexivity. Qed.
Example aadhaar_ex1 : normalizeAadhaarNumber (Some "1234-5678 9012") = "1234 5678 9012".
Proof. reflexivity. Qed.
Example split_ex1 : Str.splitOn (fun c => Char.eqb c "-") "25-12-2024" = ["25"; "12"; "2024"].
Proof. reflexivity. Qed.
Example trim_ex1 : Str.trim "  a b  " = "a b".
Proof. reflexivity. Qed.
Example parseInt_ex1 : Num.parseInt "09" = Some 9%Z.
Proof. reflexivity. Qed.
Example isoDate_ex1 : Date.toISOString 1793491200123 = "2026-11-01T00:00:00.123Z".
Proof. vm_compute. reflexivity. Qed.
Example isoDate_ex2 : Date.isoDate 951782400000 = "2000-02-29".
Proof. vm_compute. reflexivity. Qed.
Example isoDate_ex3 : Date.isoDate (-1) = "1969-12-31".
Proof. vm_compute. reflexivity. Qed.
Example normalizeDate_ex1 : normalizeDate Date.utcZone 1793491200000 (Some "25/12/24") = "2024-12-25".
Proof. vm_compute. reflexivity. Qed.
Example normalizeDate_ex2 : normalizeDate Date.utcZone 1793491200000 (Some "see you Tomorrow") = "2026-11-02".
Proof. vm_compute. reflexivity. Qed.
Example normalizeDate_ex3 : normalizeDate Date.utcZone 1793491200000 (Some "1-2-123") = "123-02-01".
Proof. vm_compute. reflexivity. Qed.
Example normalizeTime_ex1 : normalizeTime Date.utcZone 1793491200000 (Some "9:30 pm") = "21:30".
Proof. vm_compute. reflexivity. Qed.
Example normalizeTime_ex2 : normalizeTime Date.utcZone 1793491200000 (Some "9:5") = "00:00".
Proof. vm_compute. reflexivity. Qed.
Example normalizeTime_ex3 : normalizeTime Date.utcZone 1793491200000 (Some "12:05AM") = "00:05".
Proof. vm_compute. reflexivity. Qed.
Example normalizeTime_ex4 : normalizeTime Date.utcZone 1793491200000 (Some "7:05") = "07:05".
Proof. vm_compute. reflexivity. Qed.
Example outgoing_ex1 :
  (mapOutgoingFromTranscript (fun _ _ => Returns None) sampleOutgoing initialData).1
  = outgoingUpdate None sampleOutgoing initialData.
Proof. reflexivity. Qed.

(** ** Strings *)

Section StringFacts.

Lemma isEmpty_true (s : string) : Str.isEmpty s = true <-> s = "".
Proof. destruct s; simpl; split; congruence. Qed.

Lemma isEmpty_false (s : string) : Str.isEmpty s = false <-> s <> "".
Proof. destruct s; simpl; split; congruence. Qed.

Lemma char_eqb_eq (a b : ascii) : Char.eqb a b = true <-> a = b.
Proof. apply Ascii.eqb_eq. Qed.

Lemma endsSolid_tail a p : p <> "" -> endsSolid (String a p) = endsSolid p.
Proof. destruct p; [congruence | reflexivity]. Qed.

Lemma trimEnd_cons c r :
  Str.trimEnd (String c r) =
  if Char.isSpace c && Str.isEmpty (Str.trimEnd r) then "" else String c (Str.trimEnd r).
Proof. reflexivity. Qed.

Lemma startsWith_blank r : forall p,
  Str.isEmpty (Str.trimEnd r) = true -> p <> "" -> endsSolid p = true ->
  Str.startsWith p r = false.
Proof.
  induction r as [|c r IH]; intros p Hr Hp Hs.
  - destruct p; [congruence | reflexivity].
  - rewrite trimEnd_cons in Hr.
    destruct (Char.isSpace c) eqn:Hc; simpl in Hr; [|discriminate].
    destruct p as [|a p']; [congruence|]. simpl.
    destruct p' as [|b p''].
    + simpl in Hs. destruct (Char.eqb a c) eqn:E; [|reflexivity].
      apply char_eqb_eq in E. subst a. rewrite Hc in Hs. discriminate.
    + rewrite (IH (String b p'')); [apply andb_false_r | | discriminate | exact Hs].
      destruct (Str.trimEnd r); [reflexivity | discriminate].
Qed.

Lemma includes_blank r : forall p,
  Str.isEmpty (Str.trimEnd r) = true -> p <> "" -> endsSolid p = true ->
  Str.includes r p = false.
Proof.
  induction r as [|c r IH]; intros p Hr Hp Hs.
  - destruct p; [congruence | reflexivity].
  - simpl. rewrite (startsWith_blank (String c r) p Hr Hp Hs). simpl.
    apply IH; auto.
    rewrite trimEnd_cons in Hr.
    destruct (Char.isSpace c && Str.isEmpty (Str.trimEnd r)) eqn:E; [|discriminate].
    apply andb_true_iff in E. tauto.
Qed.

Lemma startsWith_trimEnd s : forall p,
  endsSolid p = true -> Str.startsWith p (Str.trimEnd s) = Str.startsWith p s.
Proof.
  induction s as [|c r IH]; intros p Hs; [reflexivity|].
  rewrite trimEnd_cons.
  destruct (Char.isSpace c && Str.isEmpty (Str.trimEnd r)) eqn:E.
  - apply andb_true_iff in E. destruct E as [Hc Hr].
    destruct p as [|a p']; [reflexivity|].
    symmetry. apply startsWith_blank; [| discriminate | exact Hs].
    rewrite trimEnd_cons, Hc, Hr. reflexivity.
  - destruct p as [|a p']; [reflexivity|]. simpl.
    rewrite IH; [reflexivity|].
    destruct p'; [reflexivity | exact Hs].
Qed.

Lemma includes_trimEnd s : forall p,
  p <> "" -> endsSolid p = true -> Str.includes (Str.trimEnd s) p = Str.includes s p.
Proof.
  induction s as [|c r IH]; intros p Hp Hs; [reflexivity|].
  pose proof (startsWith_trimEnd (String c r) p Hs) as Hst.
  rewrite trimEnd_cons in *.
  destruct (Char.isSpace c && Str.isEmpty (Str.trimEnd r)) eqn:E.
  - symmetry. rewrite includes_blank; auto.
    + destruct p; [congruence | reflexivity].
    + rewrite trimEnd_cons, E. reflexivity.
  - cbn [Str.includes]. rewrite Hst, IH by assumption. reflexivity.
Qed.

Lemma includes_trimStart s : forall a p,
  Char.isSpace a = false ->
  Str.includes (Str.trimStart s) (String a p) = Str.includes s (String a p).
Proof.
  induction s as [|c r IH]; intros a p Ha; [reflexivity|].
  cbn [Str.trimStart]. destruct (Char.isSpace c) eqn:Hc; [|reflexivity].
  rewrite IH by assumption. cbn [Str.includes Str.startsWith].
  destruct (Char.eqb a c) eqn:E; [|reflexivity].
  apply char_eqb_eq in E. congruence.
Qed.

(** Trimming does not change whether a string contains a word that starts
    and ends with a character other than white space. *)
Lemma includes_trim s a p :
  Char.isSpace a = false -> endsSolid (String a p) = true ->
  Str.includes (Str.trim s) (String a p) = Str.includes s (String a p).
Proof.
  intros Ha Hs. unfold Str.trim.
  rewrite includes_trimEnd by (assumption || discriminate).
  apply includes_trimStart, Ha.
Qed.

Lemma trimStart_solid c r : Char.isSpace c = false -> Str.trimStart (String c r) = String c r.
Proof. intros H. simpl. rewrite H. reflexivity. Qed.

Lemma trimEnd_solid_head c r :
  Char.isSpace c = false -> Str.trimEnd (String c r) = String c (Str.trimEnd r).
Proof. intros H. rewrite trimEnd_cons, H. reflexivity. Qed.

(** A string that starts with a character other than white space does not
    trim to the empty string. *)
Lemma trim_solid_head c r : Char.isSpace c = false -> Str.trim (String c r) <> "".
Proof.
  intros H. unfold Str.trim. rewrite trimStart_solid, trimEnd_solid_head by assumption.
  discriminate.
Qed.

Lemma filter_all p s : all p (Str.filter p s) = true.
Proof.
  induction s as [|c s IH]; [reflexivity|]. cbn [Str.filter].
  destruct (p c) eqn:E; [|exact IH]. cbn [all]. rewrite E, IH. reflexivity.
Qed.

Lemma filter_idem p s : Str.filter p (Str.filter p s) = Str.filter p s.
Proof.
  induction s as [|c s IH]; [reflexivity|]. cbn [Str.filter].
  destruct (p c) eqn:E; [|exact IH]. cbn [Str.filter]. rewrite E, IH. reflexivity.
Qed.

End StringFacts.

(** ** The merge policy *)

Section Merge.

Lemma hitsProtoSetter_other (out : object) (k : string) :
  k <> "__proto__" -> hitsProtoSetter out k = false.
Proof.
  intros H. unfold hitsProtoSetter. destruct (String.eqb_spec k "__proto__"); [contradiction|].
  reflexivity.
Qed.

Lemma hitsProtoSetter_owned (out : object) (k : string) :
  is_Some (out !! k) -> hitsProtoSetter out k = false.
Proof.
  intros [v H]. unfold hitsProtoSetter. rewrite H.
  rewrite bool_decide_eq_false_2 by discriminate. apply andb_false_r.
Qed.

Lemma hitsProtoSetter_lookup (out out' : object) (k : string) :
  out !! k = out' !! k -> hitsProtoSetter out k = hitsProtoSetter out' k.
Proof. intros H. unfold hitsProtoSetter. rewrite H. reflexivity. Qed.

Lemma hitsProtoSetter_none (out : object) (k : string) :
  hitsProtoSetter out k = true -> out !! k = None.
Proof.
  unfold hitsProtoSetter. intros H. apply andb_prop in H as [_ H].
  apply bool_decide_eq_true in H. exact H.
Qed.

Lemma assign_lookup (out : object) (k' : string) (v' : value) (k : string) :
  assign out k' v' !! k =
  if decide (k' = k)
  then (if hitsProtoSetter out k then out !! k else Some v')
  else out !! k.
Proof.
  unfold assign. case_decide as E.
  - subst k'. destruct (hitsProtoSetter out k); [reflexivity|]. apply lookup_insert_eq.
  - destruct (hitsProtoSetter out k'); [reflexivity|]. apply lookup_insert_ne, E.
Qed.

Lemma mergeStep_lookup (out : object) (k' : string) (v' : value) (k : string) :
  mergeStep out (k', v') !! k =
  if decide (k' = k)
  then (if present v' && negb (hitsProtoSetter out k) then Some v' else out !! k)
  else out !! k.
Proof.
  unfold mergeStep. cbn [fst snd]. destruct (present v').
  - rewrite assign_lookup. case_decide; [|reflexivity].
    destruct (hitsProtoSetter out k); reflexivity.
  - case_decide; reflexivity.
Qed.

Lemma merge_fold_lookup (l : list (string * value)) :
  NoDup l.*1 -> forall (out : object) (k : string),
  foldl mergeStep out l !! k =
  match (list_to_map l : object) !! k with
  | Some v => if present v && negb (hitsProtoSetter out k) then Some v else out !! k
  | None => out !! k
  end.
Proof.
  induction l as [|[k' v'] l IH]; intros Hnd out k.
  - simpl. rewrite lookup_empty. reflexivity.
  - simpl in Hnd. apply NoDup_cons in Hnd. destruct Hnd as [Hk' Hnd].
    cbn [foldl]. rewrite IH by assumption.
    change (list_to_map ((k', v') :: l) : object)
      with (<[k' := v']> (list_to_map l : object)).
    destruct (decide (k' = k)) as [->|Hne].
    + rewrite lookup_insert_eq.
      rewrite (not_elem_of_list_to_map_1 (M := gmap string) l k Hk').
      rewrite mergeStep_lookup. rewrite decide_True by reflexivity. reflexivity.
    + rewrite lookup_insert_ne by assumption.
      assert (mergeStep out (k', v') !! k = out !! k) as E.
      { rewrite mergeStep_lookup. rewrite decide_False by assumption. reflexivity. }
      rewrite E, (hitsProtoSetter_lookup _ _ _ E). reflexivity.
Qed.

(** The own property of the merged record at every key. *)
Lemma mergeIfPresent_lookup_own (base patch : object) (k : string) :
  mergeIfPresent base patch !! k =
  match patch !! k with
  | Some v => if present v && negb (hitsProtoSetter base k) then Some v else base !! k
  | None => base !! k
  end.
Proof.
  unfold mergeIfPresent. rewrite merge_fold_lookup by apply NoDup_fst_map_to_list.
  rewrite list_to_map_to_list. reflexivity.
Qed.

(** At every key but [__proto__] the assignment is an ordinary one. *)
Lemma mergeIfPresent_lookup (base patch : object) (k : string) :
  k <> "__proto__" ->
  mergeIfPresent base patch !! k =
  match patch !! k with
  | Some v => if present v then Some v else base !! k
  | None => base !! k
  end.
Proof.
  intros H. rewrite mergeIfPresent_lookup_own, hitsProtoSetter_other by exact H.
  destruct (patch !! k) as [v|]; [|reflexivity]. rewrite andb_true_r. reflexivity.
Qed.

(** The guard in the words of the specification. *)
Lemma present_stored (v : value) :
  negb (isNullish v) && negb (String.eqb (Str.trim (Value.toString v)) "") = present v.
Proof.
  unfold present, isNullish.
  destruct v; try reflexivity; simpl;
    match goal with |- context [Str.trim ?s] => destruct (Str.trim s); reflexivity end.
Qed.

Lemma visit_TypeError (l : list (string * value)) : foldl visit TypeError l = TypeError.
Proof. induction l as [|kv l IH]; [reflexivity|exact IH]. Qed.

Lemma mergeVisit_cases (out : Instance) (k : string) (v : value) :
  mergeVisit out (k, v) =
  if throwsOn v then TypeError
  else Normal {| ownProps := mergeStep (ownProps out) (k, v);
                 prototype := if present v
                              then assignPrototype (ownProps out) (prototype out) k v
                              else prototype out |}.
Proof.
  unfold mergeVisit, mergeStep, throwsOn, present, isNullish. cbn [fst snd].
  destruct out as [o p]. cbn [ownProps prototype].
  destruct v; try reflexivity; cbn [negb andb];
    match goal with
    | |- context [Value.coercible ?x] => destruct (Value.coercible x); cbn [negb]
    end; try reflexivity;
    match goal with
    | |- context [Str.isEmpty ?x] => destruct (Str.isEmpty x); reflexivity
    end.
Qed.

Lemma assignPrototype_other (out : object) (p : Prototype) (k : string) (v : value) :
  k <> "__proto__" -> assignPrototype out p k v = p.
Proof. intros H. unfold assignPrototype. rewrite hitsProtoSetter_other by exact H. reflexivity. Qed.

Lemma assignPrototype_lookup (out out' : object) (p : Prototype) (k : string) (v : value) :
  out !! k = out' !! k -> assignPrototype out p k v = assignPrototype out' p k v.
Proof.
  intros H. unfold assignPrototype. rewrite (hitsProtoSetter_lookup _ _ _ H). reflexivity.
Qed.

Lemma visit_fold (l : list (string * value)) :
  NoDup l.*1 -> forall out : Instance,
  foldl visit (Normal out) l =
  if existsb (fun kv => throwsOn kv.2) l then TypeError
  else Normal {| ownProps := foldl mergeStep (ownProps out) l;
                 prototype := prototypeAfter (ownProps out) (prototype out)
                                ((list_to_map l : object) !! "__proto__") |}.
Proof.
  induction l as [|[k v] l IH]; intros Hnd out.
  - destruct out. reflexivity.
  - simpl in Hnd. apply NoDup_cons in Hnd. destruct Hnd as [Hk Hnd].
    cbn [foldl visit existsb snd]. rewrite mergeVisit_cases.
    destruct (throwsOn v); [apply visit_TypeError|]. cbn [orb].
    rewrite IH by assumption. destruct (existsb _ l); [reflexivity|].
    cbn [ownProps prototype]. f_equal. f_equal.
    change (list_to_map ((k, v) :: l) : object)
      with (<[k := v]> (list_to_map l : object)).
    destruct (decide (k = "__proto__")) as [->|Hne].
    + rewrite lookup_insert_eq.
      rewrite (not_elem_of_list_to_map_1 (M := gmap string) l _ Hk). reflexivity.
    + rewrite lookup_insert_ne by assumption.
      rewrite assignPrototype_other by assumption.
      assert (mergeStep (ownProps out) (k, v) !! "__proto__" = ownProps out !! "__proto__")
        as E.
      { rewrite mergeStep_lookup, decide_False by assumption. reflexivity. }
      destruct (if present v then prototype out else prototype out) eqn:Ep;
        destruct (present v); rewrite <- Ep;
        (destruct ((list_to_map l : object) !! "__proto__") as [w|]; [|reflexivity]);
        cbn [prototypeAfter]; rewrite (assignPrototype_lookup _ _ _ _ _ E); reflexivity.
Qed.

(** The call as a whole: it throws when some value of the patch does, and
    otherwise returns the merged own properties on the prototype that the
    entry at [__proto__] leaves. *)
Lemma mergeIfPresentCall_cases (base patch : object) :
  mergeIfPresentCall base patch =
  if existsb (fun kv => throwsOn kv.2) (map_to_list patch) then TypeError
  else Normal {| ownProps := mergeIfPresent base patch;
                 prototype := prototypeAfter base ObjectPrototype (patch !! "__proto__") |}.
Proof.
  unfold mergeIfPresentCall.
  rewrite visit_fold by apply NoDup_fst_map_to_list.
  rewrite list_to_map_to_list. reflexivity.
Qed.

Lemma throws_exists (patch : object) :
  existsb (fun kv => throwsOn kv.2) (map_to_list patch) = true <->
  exists k v, patch !! k = Some v /\ isNullish v = false /\ Value.coercible v = false.
Proof.
  rewrite existsb_exists. split.
  - intros ([k v] & Hin & Hb). exists k, v. cbn [snd] in Hb.
    apply list_elem_of_In, elem_of_map_to_list in Hin.
    unfold throwsOn in Hb. apply andb_prop in Hb as [H1 H2].
    apply negb_true_iff in H1, H2. auto.
  - intros (k & v & Hl & H1 & H2). exists (k, v). split.
    + apply list_elem_of_In, elem_of_map_to_list, Hl.
    + cbn [snd]. unfold throwsOn. rewrite H1, H2. reflexivity.
Qed.

(** A patch of strings and numbers under keys other than [__proto__] never
    throws and leaves the prototype alone. *)
Lemma mergeIfPresentCall_plain (base patch : object) :
  patch !! "__proto__" = None ->
  (forall k v, patch !! k = Some v -> Value.coercible v = true) ->
  mergeIfPresentCall base patch
  = Normal {| ownProps := mergeIfPresent base patch; prototype := ObjectPrototype |}.
Proof.
  intros Hp Hc. rewrite mergeIfPresentCall_cases, Hp.
  destruct (existsb _ (map_to_list patch)) eqn:E; [|reflexivity].
  apply throws_exists in E as (k & v & Hl & _ & Hv).
  rewrite (Hc k v Hl) in Hv. discriminate.
Qed.

End Merge.

(** C1, as stated, fails at the key [__proto__] and for a value whose string
    coercion throws.  A patch that holds the text "x" under [__proto__], as
    a parsed reply can, passes the guard, yet the record returned for an
    empty base owns no such key and keeps the prototype of every object:
    the assignment ran the setter of [Object.prototype], which ignores a
    text.  An object under that key becomes the prototype of the returned
    record instead of a property.  A patch that holds [{toString: 1}] under
    any key returns no record at all: the guard's template literal throws a
    [TypeError]. *)
Lemma mergeIfPresent_proto_key_and_throwing_value :
  let stored v :=
    negb (isNullish v) && negb (String.eqb (Str.trim (Value.toString v)) "") in
  let text : object := {[ "__proto__" := VStr "x" ]} in
  let inner : value := VObj {[ "name" := VStr "Asha" ]} in
  let nested : object := {[ "__proto__" := inner ]} in
  let throwing : object := {[ "name" := VObj {[ "toString" := VNum 1 ]} ]} in
  stored (VStr "x") = true
  /\ mergeIfPresentCall ∅ text
     = Normal {| ownProps := ∅; prototype := ObjectPrototype |}
  /\ mergeIfPresent ∅ text !! "__proto__" = None
  /\ stored inner = true
  /\ mergeIfPresentCall emptyForm nested
     = Normal {| ownProps := emptyForm; prototype := PrototypeValue inner |}
  /\ mergeIfPresentCall emptyForm throwing = TypeError.
Proof. cbv zeta. repeat split; vm_compute; reflexivity. Qed.

(** C1, amended.  For every base record and patch object of parsed values,
    the call throws a [TypeError] exactly when some value of the patch is
    neither undefined nor null and has a string coercion that throws (an
    object with an own [toString] key, or an array that holds one).
    Otherwise the call returns a record, and for every key [k] other than
    [__proto__], and for [__proto__] too when the base owns it: if [k] is a
    key of the patch, the record owns at [k] the patch's value when that
    value is neither undefined nor null and its string coercion does not
    trim to the empty string, and the base's entry at [k] otherwise; if [k]
    is not a key of the patch, the base's entry at [k] is unchanged.  When
    the base owns no [__proto__], neither does the record: a value of the
    patch under that key that passes the guard becomes the prototype of the
    record if it is an object or an array and is dropped if it is not; in
    every other case the record has the prototype of an object literal. *)
Theorem mergeIfPresent_correct (base patch : object) :
  let stored v :=
    negb (isNullish v) && negb (String.eqb (Str.trim (Value.toString v)) "") in
  (mergeIfPresentCall base patch = TypeError <->
   exists k v, patch !! k = Some v /\ isNullish v = false /\ Value.coercible v = false)
  /\ ((forall k v, patch !! k = Some v -> isNullish v = false -> Value.coercible v = true) ->
      exists out : Instance,
        mergeIfPresentCall base patch = Normal out
        /\ ownProps out = mergeIfPresent base patch
        /\ (forall k : string,
              k <> "__proto__" \/ is_Some (base !! k) ->
              ownProps out !! k =
                match patch !! k with
                | Some v => if stored v then Some v else base !! k
                | None => base !! k
                end)
        /\ (base !! "__proto__" = None ->
            ownProps out !! "__proto__" = None
            /\ prototype out =
                 match patch !! "__proto__" with
                 | Some v =>
                     if stored v
                     then match v with
                          | VObj _ | VArr _ => PrototypeValue v
                          | _ => ObjectPrototype
                          end
                     else ObjectPrototype
                 | None => ObjectPrototype
                 end)
        /\ (is_Some (base !! "__proto__") -> prototype out = ObjectPrototype)).
Proof.
  cbv zeta. split.
  - rewrite mergeIfPresentCall_cases, <- throws_exists.
    destruct (existsb _ (map_to_list patch)); split; congruence.
  - intros Hc. rewrite mergeIfPresentCall_cases.
    destruct (existsb _ (map_to_list patch)) eqn:E.
    { apply throws_exists in E as (k & v & Hl & Hn & Hv).
      rewrite (Hc k v Hl Hn) in Hv. discriminate. }
    eexists. split; [reflexivity|]. cbn [ownProps prototype].
    split; [reflexivity|]. split; [|split].
    + intros k Hk. rewrite mergeIfPresent_lookup_own.
      assert (hitsProtoSetter base k = false) as ->.
      { destruct Hk as [Hk|Hk];
          [apply hitsProtoSetter_other | apply hitsProtoSetter_owned]; exact Hk. }
      destruct (patch !! k) as [v|]; [|reflexivity].
      rewrite present_stored, andb_true_r. reflexivity.
    + intros Hb. split.
      * rewrite mergeIfPresent_lookup_own.
        assert (hitsProtoSetter base "__proto__" = true) as ->.
        { unfold hitsProtoSetter. rewrite Hb. reflexivity. }
        destruct (patch !! "__proto__") as [v|]; [|exact Hb].
        rewrite andb_false_r. exact Hb.
      * unfold prototypeAfter, assignPrototype, hitsProtoSetter. rewrite Hb.
        destruct (patch !! "__proto__") as [v|]; [|reflexivity].
        rewrite present_stored. reflexivity.
    + intros Hb. unfold prototypeAfter, assignPrototype.
      rewrite (hitsProtoSetter_owned _ _ Hb).
      destruct (patch !! "__proto__") as [v|]; [|reflexivity].
      destruct (present v); reflexivity.
Qed.

Lemma mergeIfPresent_correct_witness :
  let patch : object := {[ "name" := VStr "Asha"; "gender" := VStr "  " ]} in
  exists out : Instance,
    mergeIfPresentCall emptyForm patch = Normal out
    /\ ownProps out !! "name" = Some (VStr "Asha")
    /\ ownProps out !! "gender" = emptyForm !! "gender"
    /\ prototype out = ObjectPrototype.
Proof.
  cbv zeta.
  destruct (proj2 (mergeIfPresent_correct emptyForm
                     {[ "name" := VStr "Asha"; "gender" := VStr "  " ]}))
    as (out & E & _ & Hk & Hp & _).
  - intros k v H _.
    apply lookup_insert_Some in H as [[_ <-]|[_ H]]; [reflexivity|].
    apply lookup_singleton_Some in H as [_ <-]. reflexivity.
  - exists out. split; [exact E|]. split; [|split].
    + rewrite (Hk "name") by (left; discriminate). reflexivity.
    + rewrite (Hk "gender") by (left; discriminate). reflexivity.
    + apply Hp. reflexivity.
Defined.

(** ** Gender *)

(** C7.  For every input string the gender normalizer lower-cases it and
    looks for "female" before "male": an input whose lower-cased form
    contains "female" maps to [female], one that contains "male" but not
    "female" maps to [male], and every other input maps to [other]; so do a
    missing input and the bare "M", while "Female" and "Transfemale" map to
    [female]. *)
Theorem normalizeGender_correct :
  (forall g : string,
     normalizeGender (Some g) =
     if Str.includes (Str.toLowerCase g) "female" then female
     else if Str.includes (Str.toLowerCase g) "male" then male
     else other)
  /\ normalizeGender None = other
  /\ normalizeGender (Some "Female") = female
  /\ normalizeGender (Some "Transfemale") = female
  /\ normalizeGender (Some "M") = other.
Proof.
  split; [|repeat split; reflexivity].
  intros g. unfold normalizeGender.
  destruct (Str.isEmpty g) eqn:Hg.
  - apply isEmpty_true in Hg. subst g. reflexivity.
  - cbv zeta.
    rewrite !(includes_trim (Str.toLowerCase g)) by reflexivity.
    destruct (Str.includes (Str.toLowerCase g) "female"),
             (Str.includes (Str.toLowerCase g) "male"); reflexivity.
Qed.

(** ** National ID *)

(** C8.  For every input string the Aadhaar normalizer keeps only the decimal
    digits; when exactly twelve remain it returns them as three groups of
    four separated by single spaces, and otherwise it returns the remaining
    digits as they are, without raising an error.  "123456789012" becomes
    "1234 5678 9012" and "12345678901" stays "12345678901". *)
Theorem normalizeAadhaarNumber_correct :
  (forall a : string,
     let digits := Str.filter Char.isDigit a in
     normalizeAadhaarNumber (Some a) =
     if (String.length digits =? 12)%nat
     then String.substring 0 4 digits +:+ " " +:+ String.substring 4 4 digits
          +:+ " " +:+ String.substring 8 4 digits
     else digits)
  /\ (forall (a : string) (d1 d2 d3 d4 d5 d6 d7 d8 d9 d10 d11 d12 : ascii),
        Str.filter Char.isDigit a
          = String d1 (String d2 (String d3 (String d4 (String d5 (String d6
              (String d7 (String d8 (String d9 (String d10 (String d11
                (String d12 ""))))))))))) ->
        normalizeAadhaarNumber (Some a)
          = String d1 (String d2 (String d3 (String d4 (String " "
              (String d5 (String d6 (String d7 (String d8 (String " "
                (String d9 (String d10 (String d11 (String d12 ""))))))))))))))
  /\ (forall a : string,
        String.length (Str.filter Char.isDigit a) <> 12%nat ->
        normalizeAadhaarNumber (Some a) = Str.filter Char.isDigit a)
  /\ (forall a : string,
        Str.filter Char.isDigit (normalizeAadhaarNumber (Some a))
        = Str.filter Char.isDigit a)
  /\ normalizeAadhaarNumber None = ""
  /\ normalizeAadhaarNumber (Some "123456789012") = "1234 5678 9012"
  /\ normalizeAadhaarNumber (Some "12345678901") = "12345678901".
Proof.
  assert (forall a : string,
            normalizeAadhaarNumber (Some a) =
            if (String.length (Str.filter Char.isDigit a) =? 12)%nat
            then String.substring 0 4 (Str.filter Char.isDigit a) +:+ " "
                 +:+ String.substring 4 4 (Str.filter Char.isDigit a)
                 +:+ " " +:+ String.substring 8 4 (Str.filter Char.isDigit a)
            else Str.filter Char.isDigit a) as Hgen.
  { intros a. unfold normalizeAadhaarNumber. destruct a as [|c r]; reflexivity. }
  repeat apply conj; try reflexivity.
  - exact Hgen.
  - intros a d1 d2 d3 d4 d5 d6 d7 d8 d9 d10 d11 d12 H. rewrite Hgen, H. reflexivity.
  - intros a H. rewrite Hgen. apply Nat.eqb_neq in H. rewrite H. reflexivity.
  - intros a. rewrite Hgen.
    pose proof (filter_all Char.isDigit a) as Hall.
    destruct (Nat.eqb_spec (String.length (Str.filter Char.isDigit a)) 12) as [E|E];
      [|apply filter_idem].
    revert Hall E. generalize (Str.filter Char.isDigit a) as ds. intros ds Hall E.
    do 12 (destruct ds as [|? ds]; [discriminate E|]).
    destruct ds; [|discriminate E].
    cbn [all] in Hall.
    repeat match goal with
           | H : _ && _ = true |- _ => apply andb_true_iff in H; destruct H
           end.
    cbv [append String.substring]. cbn [Str.filter].
    repeat match goal with
           | D : Char.isDigit ?c = true |- _ => rewrite D; clear D
           end.
    reflexivity.
Qed.

Lemma normalizeAadhaarNumber_correct_witness :
  normalizeAadhaarNumber (Some "UID 9999-8888 7777.")
    = String "9" (String "9" (String "9" (String "9" (String " "
        (String "8" (String "8" (String "8" (String "8" (String " "
          (String "7" (String "7" (String "7" (String "7" "")))))))))))))
  /\ normalizeAadhaarNumber (Some "98-76") = Str.filter Char.isDigit "98-76".
Proof.
  pose proof normalizeAadhaarNumber_correct as (_ & H2 & H3 & _).
  split.
  - apply (H2 "UID 9999-8888 7777."). reflexivity.
  - apply (H3 "98-76"). simpl. lia.
Defined.

(** ** Validation never blocks *)

Lemma push_if_empty (b : bool) (l : list string) (m : string) :
  (List.length (if b then push l m else l) =? 0)%nat
  = (List.length l =? 0)%nat && negb b.
Proof.
  destruct b; unfold push.
  - rewrite length_app, Nat.add_comm, andb_false_r. reflexivity.
  - rewrite andb_true_r. reflexivity.
Qed.

Lemma validate_isValid (data : ProcessedAdmissionData) :
  isValid (validateProcessedData data) =
  negb (blank (name data))
  && (0 <=? age data)%Z && (age data <=? 120)%Z
  && (String.length (mobile_no data) =? 10)%nat
  && (Str.isEmpty (aadhaar_number data)
      || (String.length (Str.filter (fun c => negb (Char.isSpace c))
                           (aadhaar_number data)) =? 12)%nat)
  && negb (blank (admitted_under_doctor data))
  && negb (blank (ward data))
  && negb (blank (bed_number data))
  && negb (blank (reason data)).
Proof.
  unfold validateProcessedData. cbn [isValid].
  rewrite !push_if_empty. cbn [List.length Nat.eqb andb].
  unfold Str.truthy.
  rewrite negb_orb, negb_andb, !negb_involutive, <- !Z.leb_antisym, !andb_assoc.
  reflexivity.
Qed.

(** C9.  For every raw admission input, [postProcessAdmission] returns the
    fully processed record whether or not validation succeeds: the record is
    the one built by the normalizers, the validation result only decides
    whether one warning with the list of messages is written to the console,
    and validation succeeds exactly when the name is present, the age is in
    0..120, the mobile number has 10 characters, the national ID is empty or
    has 12 non-space characters, and doctor, ward, bed and reason are
    present.  The mapping handler merges the record into the form in either
    case.  An input that fails all eight checks still yields its record. *)
Theorem postProcessAdmission_validation_never_blocks :
  (forall (P : Platform) (rawData : RawAdmissionData),
     let data := processedRecord P rawData in
     let v := validateProcessedData data in
     postProcessAdmission P rawData =
       (data, if isValid v then []
              else [ConsoleWarn "Admission data validation warnings:" (errors v)])
     /\ isValid v =
        (negb (blank (name data))
         && (0 <=? age data)%Z && (age data <=? 120)%Z
         && (String.length (mobile_no data) =? 10)%nat
         && (Str.isEmpty (aadhaar_number data)
             || (String.length (Str.filter (fun c => negb (Char.isSpace c))
                                  (aadhaar_number data)) =? 12)%nat)
         && negb (blank (admitted_under_doctor data))
         && negb (blank (ward data))
         && negb (blank (bed_number data))
         && negb (blank (reason data)))
     /\ forall (st : AdmissionPage) (api : string -> string -> Reply RawAdmissionData),
          Str.isEmpty (Str.trim (txAdmission st)) = false ->
          api "/api/map/admission" (combinedText (form st) (Str.trim (txAdmission st)))
            = Returns (Some rawData) ->
          form (mapAdmissionFromTranscript P api st)
            = mergeIfPresent (form st) (admissionPatch data (form st)))
  /\ (postProcessAdmission samplePlatform validationFails).1
       = processedRecord samplePlatform validationFails
  /\ age (postProcessAdmission samplePlatform validationFails).1 = 150%Z
  /\ (postProcessAdmission samplePlatform validationFails).2
       = [ConsoleWarn "Admission data validation warnings:"
            ["Patient name is required"; "Age must be between 0 and 120";
             "Mobile number must be 10 digits"; "Aadhaar number must be 12 digits";
             "Admitting doctor is required"; "Ward is required";
             "Bed number is required"; "Admission reason is required"]].
Proof.
  split; [|repeat split; vm_compute; reflexivity].
  intros P rawData data v. split; [|split].
  - unfold postProcessAdmission. fold data. fold v. destruct (isValid v); reflexivity.
  - apply validate_isValid.
  - intros st api Htx Hapi. unfold mapAdmissionFromTranscript.
    assert (Str.or (txAdmission st) "" = txAdmission st) as ->.
    { unfold Str.or. destruct (txAdmission st); reflexivity. }
    cbv zeta. rewrite Htx, Hapi. reflexivity.
Qed.

Lemma postProcessAdmission_validation_never_blocks_witness :
  form (mapAdmissionFromTranscript samplePlatform
          (fun _ _ => Returns (Some validationFails)) sampleAdmissionPage)
  = mergeIfPresent emptyForm
      (admissionPatch (processedRecord samplePlatform validationFails) emptyForm).
Proof.
  apply (proj2 (proj2 (proj1 postProcessAdmission_validation_never_blocks
                         samplePlatform validationFails))
           sampleAdmissionPage (fun _ _ => Returns (Some validationFails)));
    reflexivity.
Defined.

(** ** Transcription *)

Lemma extract_single (k x : string) :
  k = "text" \/ k = "transcript" \/ k = "result" ->
  extractTranscript (VObj {[ k := VStr x ]}) = VStr x.
Proof.
  intros Hk. unfold extractTranscript, Value.prop, Value.get, Value.or.
  destruct x as [|c x].
  - destruct Hk as [-> | [-> | ->]]; reflexivity.
  - destruct Hk as [-> | [-> | ->]]; reflexivity.
Qed.

(** C3.  For every audio blob of size 0, whatever the configuration and
    whatever the network would answer, the transcription step ends with the
    empty-audio error and issues no [fetch]: [processAudio] reports
    "Audio blob is empty - no audio was recorded" through its error state and
    hands the empty transcript to its callbacks, and the simple recorder
    reports "No audio recorded". *)
Theorem empty_audio_rejected_without_fetch
    (JSON_parse : string -> value + string)
    (enableTranscription : bool) (apiBase : string) (net : FetchOutcome) :
  processAudio JSON_parse enableTranscription apiBase net 0 =
    [SetIsProcessing true; SetErr None; SetProcessingTime 0;
     SetErr (Some "Transcription error: Audio blob is empty - no audio was recorded. Please try speaking more clearly.");
     OnTranscript ""; OnTranscribe "";
     SetIsProcessing false; SetProcessingTime 0]
  /\ existsb isFetch (processAudio JSON_parse enableTranscription apiBase net 0) = false
  /\ simpleRecorderOnStop JSON_parse net 0 =
       [SetIsProcessing true; SetErr (Some "No audio recorded"); SetIsProcessing false]
  /\ existsb isFetch (simpleRecorderOnStop JSON_parse net 0) = false.
Proof. repeat split; reflexivity. Qed.

(** The request is issued for every blob that is not empty when
    transcription is enabled. *)
Lemma nonempty_audio_fetches (JSON_parse : string -> value + string)
    (apiBase : string) (net : FetchOutcome) (size : nat) :
  size <> 0%nat ->
  existsb isFetch (processAudio JSON_parse true apiBase net size) = true
  /\ existsb isFetch (simpleRecorderOnStop JSON_parse net size) = true.
Proof.
  intros H. unfold processAudio, simpleRecorderOnStop.
  destruct size; [congruence|]. split; reflexivity.
Qed.

(** The transcript of a parsed object is the first of its [text],
    [transcript] and [result] that is truthy, and the empty string when none
    is. *)
Lemma extract_object (o : object) :
  extractTranscript (VObj o) =
  if Value.truthy (Value.get o "text") then Value.get o "text"
  else if Value.truthy (Value.get o "transcript") then Value.get o "transcript"
  else if Value.truthy (Value.get o "result") then Value.get o "result"
  else VStr "".
Proof.
  unfold extractTranscript, Value.prop, Value.or.
  destruct (Value.truthy (Value.get o "text")) eqn:E1; rewrite ?E1; [reflexivity|].
  destruct (Value.truthy (Value.get o "transcript")) eqn:E2; rewrite ?E2; reflexivity.
Qed.

Lemma truthy_text (x : string) : x <> "" -> Value.truthy (VStr x) = true.
Proof. destruct x; [congruence|reflexivity]. Qed.

(** The run of [processAudio] on a response that is ok, by what the
    transcript trims to. *)
Lemma processAudio_ok_text (JSON_parse : string -> value + string)
    (apiBase body x : string) (status size : nat) :
  size <> 0%nat -> responseOk status = true ->
  extractTranscript (safeJson JSON_parse body) = VStr x ->
  processAudio JSON_parse true apiBase (FetchResponds status body) size =
    [SetIsProcessing true; SetErr None; SetProcessingTime 0;
     StartProcessingTimer; StartTimeout 120000;
     Fetch (apiBase +:+ "/api/transcribe") "rec.webm" "auto";
     ClearTimeout;
     OnTranscript (Str.trim x); OnTranscribe (Str.trim x);
     SetLocalText (if Str.isEmpty (Str.trim x)
                   then "No transcript received from server" else Str.trim x);
     SetIsProcessing false; SetProcessingTime 0; ClearProcessingTimer].
Proof.
  intros Hsize Hok Hx. unfold processAudio. destruct size; [congruence|].
  cbn [Nat.eqb negb]. rewrite Hok, Hx. cbn [negb deliverTranscript].
  destruct x as [|c x]; [reflexivity|]. cbn [Str.truthy Str.isEmpty negb andb].
  unfold Str.truthy. destruct (Str.trim (String c x)) eqn:E; reflexivity.
Qed.

(** C4.  The parsed response is the value that [JSON.parse] gives for the
    body; a body that [JSON.parse] rejects becomes [{text: "", _raw: body}],
    which keeps the raw text aside and has the empty transcript.  For every
    text [x], a response parsed as [{text: x}], [{transcript: x}],
    [{result: x}] or the bare string [x] yields the transcript [x], also
    when it is read from a body that parses to one of the four, and so does
    any parsed object in which [x], not empty, is the first truthy one of
    [text], [transcript] and [result]; an object without a truthy one of the
    three, an array, a number, a boolean and [null] yield the empty
    transcript.  A successful response whose transcript [x] does not trim to
    the empty string hands the trimmed [x] to both callbacks and to the
    local display; one whose transcript is empty or blank hands the empty
    string to the callbacks.  In neither case is an error set. *)
Theorem transcript_extraction_correct (JSON_parse : string -> value + string) :
  (forall x : string,
     extractTranscript (VObj {[ "text" := VStr x ]}) = VStr x
     /\ extractTranscript (VObj {[ "transcript" := VStr x ]}) = VStr x
     /\ extractTranscript (VObj {[ "result" := VStr x ]}) = VStr x
     /\ extractTranscript (VStr x) = VStr x)
  /\ (forall (o : object) (x : string),
        x <> "" ->
        (o !! "text" = Some (VStr x) -> extractTranscript (VObj o) = VStr x)
        /\ (Value.truthy (Value.get o "text") = false ->
            o !! "transcript" = Some (VStr x) -> extractTranscript (VObj o) = VStr x)
        /\ (Value.truthy (Value.get o "text") = false ->
            Value.truthy (Value.get o "transcript") = false ->
            o !! "result" = Some (VStr x) -> extractTranscript (VObj o) = VStr x))
  /\ (forall o : object,
        Value.truthy (Value.get o "text") = false ->
        Value.truthy (Value.get o "transcript") = false ->
        Value.truthy (Value.get o "result") = false ->
        extractTranscript (VObj o) = VStr "")
  /\ (forall (l : list value) (n : Z) (b : bool),
        extractTranscript (VArr l) = VStr ""
        /\ extractTranscript (VNum n) = VStr ""
        /\ extractTranscript (VBool b) = VStr ""
        /\ extractTranscript VNull = VStr "")
  /\ (forall (body : string) (v : value),
        JSON_parse body = inl v -> safeJson JSON_parse body = v)
  /\ (forall body x k : string,
        k = "text" \/ k = "transcript" \/ k = "result" ->
        JSON_parse body = inl (VObj {[ k := VStr x ]}) ->
        extractTranscript (safeJson JSON_parse body) = VStr x)
  /\ (forall body x : string,
        JSON_parse body = inl (VStr x) ->
        extractTranscript (safeJson JSON_parse body) = VStr x)
  /\ (forall body message : string,
        JSON_parse body = inr message ->
        safeJson JSON_parse body
          = VObj (<["text" := VStr ""]> (<["_raw" := VStr body]> ∅))
        /\ Value.prop (safeJson JSON_parse body) "_raw" = VStr body
        /\ extractTranscript (safeJson JSON_parse body) = VStr "")
  /\ (forall (apiBase body x : string) (status size : nat),
        size <> 0%nat -> responseOk status = true ->
        extractTranscript (safeJson JSON_parse body) = VStr x ->
        Str.trim x <> "" ->
        processAudio JSON_parse true apiBase (FetchResponds status body) size =
          [SetIsProcessing true; SetErr None; SetProcessingTime 0;
           StartProcessingTimer; StartTimeout 120000;
           Fetch (apiBase +:+ "/api/transcribe") "rec.webm" "auto";
           ClearTimeout;
           OnTranscript (Str.trim x); OnTranscribe (Str.trim x);
           SetLocalText (Str.trim x);
           SetIsProcessing false; SetProcessingTime 0; ClearProcessingTimer]
        /\ existsb hasError
             (processAudio JSON_parse true apiBase (FetchResponds status body) size)
           = false)
  /\ (forall (apiBase body x : string) (status size : nat),
        size <> 0%nat -> responseOk status = true ->
        extractTranscript (safeJson JSON_parse body) = VStr x ->
        Str.trim x = "" ->
        processAudio JSON_parse true apiBase (FetchResponds status body) size =
          [SetIsProcessing true; SetErr None; SetProcessingTime 0;
           StartProcessingTimer; StartTimeout 120000;
           Fetch (apiBase +:+ "/api/transcribe") "rec.webm" "auto";
           ClearTimeout;
           OnTranscript ""; OnTranscribe "";
           SetLocalText "No transcript received from server";
           SetIsProcessing false; SetProcessingTime 0; ClearProcessingTimer]
        /\ existsb hasError
             (processAudio JSON_parse true apiBase (FetchResponds status body) size)
           = false).
Proof.
  split; [|split; [|split; [|split; [|split; [|split; [|split; [|split; [|split]]]]]]]].
  - intros x. repeat split; apply extract_single; tauto.
  - intros o x Hx. pose proof (truthy_text x Hx) as T. repeat split.
    + intros H. rewrite extract_object.
      assert (Value.get o "text" = VStr x) as ->
        by (unfold Value.get; rewrite H; reflexivity).
      rewrite T. reflexivity.
    + intros H1 H. rewrite extract_object, H1.
      assert (Value.get o "transcript" = VStr x) as ->
        by (unfold Value.get; rewrite H; reflexivity).
      rewrite T. reflexivity.
    + intros H1 H2 H. rewrite extract_object, H1, H2.
      assert (Value.get o "result" = VStr x) as ->
        by (unfold Value.get; rewrite H; reflexivity).
      rewrite T. reflexivity.
  - intros o H1 H2 H3. rewrite extract_object, H1, H2, H3. reflexivity.
  - intros l n b. repeat split.
  - intros body v H. unfold safeJson. rewrite H. reflexivity.
  - intros body x k Hk H. unfold safeJson. rewrite H. apply extract_single, Hk.
  - intros body x H. unfold safeJson. rewrite H. reflexivity.
  - intros body message H. unfold safeJson. rewrite H. repeat split.
  - intros apiBase body x status size Hsize Hok Hx Htrim.
    pose proof (processAudio_ok_text JSON_parse apiBase body x status size Hsize Hok Hx) as E.
    assert (Str.isEmpty (Str.trim x) = false) as Hne.
    { destruct (Str.trim x); [congruence|reflexivity]. }
    rewrite Hne in E. split; [exact E|]. rewrite E. reflexivity.
  - intros apiBase body x status size Hsize Hok Hx Htrim.
    pose proof (processAudio_ok_text JSON_parse apiBase body x status size Hsize Hok Hx) as E.
    rewrite Htrim in E. cbn [Str.isEmpty] in E. split; [exact E|]. rewrite E. reflexivity.
Qed.

Lemma transcript_extraction_correct_witness :
  let reply : value :=
    VObj {[ "text" := VStr ""; "transcript" := VStr " BP 120/80 "; "language" := VStr "en" ]} in
  (safeJson rejectAll "<html>"
     = VObj (<["text" := VStr ""]> (<["_raw" := VStr "<html>"]> ∅))
   /\ Value.prop (safeJson rejectAll "<html>") "_raw" = VStr "<html>"
   /\ extractTranscript (safeJson rejectAll "<html>") = VStr "")
  /\ existsb hasError
       (processAudio rejectAll true "http://localhost:8000" (FetchResponds 200 "<html>") 2048)
     = false
  /\ safeJson (parsesTo reply) "{}" = reply
  /\ extractTranscript reply = VStr " BP 120/80 "
  /\ processAudio (parsesTo reply) true "http://localhost:8000" (FetchResponds 200 "{}") 2048 =
       [SetIsProcessing true; SetErr None; SetProcessingTime 0;
        StartProcessingTimer; StartTimeout 120000;
        Fetch "http://localhost:8000/api/transcribe" "rec.webm" "auto";
        ClearTimeout;
        OnTranscript "BP 120/80"; OnTranscribe "BP 120/80";
        SetLocalText "BP 120/80";
        SetIsProcessing false; SetProcessingTime 0; ClearProcessingTimer].
Proof.
  cbv zeta.
  destruct (transcript_extraction_correct rejectAll)
    as (_ & Hobj & _ & _ & _ & _ & _ & Hraw & _ & Hblank).
  destruct (transcript_extraction_correct
              (parsesTo (VObj {[ "text" := VStr ""; "transcript" := VStr " BP 120/80 ";
                                 "language" := VStr "en" ]})))
    as (_ & _ & _ & _ & Hparsed & _ & _ & _ & Htext & _).
  split; [|split; [|split; [|split]]].
  - apply (Hraw "<html>" "Unexpected token < in JSON at position 0"). reflexivity.
  - apply (Hblank "http://localhost:8000" "<html>" "" 200%nat 2048%nat);
      [discriminate | reflexivity | reflexivity | reflexivity].
  - apply (Hparsed "{}"). reflexivity.
  - refine (proj1 (proj2 (Hobj _ " BP 120/80 " _)) _ _);
      [discriminate | reflexivity | reflexivity].
  - refine (proj1 (Htext "http://localhost:8000" "{}" " BP 120/80 " 200%nat 2048%nat
                     _ _ _ _));
      [discriminate | reflexivity | reflexivity | vm_compute; discriminate].
Defined.

(** ** Mapping failures on the handover page *)





(** ** Regular expressions against direct descriptions *)

Lemma execFrom_Bol_later r s : forall pos, execFrom (Seq Bol r) s (S pos) = None.
Proof. induction s as [|c s IH]; intros pos; simpl; [reflexivity | apply IH]. Qed.

(** A pattern that starts with [^] matches at offset 0 or not at all. *)
Lemma exec_anchored r s : exec (Seq Bol r) s = matchAt (Seq Bol r) s 0.
Proof.
  unfold exec. destruct s as [|c s]; cbn [execFrom];
    destruct (matchAt (Seq Bol r) _ 0); try reflexivity.
  apply execFrom_Bol_later.
Qed.

Lemma test_anchored r s :
  test (Seq Bol r) s = match matchAt (Seq Bol r) s 0 with Some _ => true | None => false end.
Proof. unfold test. rewrite exec_anchored. reflexivity. Qed.

Lemma rep_done {R} p lo s pos (k : string -> nat -> option R) :
  rep p lo (Some 0%nat) s pos k = if (lo =? 0)%nat then k s pos else None.
Proof. destruct s; reflexivity. Qed.

Lemma trimStart_length s : (String.length (Str.trimStart s) <= String.length s)%nat.
Proof.
  induction s as [|a r IH]; simpl; [lia|]. destruct (Char.isSpace a); simpl; lia.
Qed.

(** [\s*] before a continuation that rejects white space skips exactly the
    leading white space. *)
Lemma rep_star_trimStart {R} (k : string -> nat -> option R) :
  (forall c r pos, Char.isSpace c = true -> k (String c r) pos = None) ->
  forall s pos,
    rep Char.isSpace 0 None s pos k
    = k (Str.trimStart s) (pos + (String.length s - String.length (Str.trimStart s)))%nat.
Proof.
  intros Hk. induction s as [|c r IH]; intros pos.
  - simpl. rewrite Nat.add_0_r. reflexivity.
  - cbn [rep Str.trimStart Nat.eqb Nat.pred option_map].
    destruct (Char.isSpace c) eqn:Hc.
    + rewrite IH, (Hk c r pos Hc). pose proof (trimStart_length r) as Hle.
      replace (S pos + (String.length r - String.length (Str.trimStart r)))%nat
        with (pos + (String.length (String c r) - String.length (Str.trimStart r)))%nat
        by (simpl; lia).
      destruct (k _ _); reflexivity.
    + rewrite Nat.sub_diag, Nat.add_0_r. reflexivity.
Qed.

Lemma substring_zero s : String.substring 0 0 s = "".
Proof. destruct s; reflexivity. Qed.

Section CharFacts.

Lemma digit_facts c : Char.isDigit c = true ->
  Char.isSpace c = false /\ Char.eqb ":" c = false /\ Char.eqb c ":" = false
  /\ Char.eqb c "-" = false /\ Char.eqb c "+" = false /\ Char.eqb "-" c = false
  /\ isDashOrSlash c = false /\ Char.eqb c "T" = false.
Proof. destruct c as [[] [] [] [] [] [] [] []]; intros H; try discriminate H; repeat split. Qed.

Lemma sep_facts c : isDashOrSlash c = true -> Char.isDigit c = false.
Proof. destruct c as [[] [] [] [] [] [] [] []]; intros H; try discriminate H; reflexivity. Qed.

Lemma char_eqb_comm a b : Char.eqb a b = Char.eqb b a.
Proof. apply Ascii.eqb_sym. Qed.

Lemma ci_colon c : Char.eqb_ci ":" c = Char.eqb ":" c.
Proof. destruct c as [[] [] [] [] [] [] [] []]; reflexivity. Qed.
Lemma ci_a c : Char.eqb_ci "a" c = Ascii.eqb (Char.toLower c) "a".
Proof. destruct c as [[] [] [] [] [] [] [] []]; reflexivity. Qed.
Lemma ci_p c : Char.eqb_ci "p" c = Ascii.eqb (Char.toLower c) "p".
Proof. destruct c as [[] [] [] [] [] [] [] []]; reflexivity. Qed.
Lemma ci_m c : Char.eqb_ci "m" c = Ascii.eqb (Char.toLower c) "m".
Proof. destruct c as [[] [] [] [] [] [] [] []]; reflexivity. Qed.

Lemma space_not_ap c : Char.isSpace c = true ->
  Ascii.eqb (Char.toLower c) "a" = false /\ Ascii.eqb (Char.toLower c) "p" = false.
Proof.
  destruct c as [[] [] [] [] [] [] [] []]; intros H; try discriminate H; split; reflexivity.
Qed.

End CharFacts.

(** Symbolic evaluation of a matcher on a string whose characters are only
    known through the tests made on them. *)
Ltac charfacts :=
  repeat match goal with
  | H : ?f ?c = ?b |- context [?f ?c] => rewrite H
  | H : ?f ?c ?d = ?b |- context [?f ?c ?d] => rewrite H
  end.

Ltac case_digit c :=
  let H := fresh "Hd" in
  destruct (Char.isDigit c) eqn:H;
  [ let F := fresh "Hf" in
    pose proof (digit_facts _ H) as F; destruct F as (? & ? & ? & ? & ? & ? & ? & ?) | ].

Ltac case_sep c :=
  let H := fresh "Hs" in
  destruct (isDashOrSlash c) eqn:H;
  [ let F := fresh "Hf" in pose proof (sep_facts _ H) as F | ].

Ltac case_char a c :=
  let H := fresh "He" in let H' := fresh "He" in
  destruct (Char.eqb a c) eqn:H; pose proof H as H'; rewrite char_eqb_comm in H'.

Ltac case_lower :=
  match goal with
  | |- context [Ascii.eqb (Char.toLower ?x) ?y] =>
      let E := fresh "E" in destruct (Ascii.eqb (Char.toLower x) y) eqn:E
  end.

Ltac ev :=
  repeat (cbn -[Char.isDigit Char.isSpace Char.eqb Char.eqb_ci Char.toLower isDashOrSlash
                Date.localHHMM Date.isoDate Num.toString Nat.sub Nat.add];
          rewrite ?ci_colon, ?ci_a, ?ci_p, ?ci_m, ?rep_done; charfacts).

Ltac split_string :=
  match goal with
  | |- context [match ?s with EmptyString => _ | String _ _ => _ end] => is_var s; destruct s
  | |- context [rep _ _ _ ?s _ _] => is_var s; destruct s
  | |- context [String.length ?s] => is_var s; destruct s
  end.

Ltac case_pred :=
  match goal with
  | |- context [Char.isDigit ?c] => is_var c; case_digit c
  | |- context [isDashOrSlash ?c] => is_var c; case_sep c
  | |- context [Char.eqb ?a ?c] => case_char a c
  end.

Ltac walk := repeat (ev; try reflexivity; try exact I; first [ case_pred | split_string ]).

Ltac finish := ev; try reflexivity; repeat (split_string; ev; try reflexivity).

Ltac period_leaf s :=
  rewrite rep_star_trimStart;
  [ generalize (Str.trimStart s) as r;
    generalize (String.length s - String.length (Str.trimStart s))%nat as n;
    intros n r; unfold isPeriod;
    destruct r as [|a [|b [|c r]]]; ev; try reflexivity;
    repeat (case_lower; ev; rewrite ?Nat.add_sub', ?Nat.sub_0_r; try reflexivity);
    cbn; rewrite ?substring_zero; reflexivity
  | intros c r pos Hc; destruct (space_not_ap c Hc) as [Ha Hp]; ev; rewrite ?Ha, ?Hp;
    reflexivity ].

Ltac time_prefix s leaf :=
  destruct s as [|h1 s]; [reflexivity|];
  case_digit h1; ev; [|reflexivity];
  destruct s as [|c2 s]; ev; [reflexivity|];
  case_digit c2; ev;
  [ destruct s as [|c3 s]; ev; [reflexivity|];
    case_char ":"%char c3; ev; [|finish];
    destruct s as [|m1 s]; ev; [reflexivity|];
    case_digit m1; ev; [|finish];
    destruct s as [|m2 s]; ev; [reflexivity|];
    case_digit m2; ev; [|finish];
    leaf s
  | case_char ":"%char c2; ev; [|finish];
    destruct s as [|m1 s]; ev; [reflexivity|];
    case_digit m1; ev; [|finish];
    destruct s as [|m2 s]; ev; [reflexivity|];
    case_digit m2; ev; [|finish];
    leaf s ].

Section DateTimePatterns.

Lemma test_reISODate s : test reISODate s = isoShape s.
Proof.
  unfold reISODate. change (Cat (Bol :: ?l)) with (Seq Bol (Cat l)).
  rewrite test_anchored. unfold matchAt, isoShape. walk.
Qed.

Lemma test_reDMYDate s :
  test reDMYDate s = match dmyShape s with Some _ => true | None => false end.
Proof.
  unfold reDMYDate. change (Cat (Bol :: ?l)) with (Seq Bol (Cat l)).
  rewrite test_anchored. unfold matchAt, dmyShape, takeOneOrTwoDigits. walk.
Qed.

Lemma dmyShape_split s :
  match dmyShape s with
  | Some (day, month, year) => Str.splitOn isDashOrSlash s = [day; month; year]
  | None => True
  end.
Proof. unfold dmyShape, takeOneOrTwoDigits. walk. Qed.

Lemma dmyShape_not_iso s :
  match dmyShape s with Some _ => isoShape s = false | None => True end.
Proof. unfold dmyShape, isoShape, takeOneOrTwoDigits. walk. Qed.

Lemma test_reHHMM s :
  test reHHMM s =
  match timeShape s with Some (_, _, rest) => Str.isEmpty rest | None => false end.
Proof.
  unfold reHHMM. change (Cat (Bol :: ?l)) with (Seq Bol (Cat l)).
  rewrite test_anchored. unfold matchAt, timeShape, takeOneOrTwoDigits.
  time_prefix s ltac:(fun s => destruct s; reflexivity).
Qed.

Lemma test_reAmPmTest s :
  test reAmPmTest s =
  match timeShape s with
  | Some (h, mm, rest) =>
      isPeriod "am" (Str.trimStart rest) || isPeriod "pm" (Str.trimStart rest)
  | None => false
  end.
Proof.
  unfold reAmPmTest. change (Cat (Bol :: ?l)) with (Seq Bol (Cat l)).
  rewrite test_anchored. unfold matchAt, timeShape, takeOneOrTwoDigits.
  time_prefix s ltac:(fun s => period_leaf s).
Qed.

Lemma groups_reAmPm s :
  groups <$> exec reAmPm s =
  match timeShape s with
  | Some (h, mm, rest) =>
      if isPeriod "am" (Str.trimStart rest) || isPeriod "pm" (Str.trimStart rest)
      then Some [h; mm; Str.trimStart rest]
      else None
  | None => None
  end.
Proof.
  unfold reAmPm. change (Cat (Bol :: ?l)) with (Seq Bol (Cat l)).
  rewrite exec_anchored. unfold matchAt, timeShape, takeOneOrTwoDigits.
  time_prefix s ltac:(fun s => period_leaf s).
Qed.

(** What [timeShape] accepts. *)
Lemma timeShape_inv s h mm rest :
  timeShape s = Some (h, mm, rest) ->
  exists h1 hs m1 m2,
    h = String h1 hs /\ mm = String m1 (String m2 "") /\
    s = h +:+ ":" +:+ mm +:+ rest /\
    Char.isDigit h1 = true /\ Char.isDigit m1 = true /\ Char.isDigit m2 = true /\
    (hs = "" \/ exists h2, hs = String h2 "" /\ Char.isDigit h2 = true).
Proof.
  unfold timeShape, takeOneOrTwoDigits.
  destruct s as [|h1 s]; [discriminate|].
  case_digit h1; [|discriminate].
  destruct s as [|c2 s]; [discriminate|].
  case_digit c2.
  - destruct s as [|c3 [|m1 [|m2 s]]]; try discriminate.
    destruct (Char.eqb c3 ":") eqn:E3; [|discriminate].
    case_digit m1; [|discriminate]. case_digit m2; [|discriminate].
    cbn. intros [= <- <- <-]. apply char_eqb_eq in E3. subst c3.
    exists h1, (String c2 ""), m1, m2. repeat split; eauto.
  - destruct s as [|m1 [|m2 s]]; try discriminate.
    destruct (Char.eqb c2 ":") eqn:E3; [|discriminate].
    case_digit m1; [|discriminate]. case_digit m2; [|discriminate].
    cbn. intros [= <- <- <-]. apply char_eqb_eq in E3. subst c2.
    exists h1, "", m1, m2. repeat split; eauto.
Qed.

Lemma digitValue_range c : Char.isDigit c = true -> (0 <= Num.digitValue c <= 9)%Z.
Proof.
  unfold Char.isDigit, Num.digitValue. intros H. apply andb_true_iff in H.
  destruct H as [H1 H2]. apply Nat.leb_le in H1, H2. lia.
Qed.

(** One or two digits read as a number below 100. *)
Lemma ofDigits_two s :
  all Char.isDigit s = true -> (String.length s <= 2)%nat ->
  (0 <= Num.ofDigits s < 100)%Z.
Proof.
  intros H L. destruct s as [|a [|b [|c r]]]; simpl in L; try lia;
    cbn [all] in H; unfold Num.ofDigits; cbn [Num.digitsValueFrom].
  - lia.
  - apply andb_true_iff in H. destruct H as [Ha _]. rewrite Ha.
    pose proof (digitValue_range a Ha). lia.
  - apply andb_true_iff in H. destruct H as [Ha H].
    apply andb_true_iff in H. destruct H as [Hb _]. rewrite Ha, Hb.
    pose proof (digitValue_range a Ha). pose proof (digitValue_range b Hb). lia.
Qed.

(** An integer below 2^53 in magnitude is its own Number value. *)
Lemma toNumber_small n : (Z.abs n < 2 ^ 53)%Z -> Num.toNumber n = n.
Proof.
  intros H. unfold Num.toNumber. cbv zeta.
  destruct (Z.ltb_spec (Z.abs n) (2 ^ 53)); [reflexivity|lia].
Qed.

(** From 2^53 on the Number value stays at 2^53 or above. *)
Lemma toNumber_large n : (2 ^ 53 <= n)%Z -> (2 ^ 53 <= Num.toNumber n)%Z.
Proof.
  intros H. unfold Num.toNumber. cbv zeta.
  assert (0 < n)%Z as Hn by (change (2 ^ 53)%Z with 9007199254740992%Z in H; lia).
  rewrite Z.abs_eq by lia.
  destruct (Z.ltb_spec n (2 ^ 53)) as [L|_]; [lia|].
  assert (53 <= Z.log2 n)%Z as Hl by (apply Z.log2_le_pow2; lia).
  set (e := (Z.log2 n - 52)%Z).
  assert (1 <= e)%Z as He by (unfold e; lia).
  destruct (Z.log2_spec n Hn) as [Lo _].
  assert (2 ^ Z.log2 n = 2 ^ 52 * 2 ^ e)%Z as E.
  { unfold e. rewrite <- Z.pow_add_r by lia. f_equal. lia. }
  assert (2 <= 2 ^ e)%Z as H2.
  { change 2%Z with (2 ^ 1)%Z at 1. apply Z.pow_le_mono_r; lia. }
  assert (2 ^ 52 <= n / 2 ^ e)%Z as Hq.
  { apply Z.div_le_lower_bound; lia. }
  rewrite Z.sgn_pos by lia.
  set (q := (n / 2 ^ e)%Z) in *.
  change (2 ^ 53)%Z with 9007199254740992%Z.
  change (2 ^ 52)%Z with 4503599627370496%Z in Hq.
  destruct (_ <? _)%Z; [nia|]. destruct (_ <? _)%Z; [nia|]. destruct (Z.even q); nia.
Qed.

Lemma toNumber_nonneg n : (0 <= n)%Z -> (0 <= Num.toNumber n)%Z.
Proof.
  intros H. destruct (Z.lt_ge_cases n (2 ^ 53)) as [L|L].
  - rewrite toNumber_small by (rewrite Z.abs_eq by lia; exact L). exact H.
  - pose proof (toNumber_large n L) as G.
    change (2 ^ 53)%Z with 9007199254740992%Z in G. lia.
Qed.

(** Rounding does not move a number across a bound below 2^53. *)
Lemma toNumber_compare n b :
  (0 <= n)%Z -> (b < 2 ^ 53)%Z ->
  ((b <? Num.toNumber n)%Z = (b <? n)%Z) /\ ((Num.toNumber n =? b)%Z = (n =? b)%Z).
Proof.
  intros H Hb. destruct (Z.lt_ge_cases n (2 ^ 53)) as [L|L].
  - rewrite toNumber_small by (rewrite Z.abs_eq by lia; exact L). split; reflexivity.
  - pose proof (toNumber_large n L) as G.
    change (2 ^ 53)%Z with 9007199254740992%Z in *. split.
    + destruct (Z.ltb_spec b (Num.toNumber n)), (Z.ltb_spec b n); try reflexivity; lia.
    + destruct (Z.eqb_spec (Num.toNumber n) b), (Z.eqb_spec n b); try reflexivity; lia.
Qed.

Lemma parseInt_digit c r :
  Char.isDigit c = true ->
  Num.parseInt (String c r) = Some (Num.toNumber (Num.ofDigits (String c r))).
Proof.
  intros H. destruct (digit_facts c H) as (Hs & _ & _ & Hm & Hp & _).
  unfold Num.parseInt. cbn [Str.trimStart]. rewrite Hs, Hm, Hp, H. reflexivity.
Qed.

(** One or two digits are read exactly. *)
Lemma parseInt_two c r :
  all Char.isDigit (String c r) = true -> (String.length r <= 1)%nat ->
  Num.parseInt (String c r) = Some (Num.ofDigits (String c r)).
Proof.
  intros H L. rewrite parseInt_digit.
  - pose proof (ofDigits_two (String c r) H ltac:(simpl; lia)) as B.
    rewrite toNumber_small; [reflexivity|].
    change (2 ^ 53)%Z with 9007199254740992%Z. lia.
  - cbn [all] in H. apply andb_true_iff in H. apply H.
Qed.

End DateTimePatterns.

(** The time normalizer computes what its reference description says. *)
Lemma normalizeTime_direct z now t :
  normalizeTime z now (Some t) = directNormalizeTime z now t.
Proof.
  unfold normalizeTime, directNormalizeTime.
  destruct (Str.isEmpty t) eqn:Ht.
  { destruct t; [reflexivity | discriminate]. }
  cbv zeta. generalize (Str.trim t) as s. clear t Ht. intros s.
  rewrite test_reHHMM, test_reAmPmTest.
  pose proof (groups_reAmPm s) as Hg.
  destruct (timeShape s) as [[[h mm] rest]|] eqn:Hs.
  2:{ destruct (Str.includes _ "now" || _); reflexivity. }
  destruct (timeShape_inv _ _ _ _ Hs)
    as (h1 & hs & m1 & m2 & -> & -> & -> & D1 & D2 & D3 & Hhs).
  destruct (digit_facts _ D1) as (? & ? & ? & ? & ? & ? & ? & ?).
  destruct (digit_facts _ D2) as (? & ? & ? & ? & ? & ? & ? & ?).
  destruct (digit_facts _ D3) as (? & ? & ? & ? & ? & ? & ? & ?).
  destruct (Str.isEmpty rest) eqn:Hr.
  - apply isEmpty_true in Hr. subst rest.
    destruct Hhs as [-> | (h2 & -> & D4)].
    + cbv [append]. ev. reflexivity.
    + destruct (digit_facts _ D4) as (? & ? & ? & ? & ? & ? & ? & ?).
      cbv [append]. ev. reflexivity.
  - destruct (isPeriod "am" (Str.trimStart rest) || isPeriod "pm" (Str.trimStart rest)) eqn:Hp.
    + destruct (exec reAmPm _) as [m|]; [|discriminate Hg].
      cbn in Hg. injection Hg as Hg. unfold group. rewrite Hg. cbn [nth Nat.sub].
      rewrite parseInt_two
        by (destruct Hhs as [-> | (h2 & -> & D4)]; cbn [all String.length];
            rewrite ?D1, ?D4; (reflexivity || lia)).
      unfold isPeriod in Hp.
      destruct (String.eqb (Str.toLowerCase (Str.trimStart rest)) "pm") eqn:Epm.
      * apply String.eqb_eq in Epm. rewrite Epm.
        cbn [String.eqb Ascii.eqb Bool.eqb andb negb].
        unfold shiftHour, hoursText.
        destruct (Z.eqb_spec (Num.ofDigits (String h1 hs)) 12) as [E|E].
        -- rewrite E, bool_decide_eq_true_2 by reflexivity. reflexivity.
        -- rewrite bool_decide_eq_false_2 by congruence. reflexivity.
      * rewrite orb_false_r in Hp. apply String.eqb_eq in Hp. rewrite Hp.
        cbn [String.eqb Ascii.eqb Bool.eqb andb negb].
        unfold shiftHour, hoursText.
        destruct (Z.eqb_spec (Num.ofDigits (String h1 hs)) 12) as [E|E].
        -- rewrite E, bool_decide_eq_true_2 by reflexivity. reflexivity.
        -- rewrite bool_decide_eq_false_2 by congruence. reflexivity.
    + unfold isPeriod in Hp. apply orb_false_iff in Hp. destruct Hp as [Ha Hpm].
      rewrite Hpm, Ha. destruct (Str.includes _ "now" || _); reflexivity.
Qed.

(** The date normalizer computes what its reference description says. *)
Lemma normalizeDate_refines z now d :
  normalizeDate z now (Some d) = specNormalizeDate z now d.
Proof.
  unfold normalizeDate, specNormalizeDate.
  destruct (Str.isEmpty d) eqn:Hd.
  { apply isEmpty_true in Hd. subst d. reflexivity. }
  cbv zeta. generalize (Str.trim d) as s. clear d Hd. intros s.
  rewrite test_reISODate, test_reDMYDate.
  destruct (isoShape s); [reflexivity|].
  pose proof (dmyShape_split s) as Hsp.
  destruct (dmyShape s) as [[[day month] year]|]; [|reflexivity].
  rewrite Hsp. reflexivity.
Qed.

(** ** Shapes of written dates *)

Section DateShapes.

(** A string in ISO form has no surrounding white space. *)
Lemma isoShape_trim d : isoShape d = true -> Str.trim d = d.
Proof.
  unfold isoShape.
  do 10 (destruct d as [|? d]; [discriminate|]).
  destruct d; [|discriminate].
  intros H. do 9 (apply andb_true_iff in H; destruct H as [H ?]).
  repeat match goal with
         | D : Char.isDigit ?c = true |- _ =>
             destruct (digit_facts c D) as (? & _); clear D
         | E : Char.eqb ?c "-" = true |- _ => apply char_eqb_eq in E; subst c
         end.
  unfold Str.trim. ev. reflexivity.
Qed.

(** What [dmyShape] accepts, and how it cuts it. *)
Lemma dmyShape_inv s :
  match dmyShape s with
  | Some (day, month, year) =>
      exists c1 c2,
        s = day +:+ String c1 (month +:+ String c2 year)
        /\ isDashOrSlash c1 = true /\ isDashOrSlash c2 = true
        /\ all Char.isDigit day = true /\ all Char.isDigit month = true
        /\ all Char.isDigit year = true
        /\ (1 <= String.length day <= 2)%nat /\ (1 <= String.length month <= 2)%nat
        /\ (2 <= String.length year <= 4)%nat
  | None => True
  end.
Proof.
  unfold dmyShape, takeOneOrTwoDigits.
  repeat (ev; try exact I;
          try (solve [do 2 eexists; cbv [append]; ev;
                      repeat split; simpl; try reflexivity; try eassumption; lia]);
          first [ case_pred | split_string ]).
Qed.

Lemma dmyShape_intro day month year c1 c2 :
  all Char.isDigit day = true -> all Char.isDigit month = true ->
  all Char.isDigit year = true ->
  (1 <= String.length day <= 2)%nat -> (1 <= String.length month <= 2)%nat ->
  (2 <= String.length year <= 4)%nat ->
  isDashOrSlash c1 = true -> isDashOrSlash c2 = true ->
  dmyShape (day +:+ String c1 (month +:+ String c2 year)) = Some (day, month, year).
Proof.
  intros Hd Hm Hy Ld Lm Ly H1 H2.
  pose proof (sep_facts _ H1). pose proof (sep_facts _ H2).
  destruct day as [|d1 [|d2 [|? ?]]]; simpl in Ld; try lia;
  destruct month as [|m1 [|m2 [|? ?]]]; simpl in Lm; try lia;
  destruct year as [|y1 [|y2 [|y3 [|y4 [|? ?]]]]]; simpl in Ly; try lia;
  simpl in Hd, Hm, Hy;
  repeat match goal with
         | H : _ && _ = true |- _ => apply andb_true_iff in H; destruct H
         end;
  repeat match goal with
         | D : Char.isDigit ?c = true |- _ =>
             pose proof (digit_facts c D) as (_ & _ & _ & _ & _ & _ & ? & _);
             revert D
         end; intros;
  unfold dmyShape, takeOneOrTwoDigits; cbv [append]; ev; reflexivity.
Qed.

End DateShapes.

(** ** Words inside inputs *)

Section Words.

Lemma all_app p a b : all p (a +:+ b) = all p a && all p b.
Proof.
  induction a as [|c a IH]; [reflexivity|].
  change (String c a +:+ b) with (String c (a +:+ b)).
  cbn [all]. rewrite IH, andb_assoc. reflexivity.
Qed.

Lemma all_impl (p q : ascii -> bool) s :
  (forall c, p c = true -> q c = true) -> all p s = true -> all q s = true.
Proof.
  intros Hpq. induction s as [|c s IH]; [reflexivity|]. cbn [all].
  intros H. apply andb_true_iff in H. destruct H as [Hc Hs].
  rewrite (Hpq c Hc), (IH Hs). reflexivity.
Qed.

Lemma all_map p f s : all p (Str.map f s) = all (fun c => p (f c)) s.
Proof. induction s as [|c s IH]; [reflexivity|]. cbn [all Str.map]. rewrite IH. reflexivity. Qed.

(** A string none of whose characters is [a] contains no word that starts
    with [a]. *)
Lemma includes_without_head s a w :
  all (fun c => negb (Char.eqb a c)) s = true -> Str.includes s (String a w) = false.
Proof.
  induction s as [|c s IH]; [reflexivity|]. cbn [all Str.includes Str.startsWith].
  intros H. apply andb_true_iff in H. destruct H as [Hc Hs].
  apply negb_true_iff in Hc. rewrite Hc, (IH Hs). reflexivity.
Qed.

Lemma isSpace_toLower c : Char.isSpace (Char.toLower c) = Char.isSpace c.
Proof. destruct c as [[] [] [] [] [] [] [] []]; reflexivity. Qed.

Lemma map_isEmpty f s : Str.isEmpty (Str.map f s) = Str.isEmpty s.
Proof. destruct s; reflexivity. Qed.

Lemma toLowerCase_trimStart s :
  Str.toLowerCase (Str.trimStart s) = Str.trimStart (Str.toLowerCase s).
Proof.
  unfold Str.toLowerCase. induction s as [|c s IH]; [reflexivity|].
  cbn [Str.trimStart Str.map]. rewrite isSpace_toLower.
  destruct (Char.isSpace c); [exact IH | reflexivity].
Qed.

Lemma toLowerCase_trimEnd s :
  Str.toLowerCase (Str.trimEnd s) = Str.trimEnd (Str.toLowerCase s).
Proof.
  unfold Str.toLowerCase. induction s as [|c s IH]; [reflexivity|].
  cbn [Str.map]. rewrite !trimEnd_cons, isSpace_toLower, <- IH, map_isEmpty.
  destruct (Char.isSpace c && Str.isEmpty (Str.trimEnd s)); reflexivity.
Qed.

Lemma toLowerCase_trim s : Str.toLowerCase (Str.trim s) = Str.trim (Str.toLowerCase s).
Proof. unfold Str.trim. rewrite toLowerCase_trimEnd, toLowerCase_trimStart. reflexivity. Qed.

(** Whether the lower-cased input contains a word is not affected by
    trimming, for a word that starts and ends with a solid character. *)
Lemma includes_lower_trim s a w :
  Char.isSpace a = false -> endsSolid (String a w) = true ->
  Str.includes (Str.toLowerCase (Str.trim s)) (String a w)
  = Str.includes (Str.toLowerCase s) (String a w).
Proof. intros Ha Hw. rewrite toLowerCase_trim. apply includes_trim; assumption. Qed.

End Words.

Lemma dateChar_lower c : dateChar c = true ->
  negb (Char.eqb "t" (Char.toLower c)) && negb (Char.eqb "y" (Char.toLower c)) = true.
Proof. destruct c as [[] [] [] [] [] [] [] []]; intros H; try discriminate H; reflexivity. Qed.

Lemma isoShape_chars s : isoShape s = true -> all dateChar s = true.
Proof.
  unfold isoShape. do 10 (destruct s as [|? s]; [discriminate|]).
  destruct s; [|discriminate].
  intros H. do 9 (apply andb_true_iff in H; destruct H as [H ?]).
  repeat match goal with
         | E : Char.eqb ?c "-" = true |- _ => apply char_eqb_eq in E; subst c
         end.
  cbn [all]. unfold dateChar.
  repeat match goal with D : Char.isDigit ?c = true |- _ => rewrite D; clear D end.
  reflexivity.
Qed.

Lemma dmyShape_chars s day month year :
  dmyShape s = Some (day, month, year) -> all dateChar s = true.
Proof.
  intros H. pose proof (dmyShape_inv s) as Hinv. rewrite H in Hinv.
  destruct Hinv as (c1 & c2 & -> & H1 & H2 & Hd & Hm & Hy & _).
  assert (forall c, Char.isDigit c = true -> dateChar c = true) as Hdc
    by (intros c Hc; unfold dateChar; rewrite Hc; reflexivity).
  rewrite all_app. cbn [all]. rewrite all_app. cbn [all].
  rewrite (all_impl _ _ _ Hdc Hd), (all_impl _ _ _ Hdc Hm), (all_impl _ _ _ Hdc Hy).
  unfold dateChar at 1 2. rewrite H1, H2, !orb_true_r. reflexivity.
Qed.

(** A written date contains none of the relative words. *)
Lemma dateChars_no_word s a w :
  a = "t"%char \/ a = "y"%char ->
  all dateChar s = true -> Str.includes (Str.toLowerCase s) (String a w) = false.
Proof.
  intros Ha H. apply includes_without_head. unfold Str.toLowerCase. rewrite all_map.
  revert H. apply all_impl. intros c Hc. apply dateChar_lower in Hc.
  apply andb_true_iff in Hc. destruct Ha as [-> | ->]; tauto.
Qed.

Lemma normalizeDate_relative z now d :
  (Str.includes (Str.toLowerCase d) "today" = true ->
   normalizeDate z now (Some d) = Date.isoDate now)
  /\ (Str.includes (Str.toLowerCase d) "today" = false ->
      Str.includes (Str.toLowerCase d) "tomorrow" = true ->
      normalizeDate z now (Some d) = Date.isoDate (Date.addLocalDays z now 1))
  /\ (Str.includes (Str.toLowerCase d) "today" = false ->
      Str.includes (Str.toLowerCase d) "tomorrow" = false ->
      Str.includes (Str.toLowerCase d) "yesterday" = true ->
      normalizeDate z now (Some d) = Date.isoDate (Date.addLocalDays z now (-1))).
Proof.
  rewrite normalizeDate_refines. unfold specNormalizeDate. cbv zeta.
  rewrite <- (includes_lower_trim d "t" "oday") by reflexivity.
  rewrite <- (includes_lower_trim d "t" "omorrow") by reflexivity.
  rewrite <- (includes_lower_trim d "y" "esterday") by reflexivity.
  generalize (Str.trim d) as s. intros s.
  assert (forall a w, a = "t"%char \/ a = "y"%char ->
            Str.includes (Str.toLowerCase s) (String a w) = true ->
            (if isoShape s then s
             else match dmyShape s with
                  | Some (day, month, year) => isoFromParts day month year
                  | None => relativeDate z now s
                  end) = relativeDate z now s) as Hrel.
  { intros a w Ha Hin.
    destruct (isoShape s) eqn:Hi.
    { rewrite (dateChars_no_word s a w Ha (isoShape_chars s Hi)) in Hin. discriminate. }
    destruct (dmyShape s) as [[[day month] year]|] eqn:Hd; [|reflexivity].
    rewrite (dateChars_no_word s a w Ha (dmyShape_chars s _ _ _ Hd)) in Hin. discriminate. }
  repeat split.
  - intros H. rewrite (Hrel "t"%char "oday") by auto. unfold relativeDate. rewrite H. reflexivity.
  - intros H0 H. rewrite (Hrel "t"%char "omorrow") by auto. unfold relativeDate.
    rewrite H0, H. reflexivity.
  - intros H0 H1 H. rewrite (Hrel "y"%char "esterday") by auto. unfold relativeDate.
    rewrite H0, H1, H. reflexivity.
Qed.

Lemma timeChar_lower c : timeChar c = true ->
  negb (Char.eqb "n" (Char.toLower c)) && negb (Char.eqb "c" (Char.toLower c)) = true.
Proof. destruct c as [[] [] [] [] [] [] [] []]; intros H; try discriminate H; reflexivity. Qed.

Lemma period_chars rest w :
  w = "am" \/ w = "pm" ->
  Str.toLowerCase (Str.trimStart rest) = w -> all timeChar rest = true.
Proof.
  intros Hw. induction rest as [|c r IH]; [reflexivity|].
  cbn [Str.trimStart all]. destruct (Char.isSpace c) eqn:Hc.
  - intros H. rewrite (IH H), andb_true_r. unfold timeChar. rewrite Hc.
    rewrite !orb_true_r. reflexivity.
  - unfold Str.toLowerCase. cbn [Str.map]. intros H.
    destruct r as [|x [|y r]]; cbn [Str.map] in H;
      destruct Hw as [-> | ->]; try discriminate H;
      injection H as H1 H2; cbn [all]; unfold timeChar;
      rewrite H1, H2; cbn; rewrite ?orb_true_r; reflexivity.
Qed.

Lemma timeChars_no_word s a w :
  a = "n"%char \/ a = "c"%char ->
  all timeChar s = true -> Str.includes (Str.toLowerCase s) (String a w) = false.
Proof.
  intros Ha H. apply includes_without_head. unfold Str.toLowerCase. rewrite all_map.
  revert H. apply all_impl. intros c Hc. apply timeChar_lower in Hc.
  apply andb_true_iff in Hc. destruct Ha as [-> | ->]; tauto.
Qed.

Lemma timeShape_chars s h mm rest :
  timeShape s = Some (h, mm, rest) -> all timeChar rest = true -> all timeChar s = true.
Proof.
  intros Hs Hr.
  destruct (timeShape_inv _ _ _ _ Hs) as (h1 & hs & m1 & m2 & -> & -> & -> & D1 & D2 & D3 & Hhs).
  assert (forall c, Char.isDigit c = true -> timeChar c = true) as Hdc
    by (intros c Hc; unfold timeChar; rewrite Hc; reflexivity).
  rewrite !all_app, Hr. cbn [all].
  rewrite (Hdc _ D1), (Hdc _ D2), (Hdc _ D3).
  destruct Hhs as [-> | (h2 & -> & D4)]; cbn [all]; rewrite ?(Hdc _ D4); reflexivity.
Qed.

Lemma normalizeTime_now z now t :
  Str.includes (Str.toLowerCase t) "now" = true
  \/ Str.includes (Str.toLowerCase t) "current" = true ->
  normalizeTime z now (Some t) = Date.localHHMM z now.
Proof.
  rewrite normalizeTime_direct. unfold directNormalizeTime. cbv zeta.
  rewrite <- (includes_lower_trim t "n" "ow") by reflexivity.
  rewrite <- (includes_lower_trim t "c" "urrent") by reflexivity.
  generalize (Str.trim t) as s. intros s Hin.
  assert (all timeChar s = true -> False) as Hno.
  { intros Hall. destruct Hin as [Hin | Hin].
    - rewrite (timeChars_no_word s "n"%char "ow") in Hin by auto. discriminate.
    - rewrite (timeChars_no_word s "c"%char "urrent") in Hin by auto. discriminate. }
  destruct (timeShape s) as [[[h mm] rest]|] eqn:Hs; [|reflexivity].
  destruct (Str.isEmpty rest) eqn:Hr.
  { apply isEmpty_true in Hr. subst rest. destruct Hno.
    apply (timeShape_chars _ _ _ _ Hs). reflexivity. }
  destruct (String.eqb _ "pm") eqn:Epm.
  { apply String.eqb_eq in Epm. destruct Hno.
    apply (timeShape_chars _ _ _ _ Hs), (period_chars rest "pm"); auto. }
  destruct (String.eqb _ "am") eqn:Eam; [|reflexivity].
  apply String.eqb_eq in Eam. destruct Hno.
  apply (timeShape_chars _ _ _ _ Hs), (period_chars rest "am"); auto.
Qed.
(** ** Strings, decimal numerals and the calendar *)

Section MoreStrings.

Lemma trimStart_trimEnd_solid s :
  Str.trimStart s = s -> Str.trimStart (Str.trimEnd s) = Str.trimEnd s.
Proof.
  destruct s as [|c r]; [reflexivity|]. intros H.
  destruct (Char.isSpace c) eqn:Hc.
  - exfalso. cbn [Str.trimStart] in H. rewrite Hc in H.
    pose proof (trimStart_length r) as L. rewrite H in L. simpl in L. lia.
  - rewrite trimEnd_solid_head by assumption. apply trimStart_solid. assumption.
Qed.

Lemma trimStart_idem s : Str.trimStart (Str.trimStart s) = Str.trimStart s.
Proof.
  induction s as [|c r IH]; [reflexivity|]. cbn [Str.trimStart].
  destruct (Char.isSpace c) eqn:Hc; [exact IH|]. cbn [Str.trimStart]. rewrite Hc. reflexivity.
Qed.

Lemma trimEnd_idem s : Str.trimEnd (Str.trimEnd s) = Str.trimEnd s.
Proof.
  induction s as [|c r IH]; [reflexivity|]. rewrite trimEnd_cons.
  destruct (Char.isSpace c && Str.isEmpty (Str.trimEnd r)) eqn:E; [reflexivity|].
  rewrite trimEnd_cons, IH, E. reflexivity.
Qed.

(** [trim] is idempotent. *)
Lemma trim_idem s : Str.trim (Str.trim s) = Str.trim s.
Proof.
  unfold Str.trim.
  rewrite (trimStart_trimEnd_solid (Str.trimStart s)) by apply trimStart_idem.
  apply trimEnd_idem.
Qed.

(** On a trimmed string, being blank is being empty. *)
Lemma blank_trim s : blank (Str.trim s) = Str.isEmpty (Str.trim s).
Proof.
  unfold blank. rewrite trim_idem.
  destruct (Str.trim s); reflexivity.
Qed.

Lemma trimStart_all_space s : all Char.isSpace s = true -> Str.trimStart s = "".
Proof.
  induction s as [|c r IH]; [reflexivity|]. cbn [all Str.trimStart]. intros H.
  apply andb_true_iff in H. destruct H as [Hc Hr]. rewrite Hc. exact (IH Hr).
Qed.

Lemma trimEnd_empty_all_space s : Str.trimEnd s = "" -> all Char.isSpace s = true.
Proof.
  induction s as [|c r IH]; [reflexivity|]. rewrite trimEnd_cons. cbn [all].
  destruct (Char.isSpace c); [|discriminate].
  destruct (Str.trimEnd r); [intros _; rewrite IH; reflexivity | discriminate].
Qed.

Lemma trimStart_suffix s : exists w, all Char.isSpace w = true /\ s = w +:+ Str.trimStart s.
Proof.
  induction s as [|c r (w & Hw & E)]; [exists ""; split; reflexivity|].
  cbn [Str.trimStart]. destruct (Char.isSpace c) eqn:Hc.
  - exists (String c w). cbn [all]. rewrite Hc, Hw. split; [reflexivity|].
    cbv [append]. fold append. rewrite <- E. reflexivity.
  - exists "". split; reflexivity.
Qed.

(** A string trims to the empty string exactly when it is made of white
    space only. *)
Lemma trim_empty_iff s : Str.trim s = "" <-> all Char.isSpace s = true.
Proof.
  unfold Str.trim. split.
  - intros H. apply trimEnd_empty_all_space in H.
    destruct (trimStart_suffix s) as (w & Hw & E). rewrite E, all_app, Hw, H. reflexivity.
  - intros H. rewrite (trimStart_all_space s H). reflexivity.
Qed.

Lemma length_app_string a b :
  String.length (a +:+ b) = (String.length a + String.length b)%nat.
Proof. induction a as [|c a IH]; [reflexivity|]. cbv [append]. fold append. simpl. f_equal. exact IH. Qed.

Lemma app_assoc_string a b c : (a +:+ b) +:+ c = a +:+ (b +:+ c).
Proof.
  induction a as [|x a IH]; [reflexivity|].
  cbv [append]. fold append. f_equal. exact IH.
Qed.

Lemma app_empty_r s : s +:+ "" = s.
Proof. induction s as [|x a IH]; [reflexivity|]. cbv [append]. fold append. f_equal. exact IH. Qed.

Lemma substring_prefix_length n s :
  String.length (String.substring 0 n s) = Nat.min n (String.length s).
Proof.
  revert s. induction n as [|n IH]; intros [|c r]; try reflexivity.
  simpl. f_equal. apply IH.
Qed.

Lemma substring_prefix_all p n s :
  all p s = true -> all p (String.substring 0 n s) = true.
Proof.
  revert s. induction n as [|n IH]; intros [|c r]; try reflexivity.
  cbn [all String.substring]. intros H. apply andb_true_iff in H. destruct H as [Hc Hr].
  rewrite Hc. apply IH, Hr.
Qed.

Lemma substring_prefix_whole n s :
  (String.length s <= n)%nat -> String.substring 0 n s = s.
Proof.
  revert s. induction n as [|n IH]; intros [|c r]; simpl; try reflexivity; try lia.
  intros H. f_equal. apply IH. lia.
Qed.

Lemma filter_id p s : all p s = true -> Str.filter p s = s.
Proof.
  induction s as [|c r IH]; [reflexivity|]. cbn [all Str.filter]. intros H.
  apply andb_true_iff in H. destruct H as [Hc Hr]. rewrite Hc, (IH Hr). reflexivity.
Qed.

End MoreStrings.

Section Decimal.

Lemma digits_of_uint' d : forall acc,
  Num.digitsValueFrom acc (NilEmpty.string_of_uint d) = uintValue acc d.
Proof.
  induction d; intros acc; cbn [NilEmpty.string_of_uint uintValue]; [reflexivity|..];
    cbn [Num.digitsValueFrom];
    match goal with |- context [Char.isDigit ?c] => change (Char.isDigit c) with true end;
    cbv iota;
    match goal with |- context [Num.digitValue ?c] =>
      let v := eval vm_compute in (Num.digitValue c) in change (Num.digitValue c) with v end;
    rewrite ?Z.add_0_r; apply IHd.
Qed.

Lemma digits_of_uint d :
  Num.digitsValueFrom 0 (NilZero.string_of_uint d) = uintValue 0 d.
Proof. destruct d; try reflexivity; apply digits_of_uint'. Qed.

Lemma uintValue_pos d : forall acc : positive,
  uintValue (Z.pos acc) d = Z.pos (Pos.of_uint_acc d acc).
Proof.
  induction d; intros acc; cbn [uintValue Pos.of_uint_acc]; try reflexivity;
    rewrite <- IHd; f_equal; lia.
Qed.

Lemma uintValue_zero d : uintValue 0 d = Z.of_N (Pos.of_uint d).
Proof.
  induction d; cbn [uintValue Pos.of_uint]; try reflexivity; try exact IHd;
    change (10 * 0 + ?k)%Z with k; rewrite uintValue_pos; reflexivity.
Qed.

(** Reading back the decimal text of a non-negative integer gives the
    integer. *)
Lemma ofDigits_toString n : (0 <= n)%Z -> Num.ofDigits (Num.toString n) = n.
Proof.
  intros H. unfold Num.ofDigits, Num.toString.
  destruct n as [|p|p]; [reflexivity| |lia].
  cbn [Z.to_int NilZero.string_of_int].
  rewrite digits_of_uint, uintValue_zero, DecimalPos.Unsigned.of_to. reflexivity.
Qed.

Lemma all_digits_uint d : all Char.isDigit (NilZero.string_of_uint d) = true.
Proof.
  assert (forall d, all Char.isDigit (NilEmpty.string_of_uint d) = true) as H.
  { induction d0; cbn; auto. }
  destruct d; try reflexivity; cbn [NilZero.string_of_uint]; apply H.
Qed.

(** The decimal text of a non-negative integer is made of digits. *)
Lemma toString_digits n : (0 <= n)%Z -> all Char.isDigit (Num.toString n) = true.
Proof.
  intros H. unfold Num.toString. destruct n as [|p|p]; [reflexivity| |lia].
  cbn [Z.to_int NilZero.string_of_int]. apply all_digits_uint.
Qed.

End Decimal.

Section ClockShapes.

Lemma toString_length_table :
  forallb (fun i => (String.length (Num.toString (Z.of_nat i))
                     <=? (if i <? 10 then 1 else if i <? 100 then 2
                          else if i <? 1000 then 3 else 4))%nat)
          (seq 0 (100 * 100)) = true.
Proof. vm_compute. reflexivity. Qed.

Lemma toString_length_small n :
  (0 <= n < 10000)%Z ->
  (String.length (Num.toString n)
   <= (if (n <? 10)%Z then 1 else if (n <? 100)%Z then 2
       else if (n <? 1000)%Z then 3 else 4))%nat.
Proof.
  intros H. pose proof toString_length_table as T.
  rewrite forallb_forall in T. specialize (T (Z.to_nat n)).
  rewrite Z2Nat.id in T by lia.
  assert (In (Z.to_nat n) (seq 0 (100 * 100))) as I by (apply in_seq; lia).
  apply T, Nat.leb_le in I.
  destruct (Z.ltb_spec n 10), (Nat.ltb_spec (Z.to_nat n) 10); try lia.
  destruct (Z.ltb_spec n 100), (Nat.ltb_spec (Z.to_nat n) 100); try lia.
  destruct (Z.ltb_spec n 1000), (Nat.ltb_spec (Z.to_nat n) 1000); try lia.
Qed.

Lemma replicate_length n c : String.length (Str.replicate n c) = n.
Proof. induction n; simpl; congruence. Qed.

Lemma replicate_all (p : ascii -> bool) n c : p c = true -> all p (Str.replicate n c) = true.
Proof. intros H. induction n; simpl; [reflexivity | rewrite H; assumption]. Qed.

Lemma padStart_length n c s :
  String.length (Str.padStart n c s) = Nat.max n (String.length s).
Proof. unfold Str.padStart. rewrite length_app_string, replicate_length. lia. Qed.

Lemma padStart_digits n s :
  all Char.isDigit s = true -> all Char.isDigit (Str.padStart n "0" s) = true.
Proof.
  intros H. unfold Str.padStart. rewrite all_app, H, replicate_all; reflexivity.
Qed.

(** A number below 100 is padded to exactly two digits, one below 10000 to
    exactly four. *)
Lemma pad2_shape n :
  (0 <= n < 100)%Z ->
  exists a b, Date.pad 2 n = String a (String b "")
              /\ Char.isDigit a = true /\ Char.isDigit b = true.
Proof.
  intros H. unfold Date.pad.
  pose proof (toString_length_small n ltac:(lia)) as L.
  assert (String.length (Num.toString n) <= 2)%nat as L2.
  { destruct (n <? 10)%Z; [lia|]. destruct (Z.ltb_spec n 100); lia. }
  pose proof (padStart_length 2 "0" (Num.toString n)) as PL.
  pose proof (padStart_digits 2 (Num.toString n) (toString_digits n ltac:(lia))) as PD.
  destruct (Str.padStart 2 "0" (Num.toString n)) as [|a [|b [|c r]]];
    simpl in PL; try lia.
  exists a, b. cbn [all] in PD. apply andb_true_iff in PD. destruct PD as [Da PD].
  apply andb_true_iff in PD. tauto.
Qed.

Lemma pad4_shape n :
  (0 <= n < 10000)%Z ->
  exists a b c d, Date.pad 4 n = String a (String b (String c (String d "")))
              /\ Char.isDigit a = true /\ Char.isDigit b = true
              /\ Char.isDigit c = true /\ Char.isDigit d = true.
Proof.
  intros H. unfold Date.pad.
  pose proof (toString_length_small n H) as L.
  assert (String.length (Num.toString n) <= 4)%nat as L4.
  { destruct (n <? 10)%Z; [lia|]. destruct (n <? 100)%Z; [lia|].
    destruct (n <? 1000)%Z; lia. }
  pose proof (padStart_length 4 "0" (Num.toString n)) as PL.
  pose proof (padStart_digits 4 (Num.toString n) (toString_digits n ltac:(lia))) as PD.
  destruct (Str.padStart 4 "0" (Num.toString n)) as [|a [|b [|c [|d [|e r]]]]];
    simpl in PL; try lia.
  exists a, b, c, d. cbn [all] in PD.
  repeat (apply andb_true_iff in PD; destruct PD as [? PD]). tauto.
Qed.

(** Month and day of the month of every day number are in range. *)
Lemma civil_bounds day :
  let '(y, m, d) := Date.civil day in (1 <= m <= 12 /\ 1 <= d <= 31)%Z.
Proof.
  unfold Date.civil. cbv zeta.
  set (z := (day + 719468)%Z).
  set (era := (z / 146097)%Z).
  set (doe := (z - era * 146097)%Z).
  assert (0 <= doe <= 146096)%Z as Hdoe.
  { subst doe era. pose proof (Z.mod_pos_bound z 146097 ltac:(lia)) as H.
    rewrite Z.mod_eq in H by lia. lia. }
  clearbody doe.
  set (yoe := ((doe - doe / 1460 + doe / 36524 - doe / 146096) / 365)%Z).
  set (doy := (doe - (365 * yoe + yoe / 4 - yoe / 100))%Z).
  assert (0 <= doy <= 365)%Z as Hdoy.
  { subst doy yoe. Z.div_mod_to_equations. lia. }
  clearbody doy.
  destruct ((5 * doy + 2) / 153 <? 10)%Z eqn:E.
  - apply Z.ltb_lt in E. Z.div_mod_to_equations. lia.
  - apply Z.ltb_ge in E. Z.div_mod_to_equations. lia.
Qed.

(** The days of the years 0 to 9999. *)
Lemma civil_year day :
  (-719528 <= day <= 2932896)%Z ->
  let '(y, m, d) := Date.civil day in (0 <= y <= 9999)%Z.
Proof.
  intros Hday. unfold Date.civil. cbv zeta.
  match goal with |- context [(?a <? 10)%Z] => destruct (Z.ltb_spec a 10) end;
  match goal with |- context [(?m <=? 2)%Z] => destruct (Z.leb_spec m 2) end;
  (Z.div_mod_to_equations; lia).
Qed.

Lemma splitOn_head (sep : ascii -> bool) a c b :
  all (fun x => negb (sep x)) a = true -> sep c = true ->
  nth 0 (Str.splitOn sep (a +:+ String c b)) "" = a.
Proof.
  intros Ha Hc. induction a as [|x a IH].
  - cbv [append]. cbn [Str.splitOn]. rewrite Hc. reflexivity.
  - cbn [all] in Ha. apply andb_true_iff in Ha. destruct Ha as [Hx Ha].
    apply negb_true_iff in Hx. specialize (IH Ha).
    cbv [append]. fold append. cbn [Str.splitOn]. rewrite Hx.
    destruct (Str.splitOn sep (a +:+ String c b)); cbn [nth] in *; congruence.
Qed.

Lemma digit_not_T c : Char.isDigit c = true -> negb (Char.eqb c "T") = true.
Proof. intros H. destruct (digit_facts c H) as (_ & _ & _ & _ & _ & _ & _ & ->). reflexivity. Qed.

(** In the years 0 to 9999 the date part of [toISOString] is in
    YYYY-MM-DD form. *)
Lemma isoDate_shape t : fourDigitYear t = true -> isoShape (Date.isoDate t) = true.
Proof.
  unfold fourDigitYear. intros H. apply andb_true_iff in H. destruct H as [H1 H2].
  apply Z.leb_le in H1, H2.
  unfold Date.isoDate, Date.toISOString.
  pose proof (civil_bounds (t / Date.msPerDay)) as B.
  pose proof (civil_year (t / Date.msPerDay)) as Y.
  destruct (Date.civil (t / Date.msPerDay)) as [[y m] d].
  assert (0 <= y <= 9999)%Z as Hy.
  { apply Y. unfold Date.msPerDay. split.
    - apply Z.div_le_lower_bound; lia.
    - apply Z.lt_succ_r, Z.div_lt_upper_bound; lia. }
  destruct B as [Hm Hd].
  unfold Date.isoYear.
  replace ((0 <=? y)%Z && (y <=? 9999)%Z) with true by (symmetry; apply andb_true_iff; split; apply Z.leb_le; lia).
  destruct (pad4_shape y ltac:(lia)) as (y1 & y2 & y3 & y4 & -> & Y1 & Y2 & Y3 & Y4).
  destruct (pad2_shape m ltac:(lia)) as (m1 & m2 & -> & M1 & M2).
  destruct (pad2_shape d ltac:(lia)) as (d1 & d2 & -> & D1 & D2).
  match goal with |- context ["T" +:+ ?r] => generalize r end.
  intros r.
  match goal with |- _ =>
    change (isoShape (nth 0 (Str.splitOn (fun c => Char.eqb c "T")
      (String y1 (String y2 (String y3 (String y4 (String "-" (String m1 (String m2
         (String "-" (String d1 (String d2 ""))))))))) +:+ String "T" r)) "") = true)
  end.
  rewrite splitOn_head.
  - cbn [isoShape]. rewrite Y1, Y2, Y3, Y4, M1, M2, D1, D2. reflexivity.
  - cbn [all].
    rewrite (digit_not_T y1 Y1), (digit_not_T y2 Y2), (digit_not_T y3 Y3),
      (digit_not_T y4 Y4), (digit_not_T m1 M1), (digit_not_T m2 M2),
      (digit_not_T d1 D1), (digit_not_T d2 D2).
    reflexivity.
  - reflexivity.
Qed.

(** The first five characters of [toTimeString] are in HH:MM form. *)
Lemma localHHMM_shape z t : hhmmShape (Date.localHHMM z t) = true.
Proof.
  unfold Date.localHHMM, Date.toTimeString.
  set (l := Date.LocalTime z t).
  assert (0 <= Date.hourOf l < 100)%Z as Hh.
  { unfold Date.hourOf. pose proof (Z.mod_pos_bound (l / 3600000) 24 ltac:(lia)). lia. }
  assert (0 <= Date.minOf l < 100)%Z as Hm.
  { unfold Date.minOf. pose proof (Z.mod_pos_bound (l / 60000) 60 ltac:(lia)). lia. }
  destruct (pad2_shape _ Hh) as (h1 & h2 & -> & H1 & H2).
  destruct (pad2_shape _ Hm) as (m1 & m2 & -> & M1 & M2).
  cbv [append Str.substring Nat.sub String.substring].
  cbn [hhmmShape]. rewrite H1, H2, M1, M2. reflexivity.
Qed.

Lemma test_reTimeField s : test reTimeField s = hhmmShape s.
Proof.
  unfold reTimeField. cbn [Cat]. rewrite test_anchored. unfold matchAt, hhmmShape.
  walk.
Qed.

End ClockShapes.

(** ** Dates *)

Section UtcDate.

Lemma digits_not_T s :
  all Char.isDigit s = true -> all (fun x => negb (Char.eqb x "T")) s = true.
Proof.
  induction s as [|c s IH]; [reflexivity|]. cbn [all]. intros H.
  apply andb_true_iff in H. destruct H as [Hc Hs].
  rewrite (digit_not_T c Hc), (IH Hs). reflexivity.
Qed.

Lemma pad_not_T n v :
  (0 <= v)%Z -> all (fun x => negb (Char.eqb x "T")) (Date.pad n v) = true.
Proof. intros H. apply digits_not_T, padStart_digits, toString_digits, H. Qed.

Lemma isoYear_not_T y : all (fun x => negb (Char.eqb x "T")) (Date.isoYear y) = true.
Proof.
  unfold Date.isoYear. destruct (Z.leb_spec 0 y) as [H|H]; cbn [andb].
  - destruct (y <=? 9999)%Z; [apply pad_not_T, H|].
    destruct (Z.ltb_spec y 0); [lia|]. rewrite all_app, pad_not_T by lia. reflexivity.
  - destruct (Z.ltb_spec y 0); [|lia]. rewrite all_app, pad_not_T by lia. reflexivity.
Qed.

(** The date part of [toISOString] is the calendar day of the instant in
    UTC, whatever the zone of the host. *)
Lemma isoDate_ymd t : Date.isoDate t = Date.ymd (Date.utcDay t).
Proof.
  unfold Date.isoDate, Date.toISOString, Date.ymd, Date.utcDay.
  pose proof (civil_bounds (t / Date.msPerDay)) as B.
  destruct (Date.civil (t / Date.msPerDay)) as [[y m] d]. destruct B as [Hm Hd].
  match goal with |- context ["T" +:+ ?r] => generalize r end. intros r.
  set (sep := fun c => Char.eqb c "T").
  replace (Date.isoYear y +:+ "-" +:+ Date.pad 2 m +:+ "-" +:+ Date.pad 2 d +:+ "T" +:+ r)
    with ((Date.isoYear y +:+ "-" +:+ Date.pad 2 m +:+ "-" +:+ Date.pad 2 d)
          +:+ String "T" r)
    by (rewrite !app_assoc_string; reflexivity).
  apply splitOn_head; [|reflexivity].
  rewrite !all_app, isoYear_not_T, !pad_not_T by lia. reflexivity.
Qed.

(** In a zone with one offset all year a move by [n] local days is a move by
    [n] times twenty-four hours. *)
Lemma addLocalDays_fixed minutesEast text t n :
  Date.addLocalDays (Date.fixedZone minutesEast text) t n = (t + n * Date.msPerDay)%Z.
Proof.
  unfold Date.addLocalDays, Date.UTC, Date.LocalTime, Date.fixedZone. cbn [Date.localTZA]. lia.
Qed.

End UtcDate.


(** C5, as stated, fails.  "25-12/2024" is none of the forms YYYY-MM-DD,
    D-M-YY, D-M-YYYY, D/M/YY, D/M/YYYY and contains none of the words today,
    tomorrow, yesterday, so the claim sends it to today's date; the
    normalizer accepts the two different separators and returns
    "2024-12-25", which is not the date of the clock reading.  The same
    holds for " 25-12-2024", which starts with a space: the normalizer trims
    it first. *)
Lemma normalizeDate_mixed_separators :
  isoShape "25-12/2024" = false
  /\ namedDMYForm "25-12/2024" = false
  /\ Str.includes (Str.toLowerCase "25-12/2024") "today" = false
  /\ Str.includes (Str.toLowerCase "25-12/2024") "tomorrow" = false
  /\ Str.includes (Str.toLowerCase "25-12/2024") "yesterday" = false
  /\ Date.isoDate 1793491200000 = "2026-11-01"
  /\ normalizeDate Date.utcZone 1793491200000 (Some "25-12/2024") = "2024-12-25"
  /\ normalizeDate Date.utcZone 1793491200000 (Some "25-12/2024")
     <> Date.isoDate 1793491200000
  /\ isoShape " 25-12-2024" = false
  /\ namedDMYForm " 25-12-2024" = false
  /\ normalizeDate Date.utcZone 1793491200000 (Some " 25-12-2024") = "2024-12-25"
  /\ normalizeDate Date.utcZone 1793491200000 (Some " 25-12-2024")
     <> Date.isoDate 1793491200000.
Proof.
  repeat split; try (vm_compute; reflexivity); vm_compute; discriminate.
Qed.

(** C5, amended.  For every input string, with surrounding white space
    trimmed first: a string in YYYY-MM-DD form is returned unchanged; a
    string made of a day of one or two digits, a month of one or two digits
    and a year of two or four digits, separated by dashes or slashes that
    need not be the same, becomes year-month-day with the month and the day
    padded to two digits and a two-digit year prefixed with 20.  A string
    that is neither in YYYY-MM-DD form nor a day, a month and a year of two
    to four digits so separated maps to a date taken from the clock, and
    every input that contains one of the words below is of that kind.  The
    date is always the calendar day in UTC of an instant, not the day that
    the local clock shows: the current instant if the lower-cased input
    contains "today"; else, if it contains "tomorrow", the instant with the
    same local clock time one local day later; else, if it contains
    "yesterday", the instant one local day earlier; and else the current
    instant.  In a zone that keeps one offset from UTC a local day is
    twenty-four hours.  A missing or empty input maps to the UTC day of the
    current instant.  No input raises an error.  "25-12-2024" and
    "25/12/24" map to "2024-12-25", "today" and "garbage" to the UTC day of
    the current instant. *)
Theorem normalizeDate_correct (z : Date.Zone) (now : Z) :
  (forall d : string, isoShape d = true -> normalizeDate z now (Some d) = d)
  /\ (forall d : string,
        isoShape (Str.trim d) = true -> normalizeDate z now (Some d) = Str.trim d)
  /\ (forall (d day month year : string) (c1 c2 : ascii),
        Str.trim d = day +:+ String c1 (month +:+ String c2 year) ->
        all Char.isDigit day = true -> all Char.isDigit month = true ->
        all Char.isDigit year = true ->
        (1 <= String.length day <= 2)%nat -> (1 <= String.length month <= 2)%nat ->
        String.length year = 2%nat \/ String.length year = 4%nat ->
        isDashOrSlash c1 = true -> isDashOrSlash c2 = true ->
        normalizeDate z now (Some d) =
          (if (String.length year =? 2)%nat then "20" +:+ year else year)
          +:+ "-" +:+ Str.padStart 2 "0" month +:+ "-" +:+ Str.padStart 2 "0" day)
  /\ (forall d : string,
        isoShape (Str.trim d) = false -> dmyShape (Str.trim d) = None ->
        normalizeDate z now (Some d) =
          if Str.includes (Str.toLowerCase (Str.trim d)) "today"
          then Date.ymd (Date.utcDay now)
          else if Str.includes (Str.toLowerCase (Str.trim d)) "tomorrow"
          then Date.ymd (Date.utcDay (Date.addLocalDays z now 1))
          else if Str.includes (Str.toLowerCase (Str.trim d)) "yesterday"
          then Date.ymd (Date.utcDay (Date.addLocalDays z now (-1)))
          else Date.ymd (Date.utcDay now))
  /\ (forall d : string,
        Str.includes (Str.toLowerCase d) "today" = true ->
        normalizeDate z now (Some d) = Date.ymd (Date.utcDay now))
  /\ (forall d : string,
        Str.includes (Str.toLowerCase d) "today" = false ->
        Str.includes (Str.toLowerCase d) "tomorrow" = true ->
        normalizeDate z now (Some d)
        = Date.ymd (Date.utcDay (Date.addLocalDays z now 1)))
  /\ (forall d : string,
        Str.includes (Str.toLowerCase d) "today" = false ->
        Str.includes (Str.toLowerCase d) "tomorrow" = false ->
        Str.includes (Str.toLowerCase d) "yesterday" = true ->
        normalizeDate z now (Some d)
        = Date.ymd (Date.utcDay (Date.addLocalDays z now (-1))))
  /\ (forall (minutesEast : Z) (text : string) (n : Z),
        Date.addLocalDays (Date.fixedZone minutesEast text) now n
        = (now + n * Date.msPerDay)%Z)
  /\ (forall t : Z, Date.isoDate t = Date.ymd (Date.utcDay t))
  /\ normalizeDate z now None = Date.ymd (Date.utcDay now)
  /\ normalizeDate z now (Some "") = Date.ymd (Date.utcDay now)
  /\ normalizeDate z now (Some "25-12-2024") = "2024-12-25"
  /\ normalizeDate z now (Some "25/12/24") = "2024-12-25"
  /\ normalizeDate z now (Some "today") = Date.ymd (Date.utcDay now)
  /\ normalizeDate z now (Some "garbage") = Date.ymd (Date.utcDay now).
Proof.
  rewrite <- !isoDate_ymd.
  repeat apply conj; try reflexivity.
  - intros d H. rewrite normalizeDate_refines. unfold specNormalizeDate.
    rewrite (isoShape_trim d H), H. reflexivity.
  - intros d H. rewrite normalizeDate_refines. unfold specNormalizeDate.
    rewrite H. reflexivity.
  - intros d day month year c1 c2 Hs Hd Hm Hy Ld Lm Ly H1 H2.
    rewrite normalizeDate_refines. unfold specNormalizeDate. rewrite Hs.
    assert (dmyShape (day +:+ String c1 (month +:+ String c2 year))
            = Some (day, month, year)) as E
      by (apply dmyShape_intro; try assumption; lia).
    pose proof (dmyShape_not_iso (day +:+ String c1 (month +:+ String c2 year))) as N.
    rewrite E in N. rewrite N, E. reflexivity.
  - intros d Hi Hd. rewrite normalizeDate_refines. unfold specNormalizeDate.
    rewrite Hi, Hd. reflexivity.
  - intros d. apply (normalizeDate_relative z now d).
  - intros d. apply (normalizeDate_relative z now d).
  - intros d. apply (normalizeDate_relative z now d).
  - intros minutesEast text n. apply addLocalDays_fixed.
  - intros t. apply isoDate_ymd.
Qed.

Lemma normalizeDate_correct_witness :
  let pacific := Date.fixedZone (-480) "-0800 (Pacific Standard Time)" in
  let evening := 1793592000000%Z in
  let india := Date.fixedZone 330 "+0530 (India Standard Time)" in
  let night := 1793568600000%Z in
  normalizeDate Date.utcZone 1793491200000 (Some "2024-12-25") = "2024-12-25"
  /\ normalizeDate Date.utcZone 1793491200000 (Some " 2024-12-25 ") = "2024-12-25"
  /\ normalizeDate Date.utcZone 1793491200000 (Some " 5/1-24") = "2024-01-05"
  /\ normalizeDate Date.utcZone 1793491200000 (Some "admit Tomorrow morning")
     = "2026-11-02"
  /\ Date.toTimeString pacific evening = "20:00:00 GMT-0800 (Pacific Standard Time)"
  /\ Date.ymd (Date.localDay pacific evening) = "2026-11-01"
  /\ normalizeDate pacific evening (Some "today") = "2026-11-02"
  /\ normalizeDate pacific evening (Some "tomorrow") = "2026-11-03"
  /\ normalizeDate pacific evening (Some "yesterday") = "2026-11-01"
  /\ Date.toTimeString india night = "03:00:00 GMT+0530 (India Standard Time)"
  /\ Date.ymd (Date.localDay india night) = "2026-11-02"
  /\ normalizeDate india night (Some "today") = "2026-11-01"
  /\ normalizeDate india night (Some "tomorrow") = "2026-11-02"
  /\ normalizeDate india night (Some "yesterday") = "2026-10-31".
Proof.
  cbv zeta.
  pose proof (normalizeDate_correct Date.utcZone 1793491200000)
    as (H1 & H2 & H3 & _ & _ & H4 & _).
  pose proof (normalizeDate_correct
                (Date.fixedZone (-480) "-0800 (Pacific Standard Time)") 1793592000000)
    as (_ & _ & _ & _ & P1 & P2 & P3 & _).
  pose proof (normalizeDate_correct
                (Date.fixedZone 330 "+0530 (India Standard Time)") 1793568600000)
    as (_ & _ & _ & _ & I1 & I2 & I3 & _).
  repeat apply conj.
  - apply (H1 "2024-12-25"). reflexivity.
  - apply (H2 " 2024-12-25 "). reflexivity.
  - apply (H3 " 5/1-24" "5" "1" "24" "/"%char "-"%char);
      solve [reflexivity | simpl; lia | left; reflexivity].
  - rewrite (H4 "admit Tomorrow morning") by reflexivity. vm_compute. reflexivity.
  - vm_compute. reflexivity.
  - vm_compute. reflexivity.
  - rewrite (P1 "today") by reflexivity. vm_compute. reflexivity.
  - rewrite (P2 "tomorrow") by reflexivity. vm_compute. reflexivity.
  - rewrite (P3 "yesterday") by reflexivity. vm_compute. reflexivity.
  - vm_compute. reflexivity.
  - vm_compute. reflexivity.
  - rewrite (I1 "today") by reflexivity. vm_compute. reflexivity.
  - rewrite (I2 "tomorrow") by reflexivity. vm_compute. reflexivity.
  - rewrite (I3 "yesterday") by reflexivity. vm_compute. reflexivity.
Defined.

(** ** Times *)

Lemma timeShape_intro h mm rest :
  all Char.isDigit h = true -> (1 <= String.length h <= 2)%nat ->
  all Char.isDigit mm = true -> String.length mm = 2%nat ->
  timeShape (h +:+ ":" +:+ mm +:+ rest) = Some (h, mm, rest).
Proof.
  intros Hh Lh Hm Lm.
  destruct h as [|h1 [|h2 [|? ?]]]; simpl in Lh; try lia;
  destruct mm as [|m1 [|m2 [|? ?]]]; simpl in Lm; try lia;
  simpl in Hh, Hm;
  repeat match goal with
         | H : _ && _ = true |- _ => apply andb_true_iff in H; destruct H
         end;
  repeat match goal with
         | D : Char.isDigit ?c = true |- _ =>
             pose proof (digit_facts c D) as (_ & _ & ? & _); revert D
         end; intros;
  unfold timeShape, takeOneOrTwoDigits; cbv [append];
  change (Char.isDigit ":"%char) with false; ev; reflexivity.
Qed.

Lemma trimStart_spaces w p :
  all Char.isSpace w = true -> Str.trimStart (w +:+ p) = Str.trimStart p.
Proof.
  induction w as [|c w IH]; [reflexivity|]. cbn [all]. intros H.
  apply andb_true_iff in H. destruct H as [Hc Hw].
  change (String c w +:+ p) with (String c (w +:+ p)).
  cbn [Str.trimStart]. rewrite Hc. apply IH, Hw.
Qed.

Lemma period_solid p :
  Str.toLowerCase p = "am" \/ Str.toLowerCase p = "pm" ->
  Str.trimStart p = p /\ p <> "".
Proof.
  destruct p as [|x r]; [intros [H|H]; discriminate H|].
  unfold Str.toLowerCase. cbn [Str.map Str.trimStart]. intros H.
  assert (Char.isSpace x = false) as ->.
  { destruct (Char.isSpace x) eqn:E; [|reflexivity].
    destruct (space_not_ap x E) as [Ha Hp].
    destruct H as [H|H]; injection H as H1 _; rewrite H1 in *; discriminate. }
  split; [reflexivity | discriminate].
Qed.

Lemma app_nonempty_r w p : p <> "" -> Str.isEmpty (w +:+ p) = false.
Proof. destruct w; [destruct p; [congruence | reflexivity] | reflexivity]. Qed.

Lemma normalizeTime_hhmm z now t h mm :
  Str.trim t = h +:+ ":" +:+ mm ->
  all Char.isDigit h = true -> (1 <= String.length h <= 2)%nat ->
  all Char.isDigit mm = true -> String.length mm = 2%nat ->
  normalizeTime z now (Some t) = Str.padStart 2 "0" h +:+ ":" +:+ mm.
Proof.
  intros Hs Hh Lh Hm Lm. rewrite normalizeTime_direct. unfold directNormalizeTime.
  cbv zeta. rewrite Hs.
  pose proof (timeShape_intro h mm "" Hh Lh Hm Lm) as E.
  replace (mm +:+ "") with mm in E
    by (clear; induction mm as [|c m IH]; [reflexivity|];
        change (String c m +:+ "") with (String c (m +:+ "")); rewrite <- IH; reflexivity).
  rewrite E. reflexivity.
Qed.

Lemma normalizeTime_ampm z now t h mm w p :
  Str.trim t = h +:+ ":" +:+ mm +:+ w +:+ p ->
  all Char.isDigit h = true -> (1 <= String.length h <= 2)%nat ->
  all Char.isDigit mm = true -> String.length mm = 2%nat ->
  all Char.isSpace w = true ->
  Str.toLowerCase p = "am" \/ Str.toLowerCase p = "pm" ->
  normalizeTime z now (Some t) =
    Str.padStart 2 "0"
      (Num.toString (shiftHour (String.eqb (Str.toLowerCase p) "pm") (Num.ofDigits h)))
    +:+ ":" +:+ mm.
Proof.
  intros Hs Hh Lh Hm Lm Hw Hp. rewrite normalizeTime_direct. unfold directNormalizeTime.
  cbv zeta. rewrite Hs, (timeShape_intro h mm (w +:+ p) Hh Lh Hm Lm).
  destruct (period_solid p Hp) as [Hts Hne].
  rewrite (app_nonempty_r w p Hne), trimStart_spaces, Hts by assumption.
  destruct Hp as [-> | ->]; reflexivity.
Qed.

Lemma to24_shiftHour pm h h24 : to24 pm h = Some h24 -> shiftHour pm h = h24.
Proof.
  unfold to24, shiftHour. destruct ((1 <=? h)%Z && (h <=? 12)%Z); [|discriminate].
  intros [= <-]. destruct pm, (h =? 12)%Z; reflexivity.
Qed.

Lemma to24_none pm h :
  to24 pm h = None -> shiftHour pm h = (if pm then h + 12 else h)%Z.
Proof.
  unfold to24, shiftHour.
  destruct (Z.leb_spec 1 h), (Z.leb_spec h 12); cbn [andb]; try discriminate;
    intros _; destruct (Z.eqb_spec h 12); try lia; reflexivity.
Qed.

(** Where the words of the specification name a result, the code returns
    it. *)
Lemma normalizeTime_spec z now t r :
  specNormalizeTime z now t = Some r -> normalizeTime z now (Some t) = r.
Proof.
  rewrite normalizeTime_direct. unfold specNormalizeTime, directNormalizeTime. cbv zeta.
  destruct (timeShape (Str.trim t)) as [[[h mm] rest]|]; [|congruence].
  destruct (Str.isEmpty rest); [congruence|].
  destruct (String.eqb (Str.toLowerCase (Str.trimStart rest)) "pm") eqn:Epm.
  - cbn [orb]. destruct (to24 true (Num.ofDigits h)) as [h24|] eqn:E; [|discriminate].
    rewrite (to24_shiftHour _ _ _ E). congruence.
  - cbn [orb].
    destruct (String.eqb (Str.toLowerCase (Str.trimStart rest)) "am"); [|congruence].
    destruct (to24 false (Num.ofDigits h)) as [h24|] eqn:E; [|discriminate].
    rewrite (to24_shiftHour _ _ _ E). congruence.
Qed.

Lemma clock_table :
  forallb (fun h =>
    forallb (fun m => isClockTime (Date.pad 2 (Z.of_nat h) +:+ ":" +:+ Date.pad 2 (Z.of_nat m)))
            (seq 0 60))
    (seq 0 24) = true.
Proof. vm_compute. reflexivity. Qed.

(** The current local time is a time of day of the 24-hour clock. *)
Lemma localHHMM_clock z t : isClockTime (Date.localHHMM z t) = true.
Proof.
  unfold Date.localHHMM, Date.toTimeString.
  set (l := Date.LocalTime z t).
  assert (0 <= Date.hourOf l < 24)%Z as Hh.
  { unfold Date.hourOf. apply Z.mod_pos_bound. lia. }
  assert (0 <= Date.minOf l < 60)%Z as Hm.
  { unfold Date.minOf. apply Z.mod_pos_bound. lia. }
  pose proof clock_table as T. rewrite forallb_forall in T.
  specialize (T (Z.to_nat (Date.hourOf l)) ltac:(apply in_seq; lia)).
  rewrite forallb_forall in T.
  specialize (T (Z.to_nat (Date.minOf l)) ltac:(apply in_seq; lia)).
  rewrite !Z2Nat.id in T by lia.
  destruct (pad2_shape (Date.hourOf l) ltac:(lia)) as (h1 & h2 & E1 & _).
  destruct (pad2_shape (Date.minOf l) ltac:(lia)) as (m1 & m2 & E2 & _).
  rewrite E1, E2 in *. exact T.
Qed.

(** C6, as stated, fails for an am/pm time whose hour is no hour of the
    twelve-hour clock.  "13:00 pm" is H:MM followed by pm; the normalizer
    adds twelve to the hour without looking at it and returns "25:00", which
    is no time of the 24-hour clock, and not the current time either. *)
Lemma normalizeTime_hour_not_checked :
  timeShape "13:00 pm" = Some ("13", "00", " pm")
  /\ to24 true 13 = None
  /\ specNormalizeTime Date.utcZone 1793491200000 "13:00 pm" = None
  /\ normalizeTime Date.utcZone 1793491200000 (Some "13:00 pm") = "25:00"
  /\ isClockTime "25:00" = false
  /\ Date.localHHMM Date.utcZone 1793491200000 = "00:00"
  /\ normalizeTime Date.utcZone 1793491200000 (Some "13:00 pm")
     <> Date.localHHMM Date.utcZone 1793491200000.
Proof.
  repeat split; try (vm_compute; reflexivity). vm_compute. discriminate.
Qed.

(** C6, amended.  For every input string the time normalizer works on the
    input with surrounding white space trimmed.  An input made of an hour of
    one or two digits, a colon and two minute digits gets its hour padded to
    two digits.  Such an input followed by optional white space and am or
    pm, in either case, is converted to the 24-hour clock when its hour is
    one of 1 to 12: 12 am becomes 00, 12 pm stays 12, every other hour keeps
    its number with am and gains twelve with pm.  When the hour is 0 or 13
    to 99 it is not checked: am leaves it as written and pm adds twelve, so
    that the result can have an hour from 24 to 111.  The minutes are copied
    as written in all these cases.  Every input that contains "now" or
    "current", in either case, maps to the current local time, and so does
    every other input that is not of the two forms above, and a missing
    input; the current local time is always a time of the 24-hour clock.
    Wherever the words of the specification name a result, it is the one
    returned.  "9:30 pm" maps to "21:30"; "9:5", whose minute has one digit,
    is not of those forms and maps to the current time. *)
Theorem normalizeTime_correct (z : Date.Zone) (now : Z) :
  (forall t h mm : string,
     Str.trim t = h +:+ ":" +:+ mm ->
     all Char.isDigit h = true -> (1 <= String.length h <= 2)%nat ->
     all Char.isDigit mm = true -> String.length mm = 2%nat ->
     normalizeTime z now (Some t) = Str.padStart 2 "0" h +:+ ":" +:+ mm)
  /\ (forall (t h mm w p : string) (h24 : Z),
        Str.trim t = h +:+ ":" +:+ mm +:+ w +:+ p ->
        all Char.isDigit h = true -> (1 <= String.length h <= 2)%nat ->
        all Char.isDigit mm = true -> String.length mm = 2%nat ->
        all Char.isSpace w = true ->
        Str.toLowerCase p = "am" \/ Str.toLowerCase p = "pm" ->
        to24 (String.eqb (Str.toLowerCase p) "pm") (Num.ofDigits h) = Some h24 ->
        normalizeTime z now (Some t)
        = Str.padStart 2 "0" (Num.toString h24) +:+ ":" +:+ mm
        /\ (0 <= h24 < 24)%Z)
  /\ (forall t h mm w p : string,
        Str.trim t = h +:+ ":" +:+ mm +:+ w +:+ p ->
        all Char.isDigit h = true -> (1 <= String.length h <= 2)%nat ->
        all Char.isDigit mm = true -> String.length mm = 2%nat ->
        all Char.isSpace w = true ->
        Str.toLowerCase p = "am" \/ Str.toLowerCase p = "pm" ->
        to24 (String.eqb (Str.toLowerCase p) "pm") (Num.ofDigits h) = None ->
        (Num.ofDigits h = 0 \/ 13 <= Num.ofDigits h <= 99)%Z
        /\ normalizeTime z now (Some t)
           = Str.padStart 2 "0"
               (Num.toString (if String.eqb (Str.toLowerCase p) "pm"
                              then Num.ofDigits h + 12 else Num.ofDigits h)%Z)
             +:+ ":" +:+ mm)
  /\ (forall t : string,
        Str.includes (Str.toLowerCase t) "now" = true
        \/ Str.includes (Str.toLowerCase t) "current" = true ->
        normalizeTime z now (Some t) = Date.localHHMM z now)
  /\ (forall t : string,
        (forall h mm rest : string,
           timeShape (Str.trim t) = Some (h, mm, rest) ->
           rest <> "" /\ Str.toLowerCase (Str.trimStart rest) <> "am"
           /\ Str.toLowerCase (Str.trimStart rest) <> "pm") ->
        normalizeTime z now (Some t) = Date.localHHMM z now)
  /\ (forall t r : string,
        specNormalizeTime z now t = Some r -> normalizeTime z now (Some t) = r)
  /\ (forall t : string, normalizeTime z now (Some t) = directNormalizeTime z now t)
  /\ isClockTime (Date.localHHMM z now) = true
  /\ normalizeTime z now None = Date.localHHMM z now
  /\ normalizeTime z now (Some "9:30") = "09:30"
  /\ normalizeTime z now (Some "14:05") = "14:05"
  /\ normalizeTime z now (Some "9:30 pm") = "21:30"
  /\ normalizeTime z now (Some "12:15AM") = "00:15"
  /\ normalizeTime z now (Some "13:00 pm") = "25:00"
  /\ normalizeTime z now (Some "now") = Date.localHHMM z now
  /\ normalizeTime z now (Some "current time") = Date.localHHMM z now
  /\ normalizeTime z now (Some "half past nine") = Date.localHHMM z now
  /\ timeShape "9:5" = None
  /\ normalizeTime z now (Some "9:5") = Date.localHHMM z now.
Proof.
  repeat apply conj; try reflexivity.
  - intros t h mm. apply normalizeTime_hhmm.
  - intros t h mm w p h24 Hs Hh Lh Hm Lm Hw Hp H24. split.
    + rewrite (normalizeTime_ampm z now t h mm w p) by assumption.
      rewrite (to24_shiftHour _ _ _ H24). reflexivity.
    + unfold to24 in H24.
      destruct (Z.leb_spec 1 (Num.ofDigits h)), (Z.leb_spec (Num.ofDigits h) 12);
        cbn [andb] in H24; try discriminate.
      injection H24 as <-.
      destruct (String.eqb (Str.toLowerCase p) "pm"), (Z.eqb_spec (Num.ofDigits h) 12); lia.
  - intros t h mm w p Hs Hh Lh Hm Lm Hw Hp H24. split.
    + pose proof (ofDigits_two h Hh ltac:(lia)) as B.
      unfold to24 in H24.
      destruct (Z.leb_spec 1 (Num.ofDigits h)), (Z.leb_spec (Num.ofDigits h) 12);
        cbn [andb] in H24; try discriminate; lia.
    + rewrite (normalizeTime_ampm z now t h mm w p) by assumption.
      rewrite (to24_none _ _ H24). reflexivity.
  - intros t. apply normalizeTime_now.
  - intros t H. rewrite normalizeTime_direct. unfold directNormalizeTime. cbv zeta.
    destruct (timeShape (Str.trim t)) as [[[h mm] rest]|]; [|reflexivity].
    destruct (H h mm rest eq_refl) as (Hr & Ha & Hp).
    apply isEmpty_false in Hr. rewrite Hr.
    destruct (String.eqb_spec (Str.toLowerCase (Str.trimStart rest)) "pm");
      [contradiction|].
    destruct (String.eqb_spec (Str.toLowerCase (Str.trimStart rest)) "am");
      [contradiction|].
    reflexivity.
  - intros t r. apply normalizeTime_spec.
  - intros t. apply normalizeTime_direct.
  - apply localHHMM_clock.
Qed.

Lemma normalizeTime_correct_witness :
  normalizeTime Date.utcZone 1793491200000 (Some " 7:45 ") = "07:45"
  /\ normalizeTime Date.utcZone 1793491200000 (Some "11:20   Pm") = "23:20"
  /\ normalizeTime Date.utcZone 1793491200000 (Some "99:00 PM") = "111:00"
  /\ normalizeTime Date.utcZone 1793491200000 (Some "0:30 am") = "00:30"
  /\ normalizeTime Date.utcZone 1793491200000 (Some "Right NOW please")
     = Date.localHHMM Date.utcZone 1793491200000
  /\ normalizeTime Date.utcZone 1793491200000 (Some "7:45 in the evening")
     = Date.localHHMM Date.utcZone 1793491200000
  /\ normalizeTime Date.utcZone 1793491200000 (Some "12:00 pm") = "12:00".
Proof.
  pose proof (normalizeTime_correct Date.utcZone 1793491200000)
    as (H1 & H2 & H3 & H4 & H5 & H6 & _).
  split; [|split; [|split; [|split; [|split; [|split]]]]].
  - apply (H1 " 7:45 " "7" "45"); solve [reflexivity | simpl; lia].
  - apply (H2 "11:20   Pm" "11" "20" "   " "Pm" 23%Z);
      solve [reflexivity | simpl; lia | right; reflexivity].
  - apply (H3 "99:00 PM" "99" "00" " " "PM");
      solve [reflexivity | simpl; lia | right; reflexivity].
  - apply (H3 "0:30 am" "0" "30" " " "am");
      solve [reflexivity | simpl; lia | left; reflexivity].
  - apply (H4 "Right NOW please"). left. reflexivity.
  - apply (H5 "7:45 in the evening"). intros h mm rest E.
    vm_compute in E. injection E as <- <- <-.
    repeat split; vm_compute; discriminate.
  - apply (H6 "12:00 pm"). reflexivity.
Defined.

(** ** The processed record is never blank where the merge looks *)

Section Solid.

Lemma solidHead_app a b : solidHead a = true -> solidHead (a +:+ b) = true.
Proof. destruct a; [discriminate | intros H; exact H]. Qed.

Lemma solidHead_trim s : solidHead s = true -> Str.trim s <> "".
Proof.
  destruct s as [|c r]; [discriminate|]. simpl. intros H.
  apply andb_true_iff in H. destruct H as [H _]. apply negb_true_iff in H.
  apply trim_solid_head, H.
Qed.

Lemma solidHead_nonempty s : solidHead s = true -> s <> "".
Proof. destruct s; [discriminate | discriminate]. Qed.

Lemma solidHead_present s : solidHead s = true -> present (VStr s) = true.
Proof.
  intros H. unfold present. cbn [Value.toString].
  apply negb_true_iff, isEmpty_false, solidHead_trim, H.
Qed.

Lemma uint_solid d : solidHead (NilZero.string_of_uint d) = true.
Proof. destruct d; reflexivity. Qed.

Lemma toString_solid n : solidHead (Num.toString n) = true.
Proof.
  unfold Num.toString, NilZero.string_of_int.
  destruct (Z.to_int n); [apply uint_solid | reflexivity].
Qed.

Lemma padStart_solid n s : solidHead s = true -> solidHead (Str.padStart n "0" s) = true.
Proof.
  intros H. unfold Str.padStart. destruct (n - String.length s)%nat; [exact H | reflexivity].
Qed.

Lemma pad_solid n v : solidHead (Date.pad n v) = true.
Proof. apply padStart_solid, toString_solid. Qed.

Lemma isoYear_solid y : solidHead (Date.isoYear y) = true.
Proof.
  unfold Date.isoYear. destruct ((0 <=? y)%Z && (y <=? 9999)%Z); [apply pad_solid|].
  destruct (y <? 0)%Z; reflexivity.
Qed.

Lemma toISOString_solid t : solidHead (Date.toISOString t) = true.
Proof.
  unfold Date.toISOString. destruct (Date.civil _) as [[y m] d].
  apply solidHead_app, isoYear_solid.
Qed.

Lemma splitOn_T_solid s :
  solidHead s = true ->
  solidHead (nth 0 (Str.splitOn (fun c => Char.eqb c "T") s) "") = true.
Proof.
  destruct s as [|c r]; [discriminate|]. intros H. pose proof H as H'.
  simpl in H'. apply andb_true_iff in H'. destruct H' as [_ HT].
  apply negb_true_iff in HT. cbn [Str.splitOn]. rewrite HT.
  destruct (Str.splitOn _ r); exact H.
Qed.

Lemma isoDate_solid t : solidHead (Date.isoDate t) = true.
Proof. apply splitOn_T_solid, toISOString_solid. Qed.

Lemma localHHMM_solid z t : solidHead (Date.localHHMM z t) = true.
Proof.
  unfold Date.localHHMM, Date.toTimeString.
  pose proof (pad_solid 2 (Date.hourOf (Date.LocalTime z t))) as H.
  destruct (Date.pad 2 _) as [|c r]; [discriminate|]. exact H.
Qed.

Lemma digit_solid c r : Char.isDigit c = true -> solidHead (String c r) = true.
Proof.
  intros H. destruct (digit_facts c H) as (Hs & _ & _ & _ & _ & _ & _ & HT).
  simpl. rewrite Hs, HT. reflexivity.
Qed.

Lemma isoShape_solid s : isoShape s = true -> solidHead s = true.
Proof.
  unfold isoShape. do 10 (destruct s as [|? s]; [discriminate|]).
  destruct s; [|discriminate].
  intros H. do 9 (apply andb_true_iff in H; destruct H as [H ?]).
  apply digit_solid, H.
Qed.

Lemma relativeDate_solid z now s : solidHead (relativeDate z now s) = true.
Proof.
  unfold relativeDate.
  repeat match goal with |- context [if ?b then _ else _] => destruct b end;
    apply isoDate_solid.
Qed.

Lemma normalizeDate_solid z now d : solidHead (normalizeDate z now d) = true.
Proof.
  destruct d as [d|]; [|apply isoDate_solid].
  rewrite normalizeDate_refines. unfold specNormalizeDate. cbv zeta.
  destruct (isoShape (Str.trim d)) eqn:Hi; [apply isoShape_solid, Hi|].
  pose proof (dmyShape_inv (Str.trim d)) as Hinv.
  destruct (dmyShape (Str.trim d)) as [[[day month] year]|]; [|apply relativeDate_solid].
  destruct Hinv as (c1 & c2 & _ & _ & _ & _ & _ & Hy & _ & _ & Ly).
  unfold isoFromParts. apply solidHead_app.
  destruct (String.length year =? 2)%nat; [reflexivity|].
  destruct year as [|y1 r]; [simpl in Ly; lia|].
  simpl in Hy. apply andb_true_iff in Hy. apply digit_solid, Hy.
Qed.

Lemma normalizeTime_solid z now t : solidHead (normalizeTime z now t) = true.
Proof.
  destruct t as [t|]; [|apply localHHMM_solid].
  rewrite normalizeTime_direct. unfold directNormalizeTime. cbv zeta.
  destruct (timeShape (Str.trim t)) as [[[h mm] rest]|] eqn:Hs; [|apply localHHMM_solid].
  destruct (timeShape_inv _ _ _ _ Hs) as (h1 & hs & m1 & m2 & -> & -> & _ & D1 & _).
  destruct (Str.isEmpty rest).
  - apply solidHead_app, padStart_solid, digit_solid, D1.
  - repeat match goal with |- context [if String.eqb ?a ?b then _ else _] =>
             destruct (String.eqb a b) end;
      try apply localHHMM_solid; apply solidHead_app, padStart_solid, toString_solid.
Qed.

End Solid.

Lemma admissionPatch_lookup (processed : ProcessedAdmissionData) (prev : object) :
  admissionPatch processed prev !! "admission_date"
    = Some (VStr (admission_date processed))
  /\ admissionPatch processed prev !! "admission_time"
     = Some (VStr (admission_time processed))
  /\ admissionPatch processed prev !! "gender"
     = Some (VStr (capitalize (Gender_toString (gender processed)))).
Proof.
  unfold admissionPatch. split; [reflexivity|split; [reflexivity|]].
  destruct (gender processed); reflexivity.
Qed.

(** The merge of the mapping handler completes and leaves the prototype
    alone: the patch has fixed keys, none of them [__proto__], and its values
    are texts, but for the age of the previous form, which the form keeps as
    a text too. *)
Lemma admissionPatch_merge_completes (processed : ProcessedAdmissionData) (prev : object) :
  Value.coercible (Value.get prev "age") = true ->
  mergeIfPresentCall prev (admissionPatch processed prev)
  = Normal {| ownProps := mergeIfPresent prev (admissionPatch processed prev);
              prototype := ObjectPrototype |}.
Proof.
  intros Hage. apply mergeIfPresentCall_plain; [reflexivity|].
  intros k v H. unfold admissionPatch in H. apply elem_of_list_to_map_2 in H.
  repeat (apply elem_of_cons in H as [H|H];
          [injection H as -> ->;
           try reflexivity;
           try (destruct (negb (age processed =? 0)%Z); [reflexivity | exact Hage]);
           try (destruct (gender processed); reflexivity)|]).
  apply elem_of_nil in H. contradiction.
Qed.

(** C10.  For every raw mapper output, the record returned by
    [postProcessAdmission] has an admission date, an admission time and a
    gender that are not empty, and the status admitted; a missing date, time
    or gender is replaced by the date of today, the current time and other.
    Hence, for every previous form, merging the record with [mergeIfPresent]
    as the mapping handler does always overwrites the form's admission date,
    admission time and gender with the record's values, also when the mapper
    output mentioned none of them. *)
Theorem processed_defaults_always_overwrite
    (P : Platform) (rawData : RawAdmissionData) (prev : object) :
  let processed := (postProcessAdmission P rawData).1 in
  let merged := mergeIfPresent prev (admissionPatch processed prev) in
  admission_date processed <> ""
  /\ admission_time processed <> ""
  /\ Gender_toString (gender processed) <> ""
  /\ status processed = admitted
  /\ merged !! "admission_date" = Some (VStr (admission_date processed))
  /\ merged !! "admission_time" = Some (VStr (admission_time processed))
  /\ merged !! "gender" = Some (VStr (capitalize (Gender_toString (gender processed))))
  /\ (raw_admission_date rawData = None ->
      merged !! "admission_date" = Some (VStr (Date.isoDate (t_date P))))
  /\ (raw_admission_time rawData = None ->
      merged !! "admission_time" = Some (VStr (Date.localHHMM (zone P) (t_time P))))
  /\ (raw_gender rawData = None -> merged !! "gender" = Some (VStr "Other")).
Proof.
  intros processed merged.
  assert (Hd : solidHead (admission_date processed) = true) by apply normalizeDate_solid.
  assert (Ht : solidHead (admission_time processed) = true) by apply normalizeTime_solid.
  destruct (admissionPatch_lookup processed prev) as (Ld & Lt & Lg).
  assert (Md : merged !! "admission_date" = Some (VStr (admission_date processed))).
  { unfold merged. rewrite mergeIfPresent_lookup by discriminate. rewrite Ld, solidHead_present by exact Hd.
    reflexivity. }
  assert (Mt : merged !! "admission_time" = Some (VStr (admission_time processed))).
  { unfold merged. rewrite mergeIfPresent_lookup by discriminate. rewrite Lt, solidHead_present by exact Ht.
    reflexivity. }
  assert (Mg : merged !! "gender"
               = Some (VStr (capitalize (Gender_toString (gender processed))))).
  { unfold merged. rewrite mergeIfPresent_lookup by discriminate. rewrite Lg.
    destruct (gender processed); reflexivity. }
  repeat apply conj.
  - apply solidHead_nonempty, Hd.
  - apply solidHead_nonempty, Ht.
  - destruct (gender processed); discriminate.
  - reflexivity.
  - exact Md.
  - exact Mt.
  - exact Mg.
  - intros E. rewrite Md. unfold processed. cbn. rewrite E. reflexivity.
  - intros E. rewrite Mt. unfold processed. cbn. rewrite E. reflexivity.
  - intros E. rewrite Mg. unfold processed. cbn. rewrite E. reflexivity.
Qed.

Lemma processed_defaults_always_overwrite_witness :
  let merged :=
    mergeIfPresent emptyForm
      (admissionPatch (postProcessAdmission samplePlatform validationFails).1 emptyForm) in
  merged !! "admission_date" = Some (VStr (Date.isoDate (t_date samplePlatform)))
  /\ merged !! "admission_time"
     = Some (VStr (Date.localHHMM (zone samplePlatform) (t_time samplePlatform)))
  /\ merged !! "gender" = Some (VStr "Other").
Proof.
  pose proof (processed_defaults_always_overwrite samplePlatform validationFails emptyForm)
    as H. cbv zeta in H.
  destruct H as (_ & _ & _ & _ & _ & _ & _ & Hd & Ht & Hg).
  cbv zeta. split; [|split]; [apply Hd | apply Ht | apply Hg]; reflexivity.
Defined.
(** * Further properties of the pipeline *)

Lemma toString_nonempty n : Num.toString n <> "".
Proof. apply solidHead_nonempty, toString_solid. Qed.

(** ** The normalizers of contact numbers and age *)

Section Numbers.

Lemma digitsValueFrom_nonneg s : forall acc,
  (0 <= acc)%Z -> (0 <= Num.digitsValueFrom acc s)%Z.
Proof.
  induction s as [|c r IH]; intros acc H; [exact H|]. cbn [Num.digitsValueFrom].
  destruct (Char.isDigit c) eqn:E; [|exact H]. apply IH.
  unfold Num.digitValue, Char.code. unfold Char.isDigit, Char.code in E.
  apply andb_true_iff in E. destruct E as [E _]. apply Nat.leb_le in E. lia.
Qed.

Lemma ofDigits_nonneg s : (0 <= Num.ofDigits s)%Z.
Proof. apply digitsValueFrom_nonneg. lia. Qed.

(** [parseInt] on a run of digits; the empty run gives [NaN]. *)
Lemma parseInt_digits s :
  all Char.isDigit s = true ->
  Num.parseInt s = if Str.isEmpty s then None else Some (Num.toNumber (Num.ofDigits s)).
Proof.
  destruct s as [|c r]; [reflexivity|]. cbn [all Str.isEmpty]. intros H.
  apply andb_true_iff in H. destruct H as [H _]. apply parseInt_digit, H.
Qed.

Lemma normalizeAge_string s :
  normalizeAge (Some (AgeStr s)) = Num.toNumber (Num.ofDigits (Str.filter Char.isDigit s)).
Proof.
  unfold normalizeAge. rewrite parseInt_digits by apply filter_all.
  destruct (Str.filter Char.isDigit s); reflexivity.
Qed.



End Numbers.

Lemma normalizeMobileNumber_some m :
  normalizeMobileNumber (Some m) = String.substring 0 10 (Str.filter Char.isDigit m).
Proof. unfold normalizeMobileNumber. destruct m; reflexivity. Qed.

Lemma normalizeMobileNumber_length m :
  String.length (normalizeMobileNumber m)
  = Nat.min 10 (String.length (Str.filter Char.isDigit (default "" m))).
Proof.
  destruct m as [m|]; [|reflexivity]. rewrite normalizeMobileNumber_some.
  apply substring_prefix_length.
Qed.

(** X1.  The mobile-number normalizer returns, for every input, a string of
    decimal digits only; its length is the number of digits in the input,
    capped at ten; normalizing its own result changes nothing; a missing
    input gives the empty string. *)
Theorem normalizeMobileNumber_digits :
  (forall m : string,
     all Char.isDigit (normalizeMobileNumber (Some m)) = true
     /\ String.length (normalizeMobileNumber (Some m))
        = Nat.min 10 (String.length (Str.filter Char.isDigit m))
     /\ normalizeMobileNumber (Some (normalizeMobileNumber (Some m)))
        = normalizeMobileNumber (Some m))
  /\ normalizeMobileNumber None = "".
Proof.
  split; [|reflexivity]. intros m. split; [|split].
  - rewrite normalizeMobileNumber_some. apply substring_prefix_all, filter_all.
  - apply (normalizeMobileNumber_length (Some m)).
  - rewrite !normalizeMobileNumber_some.
    rewrite (filter_id Char.isDigit (String.substring 0 10 _))
      by apply substring_prefix_all, filter_all.
    apply substring_prefix_whole. rewrite substring_prefix_length. lia.
Qed.



(** ** Validation warnings in terms of the raw input *)

Section Warnings.

Lemma In_push_if (b : bool) (l : list string) (m x : string) :
  In x (if b then push l m else l) <-> In x l \/ (b = true /\ x = m).
Proof.
  destruct b; unfold push.
  - rewrite in_app_iff. simpl. intuition congruence.
  - intuition congruence.
Qed.

(** Which messages the validator reports. *)
Lemma errors_In (data : ProcessedAdmissionData) (x : string) :
  In x (errors (validateProcessedData data)) <->
     (blank (name data) = true /\ x = "Patient name is required")
  \/ (((age data <? 0)%Z || (120 <? age data)%Z) = true
      /\ x = "Age must be between 0 and 120")
  \/ (negb (String.length (mobile_no data) =? 10)%nat = true
      /\ x = "Mobile number must be 10 digits")
  \/ (Str.truthy (aadhaar_number data)
      && negb (String.length
                 (Str.filter (fun c => negb (Char.isSpace c)) (aadhaar_number data))
               =? 12)%nat = true
      /\ x = "Aadhaar number must be 12 digits")
  \/ (blank (admitted_under_doctor data) = true /\ x = "Admitting doctor is required")
  \/ (blank (ward data) = true /\ x = "Ward is required")
  \/ (blank (bed_number data) = true /\ x = "Bed number is required")
  \/ (blank (reason data) = true /\ x = "Admission reason is required").
Proof.
  unfold validateProcessedData. cbn [errors].
  rewrite !In_push_if. simpl. tauto.
Qed.

Lemma blank_trimmedOrEmpty (f : option string) :
  blank (trimmedOrEmpty f) = all Char.isSpace (default "" f).
Proof.
  destruct f as [s|]; [|reflexivity]. change (default "" (Some s)) with s.
  cbn [trimmedOrEmpty].
  rewrite blank_trim.
  destruct (all Char.isSpace s) eqn:E.
  - apply trim_empty_iff in E. rewrite E. reflexivity.
  - destruct (Str.trim s) eqn:T; [|reflexivity].
    apply trim_empty_iff in T. congruence.
Qed.

Lemma filter_nonspace_digits s :
  all Char.isDigit s = true -> Str.filter (fun c => negb (Char.isSpace c)) s = s.
Proof.
  intros H. apply filter_id. revert H. apply all_impl.
  intros c Hc. destruct (digit_facts c Hc) as (-> & _). reflexivity.
Qed.

End Warnings.

Ltac pick_warning :=
  rewrite errors_In; split;
  [ intros H; repeat (destruct H as [H|H]); destruct H as [H E];
    first [discriminate E | exact H]
  | intros H; tauto ].

Lemma warning_name data :
  In "Patient name is required" (errors (validateProcessedData data))
  <-> blank (name data) = true.
Proof. pick_warning. Qed.

Lemma warning_doctor data :
  In "Admitting doctor is required" (errors (validateProcessedData data))
  <-> blank (admitted_under_doctor data) = true.
Proof. pick_warning. Qed.

Lemma warning_ward data :
  In "Ward is required" (errors (validateProcessedData data))
  <-> blank (ward data) = true.
Proof. pick_warning. Qed.

Lemma warning_bed data :
  In "Bed number is required" (errors (validateProcessedData data))
  <-> blank (bed_number data) = true.
Proof. pick_warning. Qed.

Lemma warning_reason data :
  In "Admission reason is required" (errors (validateProcessedData data))
  <-> blank (reason data) = true.
Proof. pick_warning. Qed.

Lemma warning_age data :
  In "Age must be between 0 and 120" (errors (validateProcessedData data))
  <-> ((age data <? 0)%Z || (120 <? age data)%Z) = true.
Proof. pick_warning. Qed.

Lemma warning_mobile data :
  In "Mobile number must be 10 digits" (errors (validateProcessedData data))
  <-> negb (String.length (mobile_no data) =? 10)%nat = true.
Proof. pick_warning. Qed.

Lemma warning_aadhaar data :
  In "Aadhaar number must be 12 digits" (errors (validateProcessedData data))
  <-> Str.truthy (aadhaar_number data)
      && negb (String.length
                 (Str.filter (fun c => negb (Char.isSpace c)) (aadhaar_number data))
               =? 12)%nat = true.
Proof. pick_warning. Qed.

(** The formatted national ID has the twelve digits of the input as its
    characters other than white space. *)
Lemma aadhaar_grouped_digits c :
  all Char.isDigit c = true -> String.length c = 12%nat ->
  Str.filter (fun x => negb (Char.isSpace x))
    (Str.substring 0 4 c +:+ " " +:+ Str.substring 4 8 c +:+ " " +:+ Str.substring 8 12 c)
  = c.
Proof.
  intros Hd Hl.
  do 12 (destruct c as [|? c]; [discriminate Hl|]).
  destruct c; [|discriminate Hl].
  cbn [all] in Hd.
  repeat (apply andb_true_iff in Hd; destruct Hd as [?D Hd]).
  repeat match goal with H : Char.isDigit ?a = true |- _ =>
    let F := fresh in pose proof (proj1 (digit_facts a H)) as F; clear H end.
  cbv [Str.substring Nat.sub String.substring append Str.filter].
  repeat match goal with H : Char.isSpace ?a = false |- _ => rewrite H; clear H end.
  reflexivity.
Qed.

Lemma aadhaar_check a :
  let n := String.length (Str.filter Char.isDigit (default "" a)) in
  Str.truthy (normalizeAadhaarNumber a)
  && negb (String.length
             (Str.filter (fun c => negb (Char.isSpace c)) (normalizeAadhaarNumber a))
           =? 12)%nat
  = negb (n =? 0)%nat && negb (n =? 12)%nat.
Proof.
  destruct a as [a|]; [|reflexivity]. change (default "" (Some a)) with a. cbv zeta.
  unfold normalizeAadhaarNumber.
  destruct (Str.isEmpty a) eqn:Ea.
  { apply isEmpty_true in Ea. subst a. reflexivity. }
  pose proof (filter_all Char.isDigit a) as Hd.
  destruct (String.length (Str.filter Char.isDigit a) =? 12)%nat eqn:E.
  - apply Nat.eqb_eq in E. rewrite aadhaar_grouped_digits by assumption.
    rewrite E. cbn [Nat.eqb negb andb]. apply andb_false_r.
  - rewrite (filter_nonspace_digits _ Hd), E. unfold Str.truthy.
    destruct (Str.filter Char.isDigit a); reflexivity.
Qed.

(** X3.  Which of the "required" warnings the post-processor draws depends
    on the raw input alone: for the name, the admitting doctor, the ward,
    the bed number and the reason, the warning of the field is among the
    validation messages exactly when the field is missing from the raw
    input or consists of white space only. *)
Theorem required_field_warnings (P : Platform) (rawData : RawAdmissionData) :
  let warnings := errors (validateProcessedData (postProcessAdmission P rawData).1) in
  let missing (f : option string) := all Char.isSpace (default "" f) = true in
  (In "Patient name is required" warnings <-> missing (raw_name rawData))
  /\ (In "Admitting doctor is required" warnings
      <-> missing (raw_admitted_under_doctor rawData))
  /\ (In "Ward is required" warnings <-> missing (raw_ward rawData))
  /\ (In "Bed number is required" warnings <-> missing (raw_bed_number rawData))
  /\ (In "Admission reason is required" warnings <-> missing (raw_reason rawData)).
Proof.
  cbv zeta. cbn [postProcessAdmission fst].
  rewrite warning_name, warning_doctor, warning_ward, warning_bed, warning_reason.
  cbn [processedRecord name admitted_under_doctor ward bed_number reason].
  rewrite !blank_trimmedOrEmpty. repeat split; auto.
Qed.

(** X4.  The warnings about the contact numbers, in terms of the raw input:
    the mobile-number warning is drawn exactly when the raw mobile number
    holds fewer than ten decimal digits (none, if it is missing), and the
    national-ID warning exactly when the number of decimal digits in the raw
    national ID is neither zero nor twelve.  In particular the blanks that
    the normalizer puts between the groups of a twelve-digit ID never cause
    the warning. *)
Theorem contact_number_warnings (P : Platform) (rawData : RawAdmissionData) :
  let warnings := errors (validateProcessedData (postProcessAdmission P rawData).1) in
  let digits (f : option string) :=
    String.length (Str.filter Char.isDigit (default "" f)) in
  (In "Mobile number must be 10 digits" warnings
   <-> (digits (raw_mobile_no rawData) < 10)%nat)
  /\ (In "Aadhaar number must be 12 digits" warnings
      <-> digits (raw_aadhaar_number rawData) <> 0%nat
          /\ digits (raw_aadhaar_number rawData) <> 12%nat).
Proof.
  cbv zeta. cbn [postProcessAdmission fst].
  rewrite warning_mobile, warning_aadhaar.
  cbn [processedRecord mobile_no aadhaar_number]. split.
  - rewrite normalizeMobileNumber_length, negb_true_iff, Nat.eqb_neq. lia.
  - pose proof (aadhaar_check (raw_aadhaar_number rawData)) as H. cbv zeta in H.
    rewrite H, andb_true_iff, !negb_true_iff, !Nat.eqb_neq. reflexivity.
Qed.

(** X5.  The age warning, in terms of the raw input: for an age given as
    text it is drawn exactly when the digits of the text, read as one
    number, exceed 120, and never because of a sign in the text; for an age
    given as a number exactly when the number is outside 0..120; never for a
    missing age. *)
Theorem age_warning (P : Platform) (rawData : RawAdmissionData) :
  let warnings := errors (validateProcessedData (postProcessAdmission P rawData).1) in
  In "Age must be between 0 and 120" warnings <->
  match raw_age rawData with
  | Some (AgeStr s) => (120 < Num.ofDigits (Str.filter Char.isDigit s))%Z
  | Some (AgeNum n) => (n < 0 \/ 120 < n)%Z
  | None => False
  end.
Proof.
  cbv zeta. cbn [postProcessAdmission fst]. rewrite warning_age.
  cbn [processedRecord age]. rewrite orb_true_iff, Z.ltb_lt, Z.ltb_lt.
  destruct (raw_age rawData) as [[n|s]|].
  - reflexivity.
  - rewrite normalizeAge_string.
    pose proof (ofDigits_nonneg (Str.filter Char.isDigit s)) as N.
    pose proof (toNumber_nonneg _ N) as N'.
    destruct (toNumber_compare _ 120 N ltac:(vm_compute; reflexivity)) as [C _].
    destruct (Z.ltb_spec 120 (Num.toNumber (Num.ofDigits (Str.filter Char.isDigit s)))),
             (Z.ltb_spec 120 (Num.ofDigits (Str.filter Char.isDigit s)));
      try discriminate C; lia.
  - cbn [normalizeAge]. lia.
Qed.
(** ** The shape of the dates and times that the normalizers return *)


Section OutputShapes.

Lemma hhmmShape_length s : hhmmShape s = true -> String.length s = 5%nat.
Proof.
  destruct s as [|a [|b [|c [|d [|e [|f r]]]]]]; try discriminate. reflexivity.
Qed.

Lemma isoShape_length s : isoShape s = true -> String.length s = 10%nat.
Proof.
  do 10 (destruct s as [|? s]; [discriminate|]). destruct s; [reflexivity | discriminate].
Qed.

Lemma hhmmShape_intro h mm :
  all Char.isDigit h = true -> String.length h = 2%nat ->
  all Char.isDigit mm = true -> String.length mm = 2%nat ->
  hhmmShape (h +:+ ":" +:+ mm) = true.
Proof.
  intros Hh Lh Hm Lm.
  destruct h as [|h1 [|h2 [|? ?]]]; try discriminate Lh.
  destruct mm as [|m1 [|m2 [|? ?]]]; try discriminate Lm.
  cbn [all] in Hh, Hm.
  apply andb_true_iff in Hh. destruct Hh as [H1 Hh].
  apply andb_true_iff in Hh. destruct Hh as [H2 _].
  apply andb_true_iff in Hm. destruct Hm as [M1 Hm].
  apply andb_true_iff in Hm. destruct Hm as [M2 _].
  cbv [append]. cbn [hhmmShape]. rewrite H1, H2, M1, M2. reflexivity.
Qed.

(** A time in HH:MM form is its own normal form. *)
Lemma normalizeTime_fixed z now s :
  hhmmShape s = true -> normalizeTime z now (Some s) = s.
Proof.
  intros H.
  destruct s as [|h1 [|h2 [|c [|m1 [|m2 [|? ?]]]]]]; try discriminate H.
  cbn [hhmmShape] in H.
  do 4 (apply andb_true_iff in H; destruct H as [H ?]).
  match goal with E : Char.eqb c ":" = true |- _ => apply char_eqb_eq in E; subst c end.
  assert (Str.trim (String h1 (String h2 (String ":" (String m1 (String m2 "")))))
          = String h1 (String h2 "") +:+ ":" +:+ String m1 (String m2 "")) as T.
  { repeat match goal with
         | D : Char.isDigit ?c = true |- _ =>
             destruct (digit_facts c D) as (? & _); clear D
         end.
    unfold Str.trim. ev. reflexivity. }
  rewrite (normalizeTime_hhmm z now _ _ _ T); cbn [all String.length];
    repeat match goal with D : Char.isDigit _ = true |- _ => rewrite D; clear D end;
    try reflexivity; lia.
Qed.

Lemma normalizeDate_fixed z now s :
  isoShape s = true -> normalizeDate z now (Some s) = s.
Proof.
  intros H. rewrite normalizeDate_refines. unfold specNormalizeDate.
  rewrite (isoShape_trim s H), H. reflexivity.
Qed.

Lemma relativeDate_shape z now s :
  clockInYears z now = true -> isoShape (relativeDate z now s) = true.
Proof.
  unfold clockInYears. intros H.
  apply andb_true_iff in H. destruct H as [H H3].
  apply andb_true_iff in H. destruct H as [H1 H2].
  unfold relativeDate.
  destruct (Str.includes _ "today"); [apply isoDate_shape, H1|].
  destruct (Str.includes _ "tomorrow"); [apply isoDate_shape, H2|].
  destruct (Str.includes _ "yesterday"); [apply isoDate_shape, H3|].
  apply isoDate_shape, H1.
Qed.

Lemma isoFromParts_shape day month year :
  all Char.isDigit day = true -> all Char.isDigit month = true ->
  all Char.isDigit year = true ->
  (1 <= String.length day <= 2)%nat -> (1 <= String.length month <= 2)%nat ->
  (2 <= String.length year <= 4)%nat ->
  isoShape (isoFromParts day month year) = negb (String.length year =? 3)%nat.
Proof.
  intros Hd Hm Hy Ld Lm Ly.
  destruct (String.length year =? 3)%nat eqn:E3.
  - apply Nat.eqb_eq in E3. apply not_true_is_false. intros H.
    apply isoShape_length in H. unfold isoFromParts in H.
    replace (String.length year =? 2)%nat with false in H
      by (symmetry; apply Nat.eqb_neq; lia).
    rewrite !length_app_string, !padStart_length in H. simpl in H. lia.
  - apply Nat.eqb_neq in E3. unfold isoFromParts.
    pose proof (padStart_length 2 "0" day) as PLd.
    pose proof (padStart_length 2 "0" month) as PLm.
    pose proof (padStart_digits 2 day Hd) as PDd.
    pose proof (padStart_digits 2 month Hm) as PDm.
    destruct (Str.padStart 2 "0" day) as [|d1 [|d2 [|? ?]]]; simpl in PLd; try lia.
    destruct (Str.padStart 2 "0" month) as [|m1 [|m2 [|? ?]]]; simpl in PLm; try lia.
    cbn [all] in PDd, PDm.
    apply andb_true_iff in PDd. destruct PDd as [D1 PDd].
    apply andb_true_iff in PDd. destruct PDd as [D2 _].
    apply andb_true_iff in PDm. destruct PDm as [M1 PDm].
    apply andb_true_iff in PDm. destruct PDm as [M2 _].
    destruct year as [|y1 [|y2 [|y3 [|y4 [|? ?]]]]]; simpl in Ly, E3; try lia;
      cbn [all] in Hy;
      repeat (apply andb_true_iff in Hy; destruct Hy as [? Hy]);
      cbn [String.length Nat.eqb]; cbv [append]; cbn [isoShape];
      repeat match goal with D : Char.isDigit _ = true |- _ => rewrite D; clear D end;
      reflexivity.
Qed.

(** The result of the date normalizer is in YYYY-MM-DD form unless the input
    is a day, a month and a year of three digits. *)
Lemma normalizeDate_shape z now d :
  clockInYears z now = true ->
  isoShape (normalizeDate z now d) = negb (threeDigitYear (Str.trim (default "" d))).
Proof.
  intros H. destruct d as [d|].
  2:{ cbn [normalizeDate]. apply isoDate_shape.
      unfold clockInYears in H. apply andb_true_iff in H. destruct H as [H _].
      apply andb_true_iff in H. tauto. }
  change (default "" (Some d)) with d.
  rewrite normalizeDate_refines. unfold specNormalizeDate, threeDigitYear. cbv zeta.
  destruct (isoShape (Str.trim d)) eqn:Ei.
  - rewrite Ei. pose proof (dmyShape_not_iso (Str.trim d)) as N.
    destruct (dmyShape (Str.trim d)) as [[[day month] year]|]; [|reflexivity].
    congruence.
  - pose proof (dmyShape_inv (Str.trim d)) as I.
    destruct (dmyShape (Str.trim d)) as [[[day month] year]|].
    + destruct I as (c1 & c2 & _ & _ & _ & Hd & Hm & Hy & Ld & Lm & Ly).
      apply isoFromParts_shape; assumption.
    + apply relativeDate_shape, H.
Qed.

Lemma length_ge_3_not_hhmm a mm :
  (3 <= String.length a)%nat -> String.length mm = 2%nat ->
  hhmmShape (a +:+ ":" +:+ mm) = false.
Proof.
  intros La Lm. apply not_true_is_false. intros H. apply hhmmShape_length in H.
  rewrite !length_app_string in H. simpl in H. lia.
Qed.

(** The decimal text of a number from 100 on has three characters or
    more. *)
Lemma toString_length_3 n : (100 <= n)%Z -> (3 <= String.length (Num.toString n))%nat.
Proof.
  intros H. destruct (le_lt_dec 3 (String.length (Num.toString n))) as [L|L]; [exact L|].
  pose proof (ofDigits_two (Num.toString n) (toString_digits n ltac:(lia)) ltac:(lia)) as B.
  rewrite ofDigits_toString in B by lia. lia.
Qed.

(** The result of the time normalizer is in HH:MM form unless the input is
    a time with pm whose hour is 88 or more. *)
Lemma normalizeTime_shape z now t :
  hhmmShape (normalizeTime z now t) = negb (lateHour (Str.trim (default "" t))).
Proof.
  destruct t as [t|]; [|apply localHHMM_shape].
  change (default "" (Some t)) with t.
  rewrite normalizeTime_direct. unfold directNormalizeTime, lateHour. cbv zeta.
  destruct (timeShape (Str.trim t)) as [[[h mm] rest]|] eqn:Hs; [|apply localHHMM_shape].
  destruct (timeShape_inv _ _ _ _ Hs)
    as (h1 & hs & m1 & m2 & Eh & Em & _ & D1 & D2 & D3 & Hhs).
  assert (all Char.isDigit h = true /\ (1 <= String.length h <= 2)%nat) as [Hh Lh].
  { subst h. destruct Hhs as [-> | (h2 & -> & D4)]; cbn [all String.length];
      rewrite ?D1, ?D4; split; try reflexivity; lia. }
  assert (all Char.isDigit mm = true /\ String.length mm = 2%nat) as [Hm Lm].
  { subst mm. cbn [all]. rewrite D2, D3. split; reflexivity. }
  pose proof (ofDigits_two h Hh ltac:(lia)) as Bh.
  assert (forall v, (0 <= v < 100)%Z ->
            hhmmShape (Str.padStart 2 "0" (Num.toString v) +:+ ":" +:+ mm) = true) as OK.
  { intros v Hv. destruct (pad2_shape v Hv) as (a & b & E & Da & Db).
    unfold Date.pad in E. rewrite E. apply hhmmShape_intro; try assumption;
      cbn [all]; rewrite ?Da, ?Db; reflexivity. }
  destruct (Str.isEmpty rest) eqn:Hr.
  - apply isEmpty_true in Hr. subst rest. cbn [Str.trimStart Str.toLowerCase Str.map String.eqb andb negb].
    apply hhmmShape_intro; try assumption.
    + apply padStart_digits, Hh.
    + rewrite padStart_length. lia.
  - destruct (String.eqb (Str.toLowerCase (Str.trimStart rest)) "pm") eqn:Epm.
    + cbn [andb]. unfold shiftHour.
      destruct (Z.leb_spec 88 (Num.ofDigits h)) as [L|L]; cbn [negb].
      * destruct (Z.eqb_spec (Num.ofDigits h) 12) as [E|E]; [lia|].
        apply length_ge_3_not_hhmm; [|assumption].
        rewrite padStart_length.
        pose proof (toString_length_3 (Num.ofDigits h + 12) ltac:(lia)). lia.
      * apply OK. destruct (Z.eqb_spec (Num.ofDigits h) 12); lia.
    + cbn [andb negb].
      destruct (String.eqb (Str.toLowerCase (Str.trimStart rest)) "am");
        [|apply localHHMM_shape].
      apply OK. unfold shiftHour. destruct (Z.eqb_spec (Num.ofDigits h) 12); lia.
Qed.

End OutputShapes.

(** X6.  While today, tomorrow and yesterday fall in the years 0 to 9999,
    the date normalizer returns a date in YYYY-MM-DD form for every input,
    missing or not, with one exception: an input made of a day, a month and
    a year of three digits, for which the result is never in that form.
    Outside the exception the result passes the date pattern of the save
    handler and is a fixed point of the normalizer.  "1-2-123" is such an
    exception and becomes "123-02-01". *)
Theorem normalizeDate_output_shape (z : Date.Zone) (now : Z) :
  clockInYears z now = true ->
  (forall d : option string,
     isoShape (normalizeDate z now d)
     = negb (threeDigitYear (Str.trim (default "" d))))
  /\ (forall d : option string,
        threeDigitYear (Str.trim (default "" d)) = false ->
        test reISODate (normalizeDate z now d) = true
        /\ normalizeDate z now (Some (normalizeDate z now d)) = normalizeDate z now d)
  /\ threeDigitYear "1-2-123" = true
  /\ normalizeDate z now (Some "1-2-123") = "123-02-01".
Proof.
  intros H. split; [|split; [|split; reflexivity]].
  - intros d. apply normalizeDate_shape, H.
  - intros d Hd. pose proof (normalizeDate_shape z now d H) as S.
    rewrite Hd in S. cbn [negb] in S. split.
    + rewrite test_reISODate. exact S.
    + apply normalizeDate_fixed, S.
Qed.

Lemma normalizeDate_output_shape_witness :
  test reISODate (normalizeDate Date.utcZone 1793491200000 (Some " 25/12/24 ")) = true
  /\ normalizeDate Date.utcZone 1793491200000
       (Some (normalizeDate Date.utcZone 1793491200000 (Some " 25/12/24 ")))
     = normalizeDate Date.utcZone 1793491200000 (Some " 25/12/24 ").
Proof.
  apply (proj1 (proj2 (normalizeDate_output_shape Date.utcZone 1793491200000 eq_refl))
           (Some " 25/12/24 ")).
  reflexivity.
Defined.

(** X7.  The time normalizer returns a time in HH:MM form, two digits on
    each side of the colon, for every input, missing or not, with one
    exception: a time with pm whose hour is 88 or more, for which the hour
    of the result has three digits.  Outside the exception the result passes
    the time pattern of the save handler and is a fixed point of the
    normalizer.  "99:00 pm" is such an exception and becomes "111:00". *)
Theorem normalizeTime_output_shape (z : Date.Zone) (now : Z) :
  (forall t : option string,
     hhmmShape (normalizeTime z now t)
     = negb (lateHour (Str.trim (default "" t))))
  /\ (forall t : option string,
        lateHour (Str.trim (default "" t)) = false ->
        test reTimeField (normalizeTime z now t) = true
        /\ normalizeTime z now (Some (normalizeTime z now t)) = normalizeTime z now t)
  /\ lateHour "99:00 pm" = true
  /\ normalizeTime z now (Some "99:00 pm") = "111:00".
Proof.
  split; [|split; [|split; reflexivity]].
  - intros t. apply normalizeTime_shape.
  - intros t Ht. pose proof (normalizeTime_shape z now t) as S.
    rewrite Ht in S. cbn [negb] in S. split.
    + rewrite test_reTimeField. exact S.
    + apply normalizeTime_fixed, S.
Qed.

Lemma normalizeTime_output_shape_witness :
  test reTimeField (normalizeTime Date.utcZone 1793491200000 (Some "9:30 pm")) = true
  /\ normalizeTime Date.utcZone 1793491200000
       (Some (normalizeTime Date.utcZone 1793491200000 (Some "9:30 pm")))
     = normalizeTime Date.utcZone 1793491200000 (Some "9:30 pm").
Proof.
  apply (proj1 (proj2 (normalizeTime_output_shape Date.utcZone 1793491200000))
           (Some "9:30 pm")).
  reflexivity.
Defined.

(** X8.  The default admission data survive post-processing: for defaults
    taken at a time in the years 0 to 9999, whatever the clock of the later
    post-processing run, the processed record keeps the date and the time
    of the defaults, has the age 0, the gender other and empty contact
    numbers, and the run warns about exactly the six fields that the
    defaults leave empty: name, mobile number, doctor, ward, bed and
    reason. *)
Theorem defaults_survive_post_processing (P : Platform) (z : Date.Zone) (now : Z) :
  fourDigitYear now = true ->
  let run := postProcessAdmission P (getDefaultAdmissionData z now) in
  admission_date run.1 = Date.isoDate now
  /\ admission_time run.1 = Date.localHHMM z now
  /\ age run.1 = 0%Z
  /\ gender run.1 = other
  /\ mobile_no run.1 = ""
  /\ aadhaar_number run.1 = ""
  /\ run.2 = [ConsoleWarn "Admission data validation warnings:"
                ["Patient name is required"; "Mobile number must be 10 digits";
                 "Admitting doctor is required"; "Ward is required";
                 "Bed number is required"; "Admission reason is required"]].
Proof.
  intros H. cbv zeta. unfold postProcessAdmission. cbv zeta. cbn [fst snd].
  repeat apply conj; try reflexivity.
  - cbn [processedRecord admission_date getDefaultAdmissionData raw_admission_date].
    apply normalizeDate_fixed, isoDate_shape, H.
  - cbn [processedRecord admission_time getDefaultAdmissionData raw_admission_time].
    apply normalizeTime_fixed, localHHMM_shape.
Qed.

Lemma defaults_survive_post_processing_witness :
  admission_date
    (postProcessAdmission samplePlatform
       (getDefaultAdmissionData Date.utcZone 951782400000)).1 = "2000-02-29".
Proof.
  apply (defaults_survive_post_processing samplePlatform Date.utcZone 951782400000).
  reflexivity.
Defined.

Lemma truthy_solid s : solidHead s = true -> Str.truthy s = true.
Proof. destruct s; [discriminate | reflexivity]. Qed.

(** X9.  Mapping followed by saving.  When the mapping service returns a
    reply whose name is not blank and whose age is not 0, and today,
    tomorrow and yesterday fall in the years 0 to 9999, the form that the
    admission mapping handler leaves behind passes the name-and-age check of
    the save handler, whatever the form held before; it then fails the date
    check exactly when the reply's date is a day, a month and a year of
    three digits, and otherwise fails the time check exactly when the
    reply's time is a pm time with an hour of 88 or more; in every other
    case the save handler goes on to send its request. *)
Theorem mapped_form_save_checks
    (P : Platform) (api : string -> string -> Reply RawAdmissionData)
    (st : AdmissionPage) (raw : RawAdmissionData) :
  Str.isEmpty (Str.trim (txAdmission st)) = false ->
  api "/api/map/admission" (combinedText (form st) (Str.trim (txAdmission st)))
    = Returns (Some raw) ->
  all Char.isSpace (default "" (raw_name raw)) = false ->
  normalizeAge (raw_age raw) <> 0%Z ->
  clockInYears (zone P) (t_date P) = true ->
  saveChecks (form (mapAdmissionFromTranscript P api st)) =
    if threeDigitYear (Str.trim (default "" (raw_admission_date raw)))
    then Some "Please enter a valid admission date"
    else if lateHour (Str.trim (default "" (raw_admission_time raw)))
    then Some "Please enter a valid admission time"
    else None.
Proof.
  intros Htx Hapi Hname Hage Hclock.
  unfold mapAdmissionFromTranscript.
  assert (Str.or (txAdmission st) "" = txAdmission st) as ->.
  { unfold Str.or. destruct (txAdmission st); reflexivity. }
  cbv zeta. rewrite Htx, Hapi. cbn [form postProcessAdmission fst].
  set (processed := processedRecord P raw).
  set (merged := mergeIfPresent (form st) (admissionPatch processed (form st))).
  destruct (admissionPatch_lookup processed (form st)) as (Ld & Lt & _).
  assert (Value.get merged "name" = VStr (name processed)
          /\ Str.truthy (name processed) = true) as [Gn Tn].
  { assert (Str.isEmpty (name processed) = false) as E.
    { rewrite <- blank_trimmedOrEmpty in Hname.
      unfold processed. cbn [processedRecord name].
      unfold trimmedOrEmpty in *. destruct (raw_name raw) as [s|]; [|discriminate Hname].
      rewrite blank_trim in Hname. exact Hname. }
    split; [|unfold Str.truthy; rewrite E; reflexivity].
    unfold Value.get, merged. rewrite mergeIfPresent_lookup by discriminate.
    assert (admissionPatch processed (form st) !! "name" = Some (VStr (name processed)))
      as -> by reflexivity.
    assert (present (VStr (name processed)) = true) as ->.
    { unfold present. cbn [Value.toString].
      unfold processed in *. cbn [processedRecord name] in *.
      unfold trimmedOrEmpty in *. destruct (raw_name raw) as [s|]; [|discriminate E].
      rewrite trim_idem, E. reflexivity. }
    reflexivity. }
  assert (Value.get merged "age" = VStr (Num.toString (age processed))) as Ga.
  { unfold Value.get, merged. rewrite mergeIfPresent_lookup by discriminate.
    assert (admissionPatch processed (form st) !! "age"
            = Some (VStr (Num.toString (age processed)))) as ->.
    { unfold admissionPatch.
      assert (negb (age processed =? 0)%Z = true) as E
        by (apply negb_true_iff, Z.eqb_neq; exact Hage).
      rewrite E. reflexivity. }
    rewrite solidHead_present by apply toString_solid. reflexivity. }
  assert (Value.get merged "admission_date" = VStr (admission_date processed)) as Gd.
  { unfold Value.get, merged.
    rewrite mergeIfPresent_lookup by discriminate. rewrite Ld, solidHead_present by apply normalizeDate_solid.
    reflexivity. }
  assert (Value.get merged "admission_time" = VStr (admission_time processed)) as Gt.
  { unfold Value.get, merged.
    rewrite mergeIfPresent_lookup by discriminate. rewrite Lt, solidHead_present by apply normalizeTime_solid.
    reflexivity. }
  unfold saveChecks. rewrite Gn, Ga, Gd, Gt. cbn [Value.truthy Value.toString].
  rewrite Tn, (truthy_solid _ (toString_solid _)).
  unfold processed. cbn [processedRecord admission_date admission_time].
  rewrite (truthy_solid _ (normalizeDate_solid _ _ _)),
          (truthy_solid _ (normalizeTime_solid _ _ _)).
  cbn [negb orb andb].
  rewrite test_reISODate, test_reTimeField.
  rewrite normalizeDate_shape by exact Hclock. rewrite normalizeTime_shape.
  rewrite !negb_involutive. reflexivity.
Qed.

Lemma mapped_form_save_checks_witness :
  saveChecks (form (mapAdmissionFromTranscript samplePlatform
                      (fun _ _ => Returns (Some sampleReply)) sampleAdmissionPage))
  = None.
Proof.
  apply (mapped_form_save_checks samplePlatform (fun _ _ => Returns (Some sampleReply))
           sampleAdmissionPage sampleReply);
    solve [reflexivity | discriminate].
Defined.
(** ** The HTTP helpers *)

Section ApiFacts.

Variable API_BASE_URL : string.
Variable fetch : Api.Request -> Api.Outcome Api.Response.

(** How [apiRequest] settles, by cases on what [fetch] does. *)
Lemma apiRequest_cases req context :
  let sent := {| Api.url := if Str.startsWith "http" (Api.url req) then Api.url req
                            else API_BASE_URL +:+ Api.url req;
                 Api.method := Api.method req; Api.body := Api.body req |} in
  Api.apiRequest API_BASE_URL fetch req context =
  match fetch sent with
  | Api.Rejects m =>
      (["API Error in " +:+ context +:+ ":"],
       Api.Rejects ("API request failed: " +:+ Str.or m "Unknown error"))
  | Api.Resolves response =>
      if responseOk (Api.status response) then ([], Api.Resolves response)
      else
        (["API Error in " +:+ context +:+ ":"],
         Api.Rejects
           ("API request failed: " +:+
            match Api.text response with
            | Api.Rejects m => Str.or m "Unknown error"
            | Api.Resolves errorText =>
                "HTTP " +:+ Num.toString (Z.of_nat (Api.status response))
                +:+ ": " +:+ errorText
            end))
  end.
Proof.
  cbv zeta. unfold Api.apiRequest. cbv zeta.
  destruct (fetch _) as [m|response]; [reflexivity|].
  destruct (responseOk (Api.status response)); cbn [negb]; [reflexivity|].
  destruct (Api.text response) as [m|errorText]; reflexivity.
Qed.

(** How the JSON helpers settle, by cases on what [fetch] does. *)
Lemma requestJSON_cases req context :
  let sent := {| Api.url := if Str.startsWith "http" (Api.url req) then Api.url req
                            else API_BASE_URL +:+ Api.url req;
                 Api.method := Api.method req; Api.body := Api.body req |} in
  let label := "API Error in " +:+ context +:+ ":" in
  Api.requestJSON API_BASE_URL fetch req context =
  match fetch sent with
  | Api.Rejects m =>
      ([label; label],
       Api.Rejects ("API request failed: API request failed: "
                    +:+ Str.or m "Unknown error"))
  | Api.Resolves response =>
      if responseOk (Api.status response) then
        match Api.json response with
        | Api.Rejects m =>
            ([label], Api.Rejects ("API request failed: " +:+ Str.or m "Unknown error"))
        | Api.Resolves v => ([], Api.Resolves v)
        end
      else
        ([label; label],
         Api.Rejects
           ("API request failed: API request failed: " +:+
            match Api.text response with
            | Api.Rejects m => Str.or m "Unknown error"
            | Api.Resolves errorText =>
                "HTTP " +:+ Num.toString (Z.of_nat (Api.status response))
                +:+ ": " +:+ errorText
            end))
  end.
Proof.
  cbv zeta. unfold Api.requestJSON.
  rewrite apiRequest_cases. cbv zeta.
  destruct (fetch _) as [m|response]; [reflexivity|].
  destruct (responseOk (Api.status response)).
  - destruct (Api.json response); reflexivity.
  - reflexivity.
Qed.

End ApiFacts.

(** X10.  Every failure of [getJSON], [postJSON] and [putJSON] is an error
    whose message is "API request failed: " followed by a text that is not
    empty, and at least one line is written to the error console before it;
    a success writes nothing to it. *)
Theorem api_failures_are_labelled
    (API_BASE_URL : string) (fetch : Api.Request -> Api.Outcome Api.Response)
    (url : string) (data : value) :
  let settled (run : Api.Run value) :=
    match run with
    | (log, Api.Rejects m) =>
        log <> [] /\ exists r, m = "API request failed: " +:+ r /\ r <> ""
    | (log, Api.Resolves _) => log = []
    end in
  settled (Api.getJSON API_BASE_URL fetch url)
  /\ settled (Api.postJSON API_BASE_URL fetch url data)
  /\ settled (Api.putJSON API_BASE_URL fetch url data).
Proof.
  cbv zeta.
  assert (forall req context,
            match Api.requestJSON API_BASE_URL fetch req context with
            | (log, Api.Rejects m) =>
                log <> [] /\ exists r, m = "API request failed: " +:+ r /\ r <> ""
            | (log, Api.Resolves _) => log = []
            end) as H.
  { intros req context. unfold Api.requestJSON.
    rewrite apiRequest_cases. cbv zeta.
    destruct (fetch _) as [m|response].
    - split; [discriminate|]. eexists. split; [reflexivity | discriminate].
    - destruct (responseOk (Api.status response)).
      + destruct (Api.json response) as [m|v]; [|reflexivity].
        split; [discriminate|]. exists (Str.or m "Unknown error").
        split; [reflexivity|]. destruct m; discriminate.
      + split; [discriminate|]. eexists. split; [reflexivity | discriminate]. }
  repeat split; apply H.
Qed.

(** X11.  How [postJSON] settles, by what the network does with the request
    it sends (to the base URL followed by the path, unless the path starts
    with "http").  A rejected [fetch] and a response with a status outside
    200..299 are handled twice, so the message carries the prefix
    "API request failed: " two times, followed by the message of the
    network error (or "Unknown error" if that is empty), or by
    "HTTP <status>: <response text>"; two lines go to the error console.  A
    response with a status in 200..299 whose body does not parse is handled
    once: one prefix, one line.  A response with a status in 200..299 whose
    body parses gives the parsed value and writes nothing. *)
Theorem postJSON_outcomes
    (API_BASE_URL : string) (fetch : Api.Request -> Api.Outcome Api.Response)
    (url : string) (data : value) :
  let sent := {| Api.url := if Str.startsWith "http" url then url
                            else API_BASE_URL +:+ url;
                 Api.method := "POST";
                 Api.body := if Value.truthy data then Some data else None |} in
  let label := "API Error in POST " +:+ url +:+ ":" in
  Api.postJSON API_BASE_URL fetch url data =
  match fetch sent with
  | Api.Rejects m =>
      ([label; label],
       Api.Rejects ("API request failed: API request failed: "
                    +:+ Str.or m "Unknown error"))
  | Api.Resolves response =>
      if responseOk (Api.status response) then
        match Api.json response with
        | Api.Rejects m =>
            ([label], Api.Rejects ("API request failed: " +:+ Str.or m "Unknown error"))
        | Api.Resolves v => ([], Api.Resolves v)
        end
      else
        ([label; label],
         Api.Rejects
           ("API request failed: API request failed: " +:+
            match Api.text response with
            | Api.Rejects m => Str.or m "Unknown error"
            | Api.Resolves errorText =>
                "HTTP " +:+ Num.toString (Z.of_nat (Api.status response))
                +:+ ": " +:+ errorText
            end))
  end.
Proof.
  cbv zeta. unfold Api.postJSON, Api.bodyOf. rewrite requestJSON_cases. reflexivity.
Qed.

(** X12.  [healthCheck] never fails: it answers true exactly when the
    request for the health path of the base URL gets a response with a
    status in 200..299 whose body parses, and false in every other case,
    a rejected request included. *)
Theorem healthCheck_true_iff
    (API_BASE_URL : string) (fetch : Api.Request -> Api.Outcome Api.Response) :
  (Api.healthCheck API_BASE_URL fetch).2 = true <->
  exists response v,
    fetch {| Api.url := API_BASE_URL +:+ "/health"; Api.method := "GET";
             Api.body := None |} = Api.Resolves response
    /\ responseOk (Api.status response) = true
    /\ Api.json response = Api.Resolves v.
Proof.
  unfold Api.healthCheck, Api.getJSON, Api.requestJSON.
  rewrite apiRequest_cases. cbv zeta. cbn [Api.url Api.method Api.body Str.startsWith].
  change (Char.eqb "h" "/") with false. cbn [andb].
  destruct (fetch _) as [m|response].
  - cbn. split; [discriminate|]. intros (r & v & H & _). discriminate H.
  - destruct (responseOk (Api.status response)) eqn:Ok.
    + destruct (Api.json response) as [m|v] eqn:J; cbn.
      * split; [discriminate|]. intros (r & v & H & _ & J'). congruence.
      * split; [|reflexivity]. intros _. exists response, v. auto.
    + cbn. split; [discriminate|]. intros (r & v & H & Ok' & _). congruence.
Qed.

(** X13.  What the admission page shows when the mapping request fails in
    the network layer.  With the mapping service reached through [postJSON],
    a rejected [fetch] leaves the form as it was, ends the mapping state and
    sets the error text "Failed to map admission data: " followed by the
    twice-prefixed message of [postJSON]; so does a response with a status
    outside 200..299, whose status and text end up in the error text. *)
Theorem admission_mapping_network_failure
    (P : Platform) (API_BASE_URL : string)
    (fetch : Api.Request -> Api.Outcome Api.Response)
    (read : value -> option RawAdmissionData) (st : AdmissionPage) :
  Str.isEmpty (Str.trim (txAdmission st)) = false ->
  let after :=
    mapAdmissionFromTranscript P (Api.mappingService API_BASE_URL fetch read) st in
  let sent :=
    {| Api.url := API_BASE_URL +:+ "/api/map/admission"; Api.method := "POST";
       Api.body :=
         Some (VObj (<["text" := VStr (combinedText (form st)
                                         (Str.trim (txAdmission st)))]> ∅)) |} in
  (forall m, fetch sent = Api.Rejects m ->
     form after = form st /\ isMapping after = false
     /\ error after = Some ("Failed to map admission data: "
                            +:+ "API request failed: API request failed: "
                            +:+ Str.or m "Unknown error"))
  /\ (forall response errorText,
        fetch sent = Api.Resolves response ->
        responseOk (Api.status response) = false ->
        Api.text response = Api.Resolves errorText ->
        form after = form st /\ isMapping after = false
        /\ error after = Some ("Failed to map admission data: "
                               +:+ "API request failed: API request failed: HTTP "
                               +:+ Num.toString (Z.of_nat (Api.status response))
                               +:+ ": " +:+ errorText)).
Proof.
  intros Htx. cbv zeta. unfold mapAdmissionFromTranscript.
  assert (Str.or (txAdmission st) "" = txAdmission st) as ->.
  { unfold Str.or. destruct (txAdmission st); reflexivity. }
  cbv zeta. rewrite Htx. unfold Api.mappingService, Api.postJSON, Api.bodyOf.
  rewrite requestJSON_cases.
  cbv zeta. cbn [Api.url Api.method Api.body Str.startsWith Value.truthy].
  change (Char.eqb "h" "/") with false. cbn [andb].
  split.
  - intros m Hm. rewrite Hm. cbn. auto.
  - intros response errorText Hr Hok Ht. rewrite Hr, Hok, Ht. cbn. auto.
Qed.

Lemma admission_mapping_network_failure_witness :
  error (mapAdmissionFromTranscript samplePlatform
           (Api.mappingService "http://localhost:8000" unreachable (fun _ => None))
           sampleAdmissionPage)
  = Some "Failed to map admission data: API request failed: API request failed: Failed to fetch"
  /\ error (mapAdmissionFromTranscript samplePlatform
              (Api.mappingService "http://localhost:8000"
                 (failing "Internal Server Error") (fun _ => None))
              sampleAdmissionPage)
     = Some "Failed to map admission data: API request failed: API request failed: HTTP 500: Internal Server Error".
Proof.
  split.
  - pose proof (proj1 (admission_mapping_network_failure samplePlatform
                         "http://localhost:8000" unreachable (fun _ => None)
                         sampleAdmissionPage eq_refl)
                  "Failed to fetch" eq_refl) as (_ & _ & H).
    exact H.
  - pose proof (proj2 (admission_mapping_network_failure samplePlatform
                         "http://localhost:8000" (failing "Internal Server Error")
                         (fun _ => None) sampleAdmissionPage eq_refl)
                  _ "Internal Server Error" eq_refl eq_refl eq_refl) as (_ & _ & H).
    exact H.
Defined.

(** ** The nurse-handover page: lists of lines *)

Section Lines.

Lemma all_trimStart p s : all p s = true -> all p (Str.trimStart s) = true.
Proof.
  induction s as [|c r IH]; [reflexivity|]. cbn [all Str.trimStart]. intros H.
  destruct (Char.isSpace c); [|exact H].
  apply andb_true_iff in H. apply IH, H.
Qed.

Lemma all_trimEnd p s : all p s = true -> all p (Str.trimEnd s) = true.
Proof.
  induction s as [|c r IH]; [reflexivity|]. rewrite trimEnd_cons. cbn [all]. intros H.
  apply andb_true_iff in H. destruct H as [Hc Hr].
  destruct (Char.isSpace c && Str.isEmpty (Str.trimEnd r)); [reflexivity|].
  cbn [all]. rewrite Hc, (IH Hr). reflexivity.
Qed.

Lemma all_trim p s : all p s = true -> all p (Str.trim s) = true.
Proof. intros H. apply all_trimEnd, all_trimStart, H. Qed.

(** No piece of a split contains a separator. *)
Lemma splitOn_pieces sep s :
  Forall (fun x => all (fun c => negb (sep c)) x = true) (Str.splitOn sep s).
Proof.
  induction s as [|c r IH]; [repeat constructor|]. cbn [Str.splitOn].
  destruct (sep c) eqn:E.
  - constructor; [reflexivity | exact IH].
  - destruct (Str.splitOn sep r) as [|w ws].
    + repeat constructor. cbn [all]. rewrite E. reflexivity.
    + inversion IH; subst. constructor; [|assumption].
      cbn [all]. rewrite E. assumption.
Qed.

Lemma splitOn_whole sep s :
  all (fun c => negb (sep c)) s = true -> Str.splitOn sep s = [s].
Proof.
  induction s as [|c r IH]; [reflexivity|]. cbn [all Str.splitOn]. intros H.
  apply andb_true_iff in H. destruct H as [Hc Hr]. apply negb_true_iff in Hc.
  rewrite Hc, (IH Hr). reflexivity.
Qed.

Lemma splitOn_app_sep sep a c b :
  all (fun x => negb (sep x)) a = true -> sep c = true ->
  Str.splitOn sep (a +:+ String c b) = a :: Str.splitOn sep b.
Proof.
  intros Ha Hc. induction a as [|x a IH].
  - cbv [append]. cbn [Str.splitOn]. rewrite Hc. reflexivity.
  - cbn [all] in Ha. apply andb_true_iff in Ha. destruct Ha as [Hx Ha].
    apply negb_true_iff in Hx.
    cbv [append]. fold append. cbn [Str.splitOn]. rewrite Hx, (IH Ha). reflexivity.
Qed.

Lemma cleanLine_spec x :
  cleanLine x = true <->
  x <> "" /\ Str.trim x = x /\ all (fun c => negb (isLineSep c)) x = true.
Proof.
  unfold cleanLine, Str.truthy.
  rewrite !andb_true_iff, negb_true_iff, isEmpty_false, String.eqb_eq. tauto.
Qed.

Lemma trim_spaces_clean w x :
  all Char.isSpace w = true -> Str.trim x = x -> Str.trim (w +:+ x) = x.
Proof.
  intros Hw Hx. unfold Str.trim in *. rewrite trimStart_spaces by exact Hw. exact Hx.
Qed.

(** Splitting what [join] made of clean lines gives the lines back. *)
Lemma parseLines_join xs :
  Forall (fun x => cleanLine x = true) xs ->
  forall w, all Char.isSpace w = true ->
            all (fun c => negb (isLineSep c)) w = true ->
  parseLines (w +:+ Str.join "; " xs) = xs.
Proof.
  induction xs as [|x xs IH]; intros Hxs w Hw Hw'.
  - cbn [Str.join]. rewrite app_empty_r. unfold parseLines.
    rewrite splitOn_whole by exact Hw'. cbn [List.map List.filter].
    apply trim_empty_iff in Hw. rewrite Hw. reflexivity.
  - inversion Hxs as [|? ? Hx Hxs']; subst.
    apply cleanLine_spec in Hx. destruct Hx as (Hne & Htr & Hns).
    assert (Str.truthy (Str.trim (w +:+ x)) = true) as T.
    { rewrite trim_spaces_clean by assumption. destruct x; [congruence | reflexivity]. }
    destruct xs as [|y r].
    + cbn [Str.join]. unfold parseLines.
      rewrite splitOn_whole by (rewrite all_app, Hw', Hns; reflexivity).
      cbn [List.map List.filter]. rewrite T, trim_spaces_clean by assumption.
      reflexivity.
    + change (Str.join "; " (x :: y :: r))
        with (x +:+ String ";" (" " +:+ Str.join "; " (y :: r))).
      rewrite <- app_assoc_string. unfold parseLines.
      rewrite splitOn_app_sep
        by (try rewrite all_app, Hw', Hns; reflexivity).
      cbn [List.map List.filter]. rewrite T, trim_spaces_clean by assumption.
      f_equal. apply (IH Hxs' " "); reflexivity.
Qed.

Lemma truthy_nonempty s : s <> "" -> Str.truthy s = true.
Proof. destruct s; [congruence | reflexivity]. Qed.

Lemma join_nonempty x xs : x <> "" -> Str.join "; " (x :: xs) <> "".
Proof.
  intros H. destruct xs; cbn [Str.join]; [exact H|].
  destruct x; [congruence | discriminate].
Qed.

(** The pieces of a split are all blank exactly when the text is made of
    separators and white space. *)
Lemma splitOn_blank sep s :
  List.Forall (fun x => all Char.isSpace x = true) (Str.splitOn sep s)
  <-> all (fun c => sep c || Char.isSpace c) s = true.
Proof.
  induction s as [|c r IH]; cbn [Str.splitOn all].
  - split; [reflexivity | repeat constructor].
  - destruct (sep c) eqn:E; cbn [orb andb].
    + rewrite <- IH. split.
      * intros H. inversion H; assumption.
      * intros H. constructor; [reflexivity | exact H].
    + destruct (Str.splitOn sep r) as [|w ws].
      * rewrite andb_true_iff, <- IH. split.
        -- intros H. inversion H as [|? ? Hc _]; subst. cbn [all] in Hc.
           apply andb_true_iff in Hc. split; [apply Hc | constructor].
        -- intros [Hc _]. repeat constructor. cbn [all]. rewrite Hc. reflexivity.
      * rewrite andb_true_iff, <- IH. split.
        -- intros H. inversion H as [|? ? Hc Hws]; subst. cbn [all] in Hc.
           apply andb_true_iff in Hc. destruct Hc as [Hc Hw].
           split; [exact Hc | constructor; assumption].
        -- intros [Hc H]. inversion H as [|? ? Hw Hws]; subst.
           constructor; [|assumption]. cbn [all]. rewrite Hc, Hw. reflexivity.
Qed.

Lemma kept_lines_nil l :
  List.filter Str.truthy (List.map Str.trim l) = []
  <-> List.Forall (fun x => all Char.isSpace x = true) l.
Proof.
  induction l as [|x l IH]; cbn [List.map List.filter].
  - split; [constructor | reflexivity].
  - unfold Str.truthy at 1. destruct (Str.trim x) eqn:E; cbn [Str.isEmpty negb].
    + rewrite IH. apply trim_empty_iff in E. split.
      * intros H. constructor; assumption.
      * intros H. inversion H; assumption.
    + split; [discriminate|]. intros H. inversion H as [|? ? Hx _]; subst.
      apply trim_empty_iff in Hx. congruence.
Qed.

End Lines.

(** X14.  [parseLines] returns clean lines only: for every text, no line it
    returns is empty, none has white space at either end, and none contains
    a comma, a semicolon or a line feed.  It returns no line at all exactly
    for the texts made of commas, semicolons, line feeds and white space
    only, the empty text among them. *)
Theorem parseLines_clean :
  (forall (s x : string), In x (parseLines s) ->
     x <> "" /\ Str.trim x = x /\ all (fun c => negb (isLineSep c)) x = true)
  /\ (forall s : string,
        parseLines s = [] <-> all (fun c => isLineSep c || Char.isSpace c) s = true)
  /\ parseLines "" = []
  /\ parseLines " , ;; " = [].
Proof.
  split; [|split; [|split; reflexivity]].
  - intros s x H. unfold parseLines in H. apply filter_In in H. destruct H as [H T].
    apply in_map_iff in H. destruct H as (p & <- & Hp).
    pose proof (splitOn_pieces isLineSep s) as F. rewrite Forall_forall in F.
    specialize (F p (proj2 (list_elem_of_In _ _) Hp)). repeat split.
    + unfold Str.truthy in T. apply negb_true_iff, isEmpty_false in T. exact T.
    + apply trim_idem.
    + apply all_trim, F.
  - intros s. unfold parseLines. rewrite kept_lines_nil. apply splitOn_blank.
Qed.

Lemma parseLines_clean_witness :
  ("Aspirin 75 mg" <> "" /\ Str.trim "Aspirin 75 mg" = "Aspirin 75 mg"
   /\ all (fun c => negb (isLineSep c)) "Aspirin 75 mg" = true)
  /\ parseLines " ;, ; " = []
  /\ parseLines " a, " <> [].
Proof.
  destruct parseLines_clean as (Hclean & Hnone & _).
  split.
  - apply (Hclean " Aspirin 75 mg ;; Statin, " "Aspirin 75 mg").
    simpl. left. reflexivity.
  - split.
    + apply (proj2 (Hnone " ;, ; ")). reflexivity.
    + intros E. apply (proj1 (Hnone " a, ")) in E. discriminate E.
Defined.

(** X15.  Lists survive the handover form.  A list of clean lines (not
    empty, trimmed, free of comma, semicolon and line feed) that is joined
    with "; ", as the mapping handlers fill the form, is split by
    [parseLines] into the same list.  Hence, when the outgoing mapping
    service returns a non-empty list of clean medications, the list that the
    save handlers build from the mapped form is the list of the service. *)
Theorem parseLines_inverts_join :
  (forall xs : list string,
     Forall (fun x => cleanLine x = true) xs ->
     parseLines (Str.join "; " xs) = xs)
  /\ (forall (m : OutgoingReply) (text : string) (formData : HandoverData)
             (xs : list string),
        out_medications m = Some xs -> xs <> [] ->
        Forall (fun x => cleanLine x = true) xs ->
        parseLines (medsGiven (outgoingUpdate (Some m) text formData)) = xs).
Proof.
  assert (forall xs, Forall (fun x => cleanLine x = true) xs ->
                     parseLines (Str.join "; " xs) = xs) as H.
  { intros xs Hxs. apply (parseLines_join xs Hxs ""); reflexivity. }
  split; [exact H|].
  intros m text formData xs Hm Hne Hxs.
  cbn [outgoingUpdate medsGiven mbind option_bind]. rewrite Hm.
  unfold joined. change (default [] (Some xs)) with xs.
  destruct xs as [|x r]; [congruence|].
  inversion Hxs as [|? ? Hx _]; subst. apply cleanLine_spec in Hx.
  unfold Str.or at 1.
  rewrite (truthy_nonempty _ (join_nonempty x r (proj1 Hx))).
  apply H, Hxs.
Qed.

Lemma parseLines_inverts_join_witness :
  parseLines (Str.join "; " ["Aspirin 75 mg"; "Atorvastatin"])
  = ["Aspirin 75 mg"; "Atorvastatin"].
Proof.
  apply (proj1 parseLines_inverts_join ["Aspirin 75 mg"; "Atorvastatin"]).
  repeat constructor.
Defined.

(** ** Captures of the vital-sign patterns *)

Section Captures.

(** What a successful greedy repetition has consumed. *)
Lemma rep_inv {R} p s : forall lo hi pos (k : string -> nat -> option R) x,
  rep p lo hi s pos k = Some x ->
  exists n, (lo <= n <= String.length s)%nat
            /\ all p (String.substring 0 n s) = true
            /\ k (Str.drop n s) (pos + n)%nat = Some x.
Proof.
  induction s as [|c s IH]; intros lo hi pos k x H.
  - assert ((if (lo =? 0)%nat then k "" pos else None) = Some x) as H'
      by (destruct hi as [[|?]|]; exact H).
    destruct (Nat.eqb_spec lo 0); [|discriminate]. subst lo.
    exists 0%nat. rewrite Nat.add_0_r. repeat split; simpl; auto.
  - assert (stop : (if (lo =? 0)%nat then k (String c s) pos else None) = Some x ->
                   exists n, (lo <= n <= String.length (String c s))%nat
                     /\ all p (String.substring 0 n (String c s)) = true
                     /\ k (Str.drop n (String c s)) (pos + n)%nat = Some x).
    { intros E. destruct (Nat.eqb_spec lo 0); [|discriminate]. subst lo.
      exists 0%nat. rewrite Nat.add_0_r. repeat split; simpl; auto; lia. }
    cbn [rep] in H.
    assert ((if p c
             then match rep p (Nat.pred lo) (option_map Nat.pred hi) s (S pos) k with
                  | Some y => Some y
                  | None => if (lo =? 0)%nat then k (String c s) pos else None
                  end
             else if (lo =? 0)%nat then k (String c s) pos else None) = Some x
            \/ (if (lo =? 0)%nat then k (String c s) pos else None) = Some x) as [H'|H'].
    { destruct hi as [[|?]|]; auto. }
    2:{ apply stop, H'. }
    destruct (p c) eqn:Pc; [|apply stop, H'].
    destruct (rep p (Nat.pred lo) (option_map Nat.pred hi) s (S pos) k) as [y|] eqn:E;
      [|apply stop, H'].
    injection H' as ->. apply IH in E. destruct E as (n & Hn & Ha & Hk).
    exists (S n). cbn [String.substring Str.drop all String.length].
    rewrite Pc, Ha. replace (pos + S n)%nat with (S pos + n)%nat by lia.
    repeat split; auto; lia.
Qed.

Lemma substring_prefix_nonempty n s :
  (1 <= n <= String.length s)%nat -> String.substring 0 n s <> "".
Proof. destruct n, s; simpl; intros H; try lia; discriminate. Qed.

(** A match found by [exec] is a match at some offset. *)
Lemma execFrom_inv r s : forall pos m,
  execFrom r s pos = Some m -> exists s' pos', matchAt r s' pos' = Some m.
Proof.
  induction s as [|c s IH]; intros pos m H; cbn [execFrom] in H.
  - destruct (matchAt r "" pos) eqn:E; [|discriminate]. injection H as ->. eauto.
  - destruct (matchAt r (String c s) pos) eqn:E.
    + injection H as ->. eauto.
    + apply IH in H. exact H.
Qed.

(** The capture of [word \s* (\d+)] is a run of digits that is not empty. *)
Lemma word_number_capture w s m :
  exec (Cat [Lit true w; HandoverRe.ws; Grp HandoverRe.num]) s = Some m ->
  group m 1 <> "" /\ all Char.isDigit (group m 1) = true.
Proof.
  unfold exec. intros H. apply execFrom_inv in H. destruct H as (s' & pos' & H).
  unfold matchAt in H. cbn [Cat run] in H.
  destruct (stripLit true w s') as [s1|]; [|discriminate].
  unfold HandoverRe.ws, HandoverRe.num, Star, Plus in H. cbn [run] in H.
  apply rep_inv in H. destruct H as (n1 & _ & _ & H).
  apply rep_inv in H. destruct H as (n2 & Hn & Ha & H).
  injection H as <-. unfold group. cbn [groups Nat.sub nth app].
  match goal with |- context [String.substring 0 ?k ?t] =>
    replace k with n2 by lia end.
  split; [apply substring_prefix_nonempty; lia | exact Ha].
Qed.

End Captures.

(** ** The nurse-handover page: what the mapping handlers keep *)

Section HandoverInvariants.




Lemma hr_capture vitalSigns r :
  orMatch (exec HandoverRe.hr1 vitalSigns)
    (orMatch (exec HandoverRe.hr2 vitalSigns) (exec HandoverRe.hr1 vitalSigns)) = Some r ->
  group r 1 <> "" /\ all Char.isDigit (group r 1) = true.
Proof.
  unfold orMatch. intros H.
  destruct (exec HandoverRe.hr1 vitalSigns) eqn:E1.
  - injection H as <-. exact (word_number_capture _ _ _ E1).
  - destruct (exec HandoverRe.hr2 vitalSigns) eqn:E2; [|discriminate].
    injection H as <-. exact (word_number_capture _ _ _ E2).
Qed.





End HandoverInvariants.





(** X18.  The oxygen saturation that the outgoing handler writes.  Whatever
    the reply and the transcript, the saturation field of the updated form
    is either the previous one or the decimal text of a whole number between
    0 and 100; read back as a number, as the save handlers do, it gives that
    number.  The heart rate is either the previous one or a run of decimal
    digits that is not empty.  [clamp] itself returns a number between its
    bounds whenever the lower bound does not exceed the upper one, and
    returns its argument when that lies between them. *)
Theorem outgoing_vitals_in_range
    (m : option OutgoingReply) (text : string) (formData : HandoverData) :
  let after := vitals (outgoingUpdate m text formData) in
  (spo2 after = spo2 (vitals formData)
   \/ exists n : Z, (0 <= n <= 100)%Z /\ spo2 after = Num.toString n
                    /\ Num.ofDigits (spo2 after) = n)
  /\ (hr after = hr (vitals formData)
      \/ (hr after <> "" /\ all Char.isDigit (hr after) = true))
  /\ (forall n lo hi : Z, (lo <= hi)%Z -> (lo <= Num.clamp n lo hi <= hi)%Z)
  /\ (forall n lo hi : Z, (lo <= n <= hi)%Z -> Num.clamp n lo hi = n).
Proof.
  cbv zeta. cbn [outgoingUpdate vitals spo2 hr]. repeat apply conj.
  - destruct (orMatch _ _) as [r|]; [right | left; reflexivity].
    exists (Num.clamp (Num.ofDigits (group r 1)) 0 100).
    assert (0 <= Num.clamp (Num.ofDigits (group r 1)) 0 100 <= 100)%Z as B
      by (unfold Num.clamp; lia).
    repeat split; try lia. apply ofDigits_toString. lia.
  - destruct (orMatch _ _) as [r|] eqn:E; [right | left; reflexivity].
    exact (hr_capture _ _ E).
  - intros n lo hi H. unfold Num.clamp. lia.
  - intros n lo hi H. unfold Num.clamp. lia.
Qed.

Lemma outgoing_vitals_in_range_witness :
  (0 <= Num.clamp 250 0 100 <= 100)%Z /\ Num.clamp 97 0 100 = 97%Z.
Proof.
  pose proof (outgoing_vitals_in_range None "" initialData) as (_ & _ & H1 & H2).
  split; [apply H1 | apply H2]; lia.
Defined.
(** ** The recorder component *)

Section RecorderFacts.

Variable JSON_parse : string -> value + string.

Lemma deliverTranscript_callbacks v :
  exists t, callbacks (deliverTranscript v) = [OnTranscript t; OnTranscribe t]
            /\ Str.trim t = t.
Proof.
  destruct v as [| |b|n|s|l|o]; cbn [deliverTranscript Value.truthy];
    try (exists ""; split; reflexivity).
  - destruct b; exists ""; split; reflexivity.
  - destruct (negb (n =? 0)%Z); exists ""; split; reflexivity.
  - destruct (Str.truthy s && Str.truthy (Str.trim s)).
    + exists (Str.trim s). split; [reflexivity | apply trim_idem].
    + exists "". split; reflexivity.
Qed.

Lemma callbacks_app a b : callbacks (a ++ b)%list = (callbacks a ++ callbacks b)%list.
Proof. unfold callbacks. apply List.filter_app. Qed.

Lemma deliversOnce_cons e l t :
  callbacks [e] = [] -> deliversOnce l t -> deliversOnce (e :: l) t.
Proof.
  intros He (pre & post & -> & Hpre & Hpost). exists (e :: pre), post.
  split; [reflexivity|]. split; [|exact Hpost].
  change (e :: pre) with ([e] ++ pre)%list. rewrite callbacks_app, He, Hpre. reflexivity.
Qed.

Lemma deliversOnce_here t post :
  callbacks post = [] -> deliversOnce (OnTranscript t :: OnTranscribe t :: post) t.
Proof. intros H. exists [], post. repeat split. exact H. Qed.

Lemma deliversOnce_callbacks l t :
  deliversOnce l t -> callbacks l = [OnTranscript t; OnTranscribe t].
Proof.
  intros (pre & post & -> & Hpre & Hpost).
  rewrite !callbacks_app, Hpre, Hpost. reflexivity.
Qed.

(** The text that the delivery of lines 410-423 hands over: the trimmed
    transcript when it is a string, the empty string for any other value. *)
Lemma deliverTranscript_once v post :
  callbacks post = [] ->
  deliversOnce (deliverTranscript v ++ post)%list
               (match v with VStr x => Str.trim x | _ => "" end).
Proof.
  intros Hpost.
  assert (forall m, deliversOnce (processAudioCatch "TypeError" m ++ post)%list "") as Hcatch.
  { intros m. apply deliversOnce_cons; [reflexivity|]. apply deliversOnce_here, Hpost. }
  assert (deliversOnce
            ([OnTranscript ""; OnTranscribe "";
              SetLocalText "No transcript received from server"] ++ post)%list "") as Hnone.
  { apply deliversOnce_here. exact Hpost. }
  destruct v as [| |b|n|s|l|o]; cbn [deliverTranscript Value.truthy];
    try exact Hnone; try apply Hcatch.
  - destruct b; [apply Hcatch | exact Hnone].
  - destruct (negb (n =? 0)%Z); [apply Hcatch | exact Hnone].
  - unfold Str.truthy. destruct s as [|c s]; [exact Hnone|].
    cbn [Str.isEmpty negb andb].
    destruct (Str.trim (String c s)) eqn:E; cbn [Str.isEmpty negb].
    + exact Hnone.
    + apply deliversOnce_here. exact Hpost.
Qed.

End RecorderFacts.

(** X19.  What a run of the transcription step tells the parent component.
    In every run the two callbacks are called at most once each, one right
    after the other in the run and with the same text, which has no white
    space at either end.  They are not called at all in exactly one case: a
    blob that is not empty, transcription enabled, and a response whose
    status is outside 200..299.  In every other run the text is: the empty
    string for an empty blob, for a rejected request and for a timed-out
    request; the placeholder "Audio recorded (transcription disabled)" when
    transcription is disabled; and for a response that is ok, the trimmed
    transcript when the transcript is a string, which is the empty string
    for a blank one, and the empty string when it is any other value. *)
Theorem processAudio_callbacks
    (JSON_parse : string -> value + string) (enableTranscription : bool)
    (apiBase : string) (net : FetchOutcome) (size : nat) :
  let trace := processAudio JSON_parse enableTranscription apiBase net size in
  (if negb (size =? 0)%nat && enableTranscription && refused net
   then callbacks trace = []
   else exists t, deliversOnce trace t
                  /\ callbacks trace = [OnTranscript t; OnTranscribe t]
                  /\ Str.trim t = t)
  /\ (size = 0%nat -> deliversOnce trace "")
  /\ (size <> 0%nat -> enableTranscription = false ->
      deliversOnce trace "Audio recorded (transcription disabled)")
  /\ (size <> 0%nat -> enableTranscription = true ->
      (net = FetchTimesOut \/ exists name message, net = FetchRejects name message) ->
      deliversOnce trace "")
  /\ (forall (status : nat) (body : string),
        size <> 0%nat -> enableTranscription = true ->
        net = FetchResponds status body -> responseOk status = true ->
        deliversOnce trace
          (match extractTranscript (safeJson JSON_parse body) with
           | VStr x => Str.trim x
           | _ => ""
           end)).
Proof.
  cbv zeta.
  assert (size = 0%nat ->
          deliversOnce (processAudio JSON_parse enableTranscription apiBase net size) "")
    as Hempty.
  { intros ->. unfold processAudio. cbn [Nat.eqb app].
    repeat (apply deliversOnce_cons; [reflexivity|]). apply deliversOnce_here. reflexivity. }
  assert (size <> 0%nat -> enableTranscription = false ->
          deliversOnce (processAudio JSON_parse enableTranscription apiBase net size)
                       "Audio recorded (transcription disabled)") as Hoff.
  { intros Hs ->. unfold processAudio. destruct size; [congruence|]. cbn [Nat.eqb negb app].
    repeat (apply deliversOnce_cons; [reflexivity|]). apply deliversOnce_here. reflexivity. }
  assert (size <> 0%nat -> enableTranscription = true ->
          (net = FetchTimesOut \/ exists name message, net = FetchRejects name message) ->
          deliversOnce (processAudio JSON_parse enableTranscription apiBase net size) "")
    as Hfail.
  { intros Hs -> Hn. unfold processAudio. destruct size; [congruence|].
    cbn [Nat.eqb negb app].
    destruct Hn as [-> | (name & message & ->)]; cbn [app processAudioCatch];
      repeat (apply deliversOnce_cons; [reflexivity|]); apply deliversOnce_here; reflexivity. }
  assert (forall status body,
            size <> 0%nat -> enableTranscription = true ->
            net = FetchResponds status body -> responseOk status = true ->
            deliversOnce (processAudio JSON_parse enableTranscription apiBase net size)
              (match extractTranscript (safeJson JSON_parse body) with
               | VStr x => Str.trim x
               | _ => ""
               end)) as Hok.
  { intros status body Hs -> -> Hr. unfold processAudio. destruct size; [congruence|].
    cbn [Nat.eqb negb app]. rewrite Hr. cbn [negb].
    repeat (apply deliversOnce_cons; [reflexivity|]).
    apply deliverTranscript_once. reflexivity. }
  split; [|split; [exact Hempty | split; [exact Hoff | split; [exact Hfail | exact Hok]]]].
  destruct size as [|size]; cbn [Nat.eqb negb andb].
  { exists "". split; [apply Hempty; reflexivity|].
    split; [apply deliversOnce_callbacks, Hempty; reflexivity | reflexivity]. }
  destruct enableTranscription; cbn [negb andb].
  2:{ exists "Audio recorded (transcription disabled)".
      split; [apply Hoff; congruence|].
      split; [apply deliversOnce_callbacks, Hoff; congruence | reflexivity]. }
  destruct net as [name message| |status body]; cbn [refused].
  - exists "". split; [apply Hfail; eauto|].
    split; [apply deliversOnce_callbacks, Hfail; eauto | reflexivity].
  - exists "". split; [apply Hfail; auto|].
    split; [apply deliversOnce_callbacks, Hfail; auto | reflexivity].
  - destruct (responseOk status) eqn:Hr; cbn [negb].
    + eexists. split; [apply (Hok status body); auto|].
      split; [apply deliversOnce_callbacks, (Hok status body); auto|].
      destruct (extractTranscript (safeJson JSON_parse body)); try reflexivity.
      apply trim_idem.
    + unfold processAudio. cbn [Nat.eqb negb app]. rewrite Hr. reflexivity.
Qed.

Lemma processAudio_callbacks_witness :
  let reply : value := VObj {[ "text" := VStr "  BP 120/80  " ]} in
  deliversOnce (processAudio (parsesTo reply) true "http://localhost:8000"
                  (FetchResponds 200 "{}") 2048) "BP 120/80"
  /\ deliversOnce (processAudio rejectAll true "http://localhost:8000"
                     (FetchResponds 200 "<html>") 2048) ""
  /\ deliversOnce (processAudio rejectAll true "http://localhost:8000"
                     FetchTimesOut 2048) ""
  /\ deliversOnce (processAudio rejectAll false "http://localhost:8000"
                     FetchTimesOut 2048) "Audio recorded (transcription disabled)"
  /\ deliversOnce (processAudio rejectAll true "http://localhost:8000"
                     FetchTimesOut 0) "".
Proof.
  cbv zeta. split; [|split; [|split; [|split]]].
  - pose proof (processAudio_callbacks (parsesTo (VObj {[ "text" := VStr "  BP 120/80  " ]}))
                  true "http://localhost:8000" (FetchResponds 200 "{}") 2048)
      as (_ & _ & _ & _ & H).
    exact (H 200%nat "{}" ltac:(discriminate) eq_refl eq_refl eq_refl).
  - pose proof (processAudio_callbacks rejectAll true "http://localhost:8000"
                  (FetchResponds 200 "<html>") 2048) as (_ & _ & _ & _ & H).
    exact (H 200%nat "<html>" ltac:(discriminate) eq_refl eq_refl eq_refl).
  - pose proof (processAudio_callbacks rejectAll true "http://localhost:8000"
                  FetchTimesOut 2048) as (_ & _ & _ & H & _).
    exact (H ltac:(discriminate) eq_refl (or_introl eq_refl)).
  - pose proof (processAudio_callbacks rejectAll false "http://localhost:8000"
                  FetchTimesOut 2048) as (_ & _ & H & _).
    exact (H ltac:(discriminate) eq_refl).
  - pose proof (processAudio_callbacks rejectAll true "http://localhost:8000"
                  FetchTimesOut 0) as (_ & H & _).
    exact (H eq_refl).
Defined.

(** X20.  How a run of the transcription step cleans up.  Every run ends by
    setting the processing flag to false and the processing time to 0, and
    false is the last value the flag gets.  The processing timer is cleared
    exactly as often as it is started, and the 120-second timeout is armed
    exactly when the request is sent.  The timeout is disarmed only when the
    request gets a response: when the request is rejected it stays armed. *)
Theorem processAudio_cleanup
    (JSON_parse : string -> value + string) (enableTranscription : bool)
    (apiBase : string) (net : FetchOutcome) (size : nat) :
  let trace := processAudio JSON_parse enableTranscription apiBase net size in
  lastIsProcessing trace = Some false
  /\ (exists before,
        trace = (before ++ [SetIsProcessing false; SetProcessingTime 0]
                 ++ (if existsb isFetch trace then [ClearProcessingTimer] else []))%list)
  /\ occurrences isStartProcessingTimer trace = occurrences isClearProcessingTimer trace
  /\ existsb isStartTimeout trace = existsb isFetch trace
  /\ existsb isClearTimeout trace = existsb isFetch trace && responded net.
Proof.
  cbv zeta. unfold processAudio. cbv zeta.
  destruct size as [|size]; cbn [Nat.eqb negb].
  { repeat split.
    match goal with |- exists before, ?t = _ =>
      exists (firstn (List.length t - 2) t) end.
    reflexivity. }
  destruct enableTranscription; cbn [negb].
  2:{ repeat split.
      match goal with |- exists before, ?t = _ =>
        exists (firstn (List.length t - 2) t) end.
      reflexivity. }
  set (finally_ := [SetIsProcessing false; SetProcessingTime 0; ClearProcessingTimer]).
  assert (forall mid : list Effect,
            existsb isFetch mid = false ->
            occurrences isStartProcessingTimer mid = 0%nat ->
            occurrences isClearProcessingTimer mid = 0%nat ->
            existsb isStartTimeout mid = false ->
            let trace :=
              ([SetIsProcessing true; SetErr None; SetProcessingTime 0]
               ++ ([StartProcessingTimer; StartTimeout 120000;
                    Fetch (apiBase +:+ "/api/transcribe") "rec.webm" "auto"]
                   ++ mid ++ finally_))%list in
            lastIsProcessing trace = Some false
            /\ (exists before,
                  trace = (before ++ [SetIsProcessing false; SetProcessingTime 0]
                           ++ (if existsb isFetch trace then [ClearProcessingTimer]
                               else []))%list)
            /\ occurrences isStartProcessingTimer trace
               = occurrences isClearProcessingTimer trace
            /\ existsb isStartTimeout trace = existsb isFetch trace
            /\ existsb isClearTimeout trace
               = existsb isFetch trace && existsb isClearTimeout mid) as G.
  { intros mid Hf Hs Hc Ht. cbv zeta. repeat apply conj.
    - unfold lastIsProcessing. rewrite !foldl_app. reflexivity.
    - exists ([SetIsProcessing true; SetErr None; SetProcessingTime 0;
               StartProcessingTimer; StartTimeout 120000;
               Fetch (apiBase +:+ "/api/transcribe") "rec.webm" "auto"] ++ mid)%list.
      cbn [app existsb isFetch orb]. reflexivity.
    - unfold occurrences in *. cbn [app List.filter isStartProcessingTimer
                                   isClearProcessingTimer List.length].
      rewrite !List.filter_app, !length_app, Hs, Hc. reflexivity.
    - reflexivity.
    - cbn [app existsb isClearTimeout isFetch orb andb].
      rewrite existsb_app. cbn. rewrite orb_false_r. reflexivity. }
  destruct net as [name message| |status body]; cbn [responded].
  - rewrite andb_false_r. apply (G (processAudioCatch name message)); reflexivity.
  - rewrite andb_false_r.
    apply (G ([AbortRequest;
               SetErr (Some "Transcription timed out (120s). Please try recording again with clearer audio.");
               SetIsProcessing false]
              ++ processAudioCatch "AbortError" "The operation was aborted.")%list);
      reflexivity.
  - rewrite andb_true_r.
    assert (forall v, existsb isFetch (deliverTranscript v) = false
                      /\ occurrences isStartProcessingTimer (deliverTranscript v) = 0%nat
                      /\ occurrences isClearProcessingTimer (deliverTranscript v) = 0%nat
                      /\ existsb isStartTimeout (deliverTranscript v) = false) as D.
    { intros v. destruct v as [| |b|n|s|l|o]; cbn [deliverTranscript Value.truthy];
        try (repeat split; reflexivity).
      - destruct b; repeat split; reflexivity.
      - destruct (negb (n =? 0)%Z); repeat split; reflexivity.
      - destruct (Str.truthy s && Str.truthy (Str.trim s)); repeat split; reflexivity. }
    destruct (responseOk status); cbn [negb].
    + destruct (D (extractTranscript (safeJson JSON_parse body))) as (D1 & D2 & D3 & D4).
      pose proof (G (ClearTimeout :: deliverTranscript (extractTranscript (safeJson JSON_parse body))))
        as G'.
      cbv zeta in G'. cbn [existsb isClearTimeout orb andb] in G'.
      apply G'; assumption.
    + apply (G [ClearTimeout; SetErr (Some (statusMessage status)); SetIsProcessing false]);
        reflexivity.
Qed.

Section ClockAndChunks.

Lemma tick_started maxDuration (n : nat) :
  (0 <= maxDuration)%Z ->
  Nat.iter n (tick maxDuration) started
  = {| duration := Z.min (Z.of_nat n) maxDuration;
       isRecording := (Z.of_nat n <=? maxDuration)%Z |}.
Proof.
  intros H. induction n as [|n IH].
  - cbn [Nat.iter nat_rect]. unfold started. f_equal.
    + lia.
    + symmetry. apply Z.leb_le. lia.
  - change (Nat.iter (S n) (tick maxDuration) started)
      with (tick maxDuration (Nat.iter n (tick maxDuration) started)).
    rewrite IH. unfold tick, timerTick. cbn [isRecording duration].
    destruct (Z.leb_spec (Z.of_nat (S n)) maxDuration) as [S1|S1];
      destruct (Z.leb_spec (Z.of_nat n) maxDuration) as [L|L]; try lia;
      try destruct (Z.leb_spec maxDuration (Z.min (Z.of_nat n) maxDuration)) as [L'|L'];
      try lia; cbn [negb]; f_equal; lia.
Qed.

Lemma foldl_onDataAvailable events : forall chunks,
  foldl onDataAvailable chunks events
  = (chunks ++ List.filter (fun n => (0 <? n)%nat) events)%list.
Proof.
  induction events as [|e events IH]; intros chunks; cbn [foldl List.filter].
  - rewrite app_nil_r. reflexivity.
  - rewrite IH. unfold onDataAvailable. destruct (0 <? e)%nat; [|reflexivity].
    rewrite <- app_assoc. reflexivity.
Qed.

Lemma list_sum_positive events :
  list_sum (List.filter (fun n => (0 <? n)%nat) events) = list_sum events.
Proof.
  induction events as [|e events IH]; [reflexivity|]. cbn [List.filter].
  destruct (Nat.ltb_spec 0 e); simpl; lia.
Qed.

Lemma list_sum_zero events :
  list_sum events = 0%nat <-> existsb (fun n => (0 <? n)%nat) events = false.
Proof.
  induction events as [|e events IH]; [simpl; tauto|].
  change (list_sum (e :: events)) with (e + list_sum events)%nat. cbn [existsb].
  rewrite orb_false_iff, <- IH, Nat.ltb_ge. lia.
Qed.

Lemma digitsValueFrom_zeros k t :
  Num.digitsValueFrom 0 (Str.replicate k "0" +:+ t) = Num.digitsValueFrom 0 t.
Proof. induction k as [|k IH]; [reflexivity|]. exact IH. Qed.

Lemma ofDigits_padStart k n :
  (0 <= n)%Z -> Num.ofDigits (Str.padStart k "0" (Num.toString n)) = n.
Proof.
  intros H. unfold Num.ofDigits, Str.padStart. rewrite digitsValueFrom_zeros.
  apply ofDigits_toString, H.
Qed.

End ClockAndChunks.

(** X21.  The recording clock.  With a maximum duration that is not
    negative, after [n] firings of the one-second interval since the start
    of a recording the displayed duration is the smaller of [n] and the
    maximum, so it never exceeds the maximum; the recording is still running
    exactly when [n] does not exceed the maximum.  Hence the firing that
    stops the recording is the one numbered maximum plus one. *)
Theorem recording_clock (maxDuration : Z) (n : nat) :
  (0 <= maxDuration)%Z ->
  let st := Nat.iter n (tick maxDuration) started in
  duration st = Z.min (Z.of_nat n) maxDuration
  /\ (0 <= duration st <= maxDuration)%Z
  /\ isRecording st = (Z.of_nat n <=? maxDuration)%Z
  /\ (isRecording st = false <-> (maxDuration + 1 <= Z.of_nat n)%Z).
Proof.
  intros H. cbv zeta. rewrite tick_started by exact H. cbn [duration isRecording].
  repeat split; lia.
Qed.

Lemma recording_clock_witness :
  isRecording (Nat.iter 60 (tick 60) started) = true
  /\ isRecording (Nat.iter 61 (tick 60) started) = false
  /\ duration (Nat.iter 61 (tick 60) started) = 60%Z.
Proof.
  pose proof (recording_clock 60 60 ltac:(lia)) as (_ & _ & A & _).
  pose proof (recording_clock 60 61 ltac:(lia)) as (B & _ & C & _).
  cbv zeta in *. rewrite A, B, C. repeat split.
Defined.

(** X22.  From the data events of a recording to the request.  The blob
    that the recorder hands to the transcription step has the total size of
    all data events: the empty chunks that it drops add nothing.  With
    transcription enabled, the request to the transcription service is sent
    exactly when at least one data event carried data; when every event was
    empty, or there was none, no request is sent; with transcription
    disabled no request is ever sent. *)
Theorem recorded_chunks_decide_request
    (JSON_parse : string -> value + string) (apiBase : string)
    (net : FetchOutcome) (events : list nat) :
  blobSize (foldl onDataAvailable [] events) = list_sum events
  /\ Forall (fun c => (0 < c)%nat) (foldl onDataAvailable [] events)
  /\ existsb isFetch (recorderOnStop JSON_parse true apiBase net events)
     = existsb (fun n => (0 <? n)%nat) events
  /\ existsb isFetch (recorderOnStop JSON_parse false apiBase net events) = false.
Proof.
  unfold recorderOnStop, blobSize. rewrite foldl_onDataAvailable. cbn [app].
  rewrite list_sum_positive. repeat apply conj.
  - reflexivity.
  - apply List.Forall_forall. intros c Hc. apply filter_In in Hc.
    destruct Hc as [_ Hc]. apply Nat.ltb_lt, Hc.
  - destruct (existsb (fun n => (0 <? n)%nat) events) eqn:E.
    + apply nonempty_audio_fetches. intros Z. apply list_sum_zero in Z. congruence.
    + apply list_sum_zero in E. rewrite E. reflexivity.
  - unfold processAudio. destruct (list_sum events); reflexivity.
Qed.

(** X23.  [formatTime] shows a duration that is not negative as minutes, a
    colon and seconds, the seconds always with two digits and below 60; the
    duration can be read back: minutes times 60 plus seconds. *)
Theorem formatTime_round_trip (seconds : Z) :
  (0 <= seconds)%Z ->
  exists mins secs : string,
    formatTime seconds = mins +:+ ":" +:+ secs
    /\ mins <> "" /\ all Char.isDigit mins = true
    /\ String.length secs = 2%nat /\ all Char.isDigit secs = true
    /\ (Num.ofDigits secs < 60)%Z
    /\ (Num.ofDigits mins * 60 + Num.ofDigits secs = seconds)%Z.
Proof.
  intros H. unfold formatTime.
  assert (0 <= seconds / 60)%Z as Hm by (apply Z.div_pos; lia).
  assert (Z.rem seconds 60 = seconds mod 60)%Z as R by (apply Z.rem_mod_nonneg; lia).
  pose proof (Z.mod_pos_bound seconds 60 ltac:(lia)) as B.
  exists (Num.toString (seconds / 60)), (Str.padStart 2 "0" (Num.toString (Z.rem seconds 60))).
  rewrite R.
  destruct (pad2_shape (seconds mod 60) ltac:(lia)) as (a & b & E & Da & Db).
  unfold Date.pad in E.
  repeat apply conj.
  - reflexivity.
  - apply toString_nonempty.
  - apply toString_digits, Hm.
  - rewrite E. reflexivity.
  - rewrite E. cbn [all]. rewrite Da, Db. reflexivity.
  - rewrite ofDigits_padStart by lia. lia.
  - rewrite ofDigits_padStart, ofDigits_toString by lia.
    pose proof (Z.div_mod seconds 60 ltac:(lia)). lia.
Qed.

Lemma formatTime_round_trip_witness :
  exists mins secs : string,
    formatTime 125 = mins +:+ ":" +:+ secs
    /\ mins <> "" /\ all Char.isDigit mins = true
    /\ String.length secs = 2%nat /\ all Char.isDigit secs = true
    /\ (Num.ofDigits secs < 60)%Z
    /\ (Num.ofDigits mins * 60 + Num.ofDigits secs = 125)%Z.
Proof. apply (formatTime_round_trip 125). lia. Defined.

(** X24.  The simple recorder hands a transcript to its parent only after a
    response with a status in 200..299, only a transcript that is not blank,
    and in a run that sets no error; unlike the full recorder it never calls
    the parent after a failure, and it passes the transcript untrimmed. *)
Theorem simpleRecorder_delivers_only_transcripts
    (JSON_parse : string -> value + string) (net : FetchOutcome) (size : nat)
    (s : string) :
  In (OnTranscript s) (simpleRecorderOnStop JSON_parse net size) ->
  Str.trim s <> ""
  /\ existsb hasError (simpleRecorderOnStop JSON_parse net size) = false
  /\ simpleRecorderOnStop JSON_parse net size
     = [SetIsProcessing true;
        Fetch "http://localhost:8000/api/transcribe" "recording.webm" "auto";
        SetTranscript s; OnTranscript s; SetIsProcessing false]
  /\ exists status body, net = FetchResponds status body /\ responseOk status = true.
Proof.
  unfold simpleRecorderOnStop. cbv zeta.
  assert (forall l : list Effect,
            In (OnTranscript s) (SetIsProcessing true :: l) -> In (OnTranscript s) l) as Hd.
  { intros l [H|H]; [discriminate H | exact H]. }
  assert (forall m l,
            In (OnTranscript s) (Fetch "http://localhost:8000/api/transcribe"
                                   "recording.webm" "auto" :: l) ->
            l = [SetErr (Some m); SetIsProcessing false] -> False) as Hc.
  { intros m l H ->. simpl in H. intuition discriminate. }
  intros Hin. apply Hd in Hin.
  destruct size as [|size]; cbn [Nat.eqb] in *.
  { exfalso. simpl in Hin. intuition discriminate. }
  destruct net as [name message| |status body];
    try (exfalso; simpl in Hin; intuition discriminate).
  destruct (responseOk status) eqn:Ok; cbn [negb] in *;
    [|exfalso; exact (Hc _ _ Hin eq_refl)].
  destruct (JSON_parse body) as [result|message];
    [|exfalso; exact (Hc _ _ Hin eq_refl)].
  assert (exists x, Str.truthy x && Str.truthy (Str.trim x) = true
                    /\ match result with
                       | VNull =>
                           [SetErr (Some "Cannot read properties of null (reading 'text')");
                            SetIsProcessing false]
                       | VUndefined =>
                           [SetErr (Some "Cannot read properties of undefined (reading 'text')");
                            SetIsProcessing false]
                       | _ =>
                           match Value.or (Value.prop result "text") result with
                           | VStr s0 =>
                               if Str.truthy s0 && Str.truthy (Str.trim s0)
                               then [SetTranscript s0; OnTranscript s0; SetIsProcessing false]
                               else [SetErr (Some "No transcript received from server");
                                     SetIsProcessing false]
                           | v =>
                               if Value.truthy v
                               then [SetErr (Some "transcribedText.trim is not a function");
                                     SetIsProcessing false]
                               else [SetErr (Some "No transcript received from server");
                                     SetIsProcessing false]
                           end
                       end = [SetTranscript x; OnTranscript x; SetIsProcessing false])
    as (x & T & E).
  { destruct result; try (exfalso; exact (Hc _ _ Hin eq_refl));
      (destruct (Value.or _ _) as [| |b'|n'|x|l'|o'];
       try (destruct (Value.truthy _); exfalso; exact (Hc _ _ Hin eq_refl));
       destruct (Str.truthy x && Str.truthy (Str.trim x)) eqn:T;
       [exists x; split; [exact T | reflexivity]
       | exfalso; exact (Hc _ _ Hin eq_refl)]). }
  rewrite E in *. simpl in Hin.
  destruct Hin as [Hin|[Hin|[Hin|[Hin|[]]]]]; try discriminate Hin.
  injection Hin as ->.
  apply andb_true_iff in T. destruct T as [_ T].
  unfold Str.truthy in T. apply negb_true_iff, isEmpty_false in T.
  repeat split; eauto.
Qed.

Lemma simpleRecorder_delivers_only_transcripts_witness :
  Str.trim " chest pain " <> ""
  /\ existsb hasError
       (simpleRecorderOnStop (parsesTo (VStr " chest pain ")) (FetchResponds 200 "") 2048)
     = false.
Proof.
  pose proof (simpleRecorder_delivers_only_transcripts
                (parsesTo (VStr " chest pain ")) (FetchResponds 200 "") 2048 " chest pain ")
    as H.
  destruct H as (H1 & H2 & _).
  - simpl. tauto.
  - split; [exact H1 | exact H2].
Defined.

(** ** Patient identifiers *)

Section PatientIds.

Lemma value36From_app a x y :
  value36From a (x +:+ y) = value36From (value36From a x) y.
Proof.
  revert a. induction x as [|c x IH]; intros a; [reflexivity|].
  cbv [append]. fold append. cbn [value36From]. apply IH.
Qed.

Lemma toUpperCase_app x y :
  Str.toUpperCase (x +:+ y) = Str.toUpperCase x +:+ Str.toUpperCase y.
Proof.
  unfold Str.toUpperCase. induction x as [|c x IH]; [reflexivity|].
  change (String c x +:+ y) with (String c (x +:+ y)). cbn [Str.map].
  rewrite IH. reflexivity.
Qed.

Lemma digit36_table :
  forallb (fun d => let c := Char.toUpper (digit36 (Z.of_nat d)) in
                    (digit36Value c =? Z.of_nat d)%Z && negb (Char.eqb c "-"))
          (seq 0 36) = true.
Proof. vm_compute. reflexivity. Qed.

Lemma digit36_upper d :
  (0 <= d < 36)%Z ->
  digit36Value (Char.toUpper (digit36 d)) = d
  /\ Char.eqb (Char.toUpper (digit36 d)) "-" = false.
Proof.
  intros H. pose proof digit36_table as T. rewrite forallb_forall in T.
  specialize (T (Z.to_nat d)). rewrite Z2Nat.id in T by lia.
  assert (In (Z.to_nat d) (seq 0 36)) as I by (apply in_seq; lia).
  apply T in I. cbv zeta in I. apply andb_true_iff in I. destruct I as [I1 I2].
  apply Z.eqb_eq in I1. apply negb_true_iff in I2. auto.
Qed.

(** What the digit loop of [toString(36)] puts in front of its
    accumulator. *)
Lemma toString36_go_spec fuel : forall n acc,
  (0 <= n < 36 ^ (Z.of_nat fuel + 1))%Z ->
  exists ds,
    toString36_go fuel n acc = ds +:+ acc
    /\ all (fun c => negb (Char.eqb (Char.toUpper c) "-")) ds = true
    /\ forall a, value36From a (Str.toUpperCase ds)
                 = (a * 36 ^ Z.of_nat (String.length ds) + n)%Z.
Proof.
  induction fuel as [|fuel IH]; intros n acc Hn.
  - assert (n < 36)%Z as L by (change (36 ^ (Z.of_nat 0 + 1))%Z with 36%Z in Hn; lia).
    destruct (digit36_upper (n mod 36) ltac:(apply Z.mod_pos_bound; lia)) as [V D].
    exists (String (digit36 (n mod 36)) ""). cbn [toString36_go]. repeat split.
    + cbn [all]. rewrite D. reflexivity.
    + intros a. cbn [Str.toUpperCase Str.map value36From String.length]. rewrite V.
      rewrite Z.mod_small by lia. change (36 ^ Z.of_nat 1)%Z with 36%Z. lia.
  - pose proof (Z.mod_pos_bound n 36 ltac:(lia)) as B.
    destruct (digit36_upper (n mod 36) B) as [V D].
    cbn [toString36_go]. destruct (Z.eqb_spec (n / 36) 0) as [E|E].
    + exists (String (digit36 (n mod 36)) ""). repeat split.
      * cbn [all]. rewrite D. reflexivity.
      * intros a. cbn [Str.toUpperCase Str.map value36From String.length]. rewrite V.
        pose proof (Z.div_mod n 36 ltac:(lia)). change (36 ^ Z.of_nat 1)%Z with 36%Z. lia.
    + assert (0 <= n / 36 < 36 ^ (Z.of_nat fuel + 1))%Z as Hq.
      { split; [apply Z.div_pos; lia|].
        apply Z.div_lt_upper_bound; [lia|].
        replace (Z.of_nat (S fuel) + 1)%Z with (Z.succ (Z.of_nat fuel + 1))%Z in Hn by lia.
        rewrite Z.pow_succ_r in Hn by lia. lia. }
      destruct (IH (n / 36)%Z (String (digit36 (n mod 36)) acc) Hq) as (ds & E1 & E2 & E3).
      exists (ds +:+ String (digit36 (n mod 36)) ""). repeat split.
      * rewrite E1, app_assoc_string. reflexivity.
      * rewrite all_app, E2. cbn [all]. rewrite D. reflexivity.
      * intros a. rewrite toUpperCase_app, value36From_app, E3.
        cbn [Str.toUpperCase Str.map value36From]. rewrite V.
        rewrite length_app_string. cbn [String.length].
        replace (Z.of_nat (String.length ds + 1)) with (Z.succ (Z.of_nat (String.length ds)))
          by lia.
        rewrite Z.pow_succ_r by lia.
        pose proof (Z.div_mod n 36 ltac:(lia)). lia.
Qed.

Lemma toString36_spec n :
  (0 <= n)%Z ->
  all (fun c => negb (Char.eqb (Char.toUpper c) "-")) (toString36 n) = true
  /\ value36From 0 (Str.toUpperCase (toString36 n)) = n.
Proof.
  intros H. unfold toString36.
  assert (0 <= n < 36 ^ (Z.of_nat (Z.to_nat (Z.log2 n)) + 1))%Z as Hn.
  { split; [exact H|]. rewrite Z2Nat.id by apply Z.log2_nonneg.
    destruct (Z.eq_dec n 0) as [->|N]; [reflexivity|].
    pose proof (Z.log2_spec n ltac:(lia)) as [_ L].
    pose proof (Z.log2_nonneg n).
    assert (2 ^ Z.succ (Z.log2 n) <= 36 ^ Z.succ (Z.log2 n))%Z
      by (apply Z.pow_le_mono_l; lia).
    replace (Z.log2 n + 1)%Z with (Z.succ (Z.log2 n)) by lia. lia. }
  destruct (toString36_go_spec _ n "" Hn) as (ds & E1 & E2 & E3).
  rewrite E1, app_empty_r. split; [exact E2|]. rewrite E3. lia.
Qed.

Lemma splitOn_dash_head a b :
  all (fun c => negb (Char.eqb c "-")) a = true ->
  nth 0 (Str.splitOn (fun c => Char.eqb c "-") (a +:+ "-" +:+ b)) "" = a.
Proof. intros H. apply splitOn_head; [exact H | reflexivity]. Qed.

Lemma generatePatientId_parts P :
  generatePatientId P
  = "PAT-" +:+ Str.toUpperCase (toString36 (t_id P)) +:+ "-"
    +:+ Str.toUpperCase (String.substring 2 5 (random36 P)).
Proof.
  unfold generatePatientId. cbv zeta.
  rewrite !toUpperCase_app. reflexivity.
Qed.

Lemma timestampOf_id P :
  (0 <= t_id P)%Z ->
  timestampOf (generatePatientId P) = Str.toUpperCase (toString36 (t_id P)).
Proof.
  intros H. rewrite generatePatientId_parts. unfold timestampOf.
  change (Str.drop 4 ("PAT-" +:+ ?x)) with x.
  apply splitOn_dash_head. unfold Str.toUpperCase. rewrite all_map.
  apply toString36_spec, H.
Qed.

End PatientIds.

(** X25.  Patient identifiers.  Every identifier starts with "PAT-" and
    holds no lower-case ASCII letter.  For a clock reading that is not
    negative, the part between "PAT-" and the next dash spells the reading
    in base 36, so the reading can be recovered from the identifier; hence
    identifiers generated at different readings differ, whatever the random
    parts are. *)
Theorem generatePatientId_unique (P Q : Platform) :
  Str.startsWith "PAT-" (generatePatientId P) = true
  /\ all (fun c => negb (Char.isAsciiLower c)) (generatePatientId P) = true
  /\ ((0 <= t_id P)%Z ->
      value36From 0 (timestampOf (generatePatientId P)) = t_id P)
  /\ ((0 <= t_id P)%Z -> (0 <= t_id Q)%Z ->
      generatePatientId P = generatePatientId Q -> t_id P = t_id Q).
Proof.
  repeat apply conj.
  - rewrite generatePatientId_parts. reflexivity.
  - unfold generatePatientId, Str.toUpperCase. cbv zeta. rewrite all_map.
    generalize ("PAT-" +:+ toString36 (t_id P) +:+ "-" +:+ String.substring 2 5 (random36 P)).
    intros s. induction s as [|c s IH]; [reflexivity|]. cbn [all]. rewrite IH, andb_true_r.
    clear. destruct c as [[] [] [] [] [] [] [] []]; reflexivity.
  - intros H. rewrite timestampOf_id by exact H. apply toString36_spec, H.
  - intros HP HQ E.
    pose proof (f_equal (fun id => value36From 0 (timestampOf id)) E) as V.
    cbv beta in V. rewrite !timestampOf_id in V by assumption.
    rewrite (proj2 (toString36_spec _ HP)), (proj2 (toString36_spec _ HQ)) in V.
    exact V.
Qed.

Lemma generatePatientId_unique_witness :
  value36From 0 (timestampOf (generatePatientId samplePlatform)) = 1793491200123%Z.
Proof.
  apply (proj1 (proj2 (proj2 (generatePatientId_unique samplePlatform samplePlatform)))).
  vm_compute. discriminate.
Defined.

(** ** Post-processing twice *)

Section Idempotence.

Lemma aadhaar_grouped_only_digits c :
  all Char.isDigit c = true -> String.length c = 12%nat ->
  Str.filter Char.isDigit
    (Str.substring 0 4 c +:+ " " +:+ Str.substring 4 8 c +:+ " " +:+ Str.substring 8 12 c)
  = c.
Proof.
  intros Hd Hl.
  do 12 (destruct c as [|? c]; [discriminate Hl|]).
  destruct c; [|discriminate Hl].
  cbn [all] in Hd.
  repeat (apply andb_true_iff in Hd; destruct Hd as [?D Hd]).
  cbv [Str.substring Nat.sub String.substring append Str.filter].
  change (Char.isDigit " ") with false.
  repeat match goal with H : Char.isDigit ?a = true |- _ => rewrite H; clear H end.
  reflexivity.
Qed.

Lemma normalizeAadhaarNumber_idem a :
  normalizeAadhaarNumber (Some (normalizeAadhaarNumber a)) = normalizeAadhaarNumber a.
Proof.
  destruct a as [a|]; [|reflexivity].
  destruct a as [|x a]; [reflexivity|].
  assert (forall s, normalizeAadhaarNumber (Some s) =
            if Str.isEmpty s then ""
            else if (String.length (Str.filter Char.isDigit s) =? 12)%nat
                 then Str.substring 0 4 (Str.filter Char.isDigit s) +:+ " "
                      +:+ Str.substring 4 8 (Str.filter Char.isDigit s) +:+ " "
                      +:+ Str.substring 8 12 (Str.filter Char.isDigit s)
                 else Str.filter Char.isDigit s) as U by reflexivity.
  rewrite (U (String x a)). cbn [Str.isEmpty].
  pose proof (filter_all Char.isDigit (String x a)) as Hd.
  set (c := Str.filter Char.isDigit (String x a)) in *.
  destruct (String.length c =? 12)%nat eqn:E.
  - apply Nat.eqb_eq in E. rewrite U.
    rewrite (aadhaar_grouped_only_digits c Hd E), E.
    destruct (Str.isEmpty _) eqn:Z; [|rewrite Nat.eqb_refl; reflexivity].
    apply isEmpty_true in Z. apply (f_equal String.length) in Z.
    rewrite !length_app_string in Z. simpl in Z. lia.
  - rewrite U, (filter_id _ _ Hd), E.
    destruct c; reflexivity.
Qed.

Lemma normalizeMobileNumber_idem m :
  normalizeMobileNumber (Some (normalizeMobileNumber m)) = normalizeMobileNumber m.
Proof.
  destruct m as [m|]; [|reflexivity]. rewrite !normalizeMobileNumber_some.
  rewrite (filter_id Char.isDigit (String.substring 0 10 _))
    by apply substring_prefix_all, filter_all.
  apply substring_prefix_whole. rewrite substring_prefix_length. lia.
Qed.

Lemma normalizeGender_toString g : normalizeGender (Some (Gender_toString g)) = g.
Proof. destruct g; reflexivity. Qed.

Lemma trimmedOrEmpty_idem f : Str.trim (trimmedOrEmpty f) = trimmedOrEmpty f.
Proof. destruct f as [s|]; [apply trim_idem | reflexivity]. Qed.

End Idempotence.

(** X26.  Post-processing is idempotent on the data it produces.  Let a raw
    input be post-processed, and the resulting record be post-processed once
    more, by a later run with its own clock.  While the first run's today,
    tomorrow and yesterday fall in the years 0 to 9999, and unless the raw
    date has a year of three digits or the raw time is a pm time with an
    hour of 88 or more, the second run changes none of the data fields:
    names, numbers, age, gender, date, time and status stay as the first run
    left them; only the identifier and the time stamps are made anew. *)
Theorem postProcessAdmission_idempotent (P Q : Platform) (rawData : RawAdmissionData) :
  clockInYears (zone P) (t_date P) = true ->
  threeDigitYear (Str.trim (default "" (raw_admission_date rawData))) = false ->
  lateHour (Str.trim (default "" (raw_admission_time rawData))) = false ->
  let first := (postProcessAdmission P rawData).1 in
  let second := (postProcessAdmission Q (asRaw first)).1 in
  dataOf second = dataOf first.
Proof.
  intros Hclock Hdate Htime. cbv zeta. unfold postProcessAdmission. cbv zeta. cbn [fst].
  unfold dataOf.
  cbn [processedRecord asRaw name age gender mobile_no admitted_under_doctor
       attender_name relation attender_mobile_no aadhaar_number admission_date
       admission_time ward bed_number reason status
       raw_name raw_age raw_gender raw_mobile_no raw_admitted_under_doctor
       raw_attender_name raw_relation raw_attender_mobile_no raw_aadhaar_number
       raw_admission_date raw_admission_time raw_ward raw_bed_number raw_reason].
  cbn [trimmedOrEmpty normalizeAge].
  rewrite !trimmedOrEmpty_idem, !normalizeMobileNumber_idem, normalizeAadhaarNumber_idem,
    normalizeGender_toString.
  pose proof (normalizeDate_shape (zone P) (t_date P) (raw_admission_date rawData) Hclock)
    as Sd.
  rewrite Hdate in Sd. cbn [negb] in Sd.
  pose proof (normalizeTime_shape (zone P) (t_time P) (raw_admission_time rawData)) as St.
  rewrite Htime in St. cbn [negb] in St.
  rewrite (normalizeDate_fixed _ _ _ Sd), (normalizeTime_fixed _ _ _ St).
  reflexivity.
Qed.

Lemma postProcessAdmission_idempotent_witness :
  dataOf (postProcessAdmission samplePlatform
            (asRaw (postProcessAdmission samplePlatform sampleReply).1)).1
  = dataOf (postProcessAdmission samplePlatform sampleReply).1.
Proof.
  apply (postProcessAdmission_idempotent samplePlatform samplePlatform sampleReply);
    reflexivity.
Defined.

(** ** The merge policy as an operation *)

(** X27.  Laws of [mergeIfPresent], on the own properties of the record it
    returns when the call completes.  Merging the empty patch, or a patch
    none of whose values passes the guard, returns the base unchanged;
    merging the same patch a second time changes nothing; a merge never
    removes a key of the base and never creates an own key [__proto__]; and
    of two patches merged in turn, the later one wins on every key for which
    it has a value that passes the guard, provided the key is not
    [__proto__] or the base owns it. *)
Theorem mergeIfPresent_laws (base patch : object) :
  mergeIfPresent base ∅ = base
  /\ ((forall k v, patch !! k = Some v -> present v = false) ->
      mergeIfPresent base patch = base)
  /\ mergeIfPresent (mergeIfPresent base patch) patch = mergeIfPresent base patch
  /\ (forall k, is_Some (base !! k) -> is_Some (mergeIfPresent base patch !! k))
  /\ (base !! "__proto__" = None -> mergeIfPresent base patch !! "__proto__" = None)
  /\ (forall (later : object) k v,
        later !! k = Some v -> present v = true ->
        k <> "__proto__" \/ is_Some (base !! k) ->
        mergeIfPresent (mergeIfPresent base patch) later !! k = Some v).
Proof.
  assert (forall k, is_Some (base !! k) -> is_Some (mergeIfPresent base patch !! k)) as Hkeep.
  { intros k H. rewrite mergeIfPresent_lookup_own.
    destruct (patch !! k) as [v|]; [|exact H].
    destruct (present v && negb (hitsProtoSetter base k)); [eauto | exact H]. }
  repeat apply conj.
  - apply map_eq. intros k. rewrite mergeIfPresent_lookup_own, lookup_empty. reflexivity.
  - intros H. apply map_eq. intros k. rewrite mergeIfPresent_lookup_own.
    destruct (patch !! k) as [v|] eqn:E; [|reflexivity].
    rewrite (H k v E). reflexivity.
  - apply map_eq. intros k. rewrite (mergeIfPresent_lookup_own (mergeIfPresent base patch)).
    destruct (patch !! k) as [v|] eqn:E; [|reflexivity].
    destruct (present v) eqn:Hv; [|reflexivity]. cbn [andb].
    destruct (hitsProtoSetter (mergeIfPresent base patch) k) eqn:Hh; [reflexivity|].
    cbn [negb]. rewrite mergeIfPresent_lookup_own, E, Hv. cbn [andb].
    destruct (hitsProtoSetter base k) eqn:Hb; [|reflexivity]. exfalso.
    assert (mergeIfPresent base patch !! k = None) as N.
    { rewrite mergeIfPresent_lookup_own, E, Hv, Hb. apply hitsProtoSetter_none, Hb. }
    unfold hitsProtoSetter in Hh, Hb. rewrite N in Hh.
    apply andb_prop in Hb as [Hb _]. rewrite Hb in Hh. discriminate Hh.
  - exact Hkeep.
  - intros Hb. rewrite mergeIfPresent_lookup_own.
    assert (hitsProtoSetter base "__proto__" = true) as ->.
    { unfold hitsProtoSetter. rewrite Hb. reflexivity. }
    destruct (patch !! "__proto__") as [v|]; [|exact Hb].
    rewrite andb_false_r. exact Hb.
  - intros later k v E Hv Hk. rewrite mergeIfPresent_lookup_own, E, Hv.
    assert (hitsProtoSetter (mergeIfPresent base patch) k = false) as ->.
    { destruct Hk as [Hk|Hk];
        [apply hitsProtoSetter_other, Hk | apply hitsProtoSetter_owned, Hkeep, Hk]. }
    reflexivity.
Qed.

Lemma mergeIfPresent_laws_witness :
  mergeIfPresent emptyForm {[ "name" := VStr "   " ]} = emptyForm
  /\ is_Some (mergeIfPresent emptyForm {[ "name" := VStr "   " ]} !! "gender")
  /\ mergeIfPresent emptyForm {[ "name" := VStr "   " ]} !! "__proto__" = None
  /\ mergeIfPresent (mergeIfPresent emptyForm {[ "name" := VStr "   " ]})
       {[ "name" := VStr "Asha" ]} !! "name" = Some (VStr "Asha").
Proof.
  pose proof (mergeIfPresent_laws emptyForm {[ "name" := VStr "   " ]})
    as (_ & H1 & _ & H2 & H4 & H3).
  split; [|split; [|split]].
  - apply H1. intros k v E. apply lookup_singleton_Some in E. destruct E as [_ <-].
    reflexivity.
  - apply H2. vm_compute. eauto.
  - apply H4. reflexivity.
  - apply (H3 {[ "name" := VStr "Asha" ]} "name" (VStr "Asha"));
      [reflexivity | reflexivity | left; discriminate].
Defined.

(** ** Editing a stored patient *)

Section Editing.


End Editing.


